(** * postgres-vector-agent: the observe / reason / act / verify loop

    A shallow embedding of [src/agent]: [query_analyzer.py], [database.py],
    [optimizer.py] and [agent_core.py].  Python dictionaries with a fixed
    set of keys are records whose fields are options ([None] = the key is
    absent); Python exceptions are an explicit outcome; the PostgreSQL
    server, the ollama daemon and the embedding model are scripted
    collaborators carried in the state. *)

From Stdlib Require Import ZArith String Ascii List Bool Lia SpecFloat DecimalString.
Import ListNotations.

Local Open Scope string_scope.
Local Open Scope Z_scope.

(** ** Python values *)

Module Py.

(** Exceptions that the modelled code can raise or meet. *)
Inductive exn : Type :=
| KeyError (key : string)
| AttributeError (msg : string)
| ValueError (msg : string)
| ZeroDivisionError (msg : string)
| OverflowError (msg : string)
| Exception (msg : string)          (* [raise Exception("...")] *)
| DatabaseError (msg : string)      (* psycopg2.Error *)
| ResponseError (msg : string)      (* ollama, or its transport *)
| EmbeddingError (msg : string).    (* sentence-transformers *)

(** [str(e)]. *)
Definition str_exn (e : exn) : string :=
  match e with
  | KeyError key => "'" ++ key ++ "'"
  | AttributeError msg | ValueError msg | ZeroDivisionError msg
  | OverflowError msg | Exception msg | DatabaseError msg
  | ResponseError msg | EmbeddingError msg => msg
  end.

Inductive outcome (A : Type) : Type :=
| Return (a : A)
| Raise (e : exn).
Arguments Return {A} a.
Arguments Raise {A} e.

(** A computation over a mutable state [S]: the state survives a raise,
    as the fields of a Python object do. *)
Definition M (S A : Type) : Type := S -> outcome A * S.

Definition ret {S A} (a : A) : M S A := fun s => (Return a, s).
Definition raise {S A} (e : exn) : M S A := fun s => (Raise e, s).
Definition bind {S A B} (c : M S A) (k : A -> M S B) : M S B :=
  fun s => match c s with
           | (Return a, s') => k a s'
           | (Raise e, s') => (Raise e, s')
           end.
(** [try: c  except Exception as e: h e]. *)
Definition try_except {S A} (c : M S A) (h : exn -> M S A) : M S A :=
  fun s => match c s with
           | (Return a, s') => (Return a, s')
           | (Raise e, s') => h e s'
           end.
Definition get {S} : M S S := fun s => (Return s, s).
Definition modify {S} (f : S -> S) : M S unit := fun s => (Return tt, f s).
(** Run a computation on a component of the state. *)
Definition zoom {S T A} (proj : S -> T) (inj : T -> S -> S) (c : M T A) : M S A :=
  fun s => let (o, t) := c (proj s) in (o, inj t s).
Definition lift {S A} (o : outcome A) : M S A := fun s => (o, s).

(** [d[key]] on a dictionary whose field [key] is the option [o]. *)
Definition getitem {S A} (key : string) (o : option A) : M S A :=
  match o with
  | Some v => ret v
  | None => raise (KeyError key)
  end.
(** [d.get(key, default)]. *)
Definition get_default {A} (o : option A) (default : A) : A :=
  match o with
  | Some v => v
  | None => default
  end.

(** *** Floats: IEEE 754 binary64 *)

Definition float : Type := spec_float.
Definition prec : Z := 53.
Definition emax : Z := 1024.

(** [float(z)] for an integer literal. *)
Definition float_of_Z (z : Z) : float := binary_normalize prec emax z 0 false.
Definition fadd : float -> float -> float := SFadd prec emax.
Definition fsub : float -> float -> float := SFsub prec emax.
Definition fmul : float -> float -> float := SFmul prec emax.
(** [x > y], [x < y], [x <= y]. *)
Definition fgt (x y : float) : bool := SFltb y x.
Definition flt (x y : float) : bool := SFltb x y.
Definition fle (x y : float) : bool := SFleb x y.
Definition is_zero (x : float) : bool :=
  match x with
  | S754_zero _ => true
  | _ => false
  end.
(** [x / y] on floats: a zero divisor raises. *)
Definition truediv (x y : float) : outcome float :=
  if is_zero y then Raise (ZeroDivisionError "float division by zero")
  else Return (SFdiv prec emax x y).

(** An integer as an exact (not normalised) binary number. *)
Definition exact_of_Z (z : Z) : float :=
  match z with
  | Z0 => S754_zero false
  | Zpos p => S754_finite false p 0
  | Zneg p => S754_finite true p 0
  end.
(** [a / b] on integers: the correctly rounded quotient; a zero divisor
    and a quotient outside the double range raise. *)
Definition int_truediv (a b : Z) : outcome float :=
  if b =? 0 then Raise (ZeroDivisionError "division by zero")
  else match SFdiv prec emax (exact_of_Z a) (exact_of_Z b) with
       | S754_infinity _ =>
           Raise (OverflowError "integer division result too large for a float")
       | q => Return q
       end.

(** The literal [0.1]. *)
Definition float_0_1 : float := S754_finite false 7205759403792794 (-56).

(** *** Strings *)

(** A [string] holds the UTF-8 encoding of a Python [str], one [ascii] per
    byte: searching, splitting at a newline and replacing work on the
    bytes as they do on the characters; counting, slicing and the white
    space of [strip] go by the characters. *)

(** A byte that continues a character: [10xxxxxx]. *)
Definition is_continuation (c : ascii) : bool :=
  ((128 <=? nat_of_ascii c) && (nat_of_ascii c <? 192))%nat.

(** [len(s)]: one for every byte that starts a character. *)
Fixpoint len (s : string) : nat :=
  match s with
  | EmptyString => O
  | String c rest => ((if is_continuation c then 0 else 1) + len rest)%nat
  end.

(** [s[:n]]: the first [n] characters. *)
Fixpoint slice_to (n : nat) (s : string) : string :=
  match s with
  | EmptyString => EmptyString
  | String c rest =>
      if is_continuation c then String c (slice_to n rest)
      else match n with
           | O => EmptyString
           | S n' => String c (slice_to n' rest)
           end
  end.

(** [str(z)] for an integer. *)
Definition str_int (z : Z) : string := NilZero.string_of_int (Z.to_int z).

(** [needle in hay]. *)
Fixpoint contains (needle hay : string) : bool :=
  String.prefix needle hay ||
  match hay with
  | EmptyString => false
  | String _ rest => contains needle rest
  end.

Definition is_upper (c : ascii) : bool :=
  (65 <=? nat_of_ascii c)%nat && (nat_of_ascii c <=? 90)%nat.
Definition lower_char (c : ascii) : ascii :=
  if is_upper c then ascii_of_nat (nat_of_ascii c + 32) else c.
(** [s.lower()]; characters outside ASCII are left as they are. *)
Fixpoint lower (s : string) : string :=
  match s with
  | EmptyString => EmptyString
  | String c rest => String (lower_char c) (lower rest)
  end.
Definition upper_char (c : ascii) : ascii :=
  if (97 <=? nat_of_ascii c)%nat && (nat_of_ascii c <=? 122)%nat
  then ascii_of_nat (nat_of_ascii c - 32) else c.
(** [s.upper()]. *)
Fixpoint upper (s : string) : string :=
  match s with
  | EmptyString => EmptyString
  | String c rest => String (upper_char c) (upper rest)
  end.

Definition newline : ascii := ascii_of_nat 10.

(** [s.split('\n')]: always at least one piece. *)
Fixpoint split_lines_aux (s : string) (cur : string) : list string :=
  match s with
  | EmptyString => [cur]
  | String c rest =>
      if Ascii.eqb c newline then cur :: split_lines_aux rest EmptyString
      else split_lines_aux rest (cur ++ String c EmptyString)
  end.
Definition split_lines (s : string) : list string := split_lines_aux s EmptyString.

(** The characters [str.strip()] removes are those of [str.isspace()]:
    U+0009 to U+000D, U+001C to U+0020, then U+0085 and U+00A0 (two
    bytes), and U+1680, U+2000 to U+200A, U+2028, U+2029, U+202F, U+205F
    and U+3000 (three bytes). *)
Definition is_space (c : ascii) : bool :=
  let n := nat_of_ascii c in
  ((9 <=? n) && (n <=? 13) || (28 <=? n) && (n <=? 32))%nat.
Definition is_space2 (a b : ascii) : bool :=
  let (x, y) := (nat_of_ascii a, nat_of_ascii b) in
  ((x =? 194) && ((y =? 133) || (y =? 160)))%nat.
Definition is_space3 (a b c : ascii) : bool :=
  let '(x, y, z) := (nat_of_ascii a, nat_of_ascii b, nat_of_ascii c) in
  ((x =? 225) && (y =? 154) && (z =? 128)
   || (x =? 226) && (y =? 128)
      && ((128 <=? z) && (z <=? 138) || (z =? 168) || (z =? 169) || (z =? 175))
   || (x =? 226) && (y =? 129) && (z =? 159)
   || (x =? 227) && (y =? 128) && (z =? 128))%nat.
(** A string that is one white-space character. *)
Definition is_space_char (s : string) : bool :=
  match s with
  | String a EmptyString => is_space a
  | String a (String b EmptyString) => is_space2 a b
  | String a (String b (String c EmptyString)) => is_space3 a b c
  | _ => false
  end.
Fixpoint lstrip (s : string) : string :=
  match s with
  | EmptyString => EmptyString
  | String a s1 =>
      if is_space a then lstrip s1
      else match s1 with
           | EmptyString => s
           | String b s2 =>
               if is_space2 a b then lstrip s2
               else match s2 with
                    | EmptyString => s
                    | String c s3 => if is_space3 a b c then lstrip s3 else s
                    end
           end
  end.
(** From the right: what is left of the rest, with this byte before it, is
    dropped when it is one white-space character. *)
Fixpoint rstrip (s : string) : string :=
  match s with
  | EmptyString => EmptyString
  | String c rest =>
      let kept := String c (rstrip rest) in
      if is_space_char kept then EmptyString else kept
  end.
(** [s.strip()]. *)
Definition strip (s : string) : string := rstrip (lstrip s).

(** [s.replace(old, '')] for a non-empty [old]: [skip] characters of a
    match are still to be dropped. *)
Fixpoint remove_all_aux (old s : string) (skip : nat) : string :=
  match s with
  | EmptyString => EmptyString
  | String c rest =>
      match skip with
      | S k => remove_all_aux old rest k
      | O =>
          if String.prefix old s
          then remove_all_aux old rest (Nat.pred (String.length old))
          else String c (remove_all_aux old rest O)
      end
  end.
Definition remove_all (old s : string) : string := remove_all_aux old s O.

(** Truth value of a string: [not s] is [true] on the empty string. *)
Definition not_str (s : string) : bool :=
  match s with
  | EmptyString => true
  | _ => false
  end.

(** [sep.join(l)]. *)
Fixpoint join (sep : string) (l : list string) : string :=
  match l with
  | [] => EmptyString
  | [s] => s
  | s :: rest => s ++ sep ++ join sep rest
  end.

End Py.

Declare Scope py_scope.
Delimit Scope py_scope with py.
Notation "x <- c ;; k" := (Py.bind c (fun x => k))
  (at level 61, c at next level, right associativity) : py_scope.
Notation "c ;;; k" := (Py.bind c (fun _ => k))
  (at level 61, right associativity) : py_scope.

Local Open Scope py_scope.

(** ** query_analyzer.py *)

(** A node of the plan tree of [EXPLAIN (ANALYZE, FORMAT JSON)], with the
    keys the code reads: ['Node Type'], ['Index Name'], ['Actual Rows'] and
    ['Plans'].  A key is absent ([None]) or holds a value of the type that
    PostgreSQL gives it: a string, an integer, a list of nodes.  A key
    that holds Python's [None] or a value of another type, on which the
    code raises [AttributeError] or [TypeError], has no counterpart in
    this type. *)
#[local] Set Warnings "-register-all".
Inductive plan : Type :=
| PlanDict (node_type : option string) (index_name : option string)
           (actual_rows : option Z) (plans : option (list plan)).

Definition node_type (p : plan) : option string :=
  let 'PlanDict nt _ _ _ := p in nt.
Definition index_name (p : plan) : option string :=
  let 'PlanDict _ idx _ _ := p in idx.
Definition actual_rows (p : plan) : option Z :=
  let 'PlanDict _ _ rows _ := p in rows.
Definition plans (p : plan) : option (list plan) :=
  let 'PlanDict _ _ _ kids := p in kids.

(** The dictionary PostgreSQL returns: ['Plan'], ['Execution Time'] and
    ['Planning Time']. *)
Record explain_output : Type := {
  Plan : option plan;
  Execution_Time : option Py.float;
  Planning_Time : option Py.float
}.

(** The dictionary [_extract_scan_info] builds. *)
Module ScanInfo.
Record t : Type := {
  primary_scan : string;
  index_used : bool;
  index_name : option string;
  rows_scanned : Z;
  scans_found : list string
}.
Definition set_primary_scan (v : string) (i : t) : t :=
  {| primary_scan := v; index_used := index_used i; index_name := index_name i;
     rows_scanned := rows_scanned i; scans_found := scans_found i |}.
Definition set_index (used : bool) (name : option string) (i : t) : t :=
  {| primary_scan := primary_scan i; index_used := used; index_name := name;
     rows_scanned := rows_scanned i; scans_found := scans_found i |}.
Definition add_rows (n : Z) (i : t) : t :=
  {| primary_scan := primary_scan i; index_used := index_used i;
     index_name := index_name i; rows_scanned := rows_scanned i + n;
     scans_found := scans_found i |}.
Definition extend_scans (l : list string) (i : t) : t :=
  {| primary_scan := primary_scan i; index_used := index_used i;
     index_name := index_name i; rows_scanned := rows_scanned i;
     scans_found := (scans_found i ++ l)%list |}.
End ScanInfo.

(** One entry of ['recommendations']. *)
Record recommendation : Type := {
  rec_type : string;
  rec_priority : string;
  rec_action : string;
  rec_reasoning : string;
  rec_expected_improvement : string
}.

(** The analysis dictionary.  [QueryAnalyzer.analyze_plan] and
    [DatabaseManager.analyze_query] both build one, with different keys;
    [AutoTuningAgent.observe] adds ['issues']. *)
Module Analysis.
Record t : Type := {
  execution_time_ms : option Py.float;
  planning_time_ms : option Py.float;
  total_time_ms : option Py.float;
  scan_type : option string;
  index_used : option bool;
  rows_scanned : option Z;
  rows_returned : option Z;
  issues : option (list string);
  recommendations : option (list recommendation);
  raw_plan : option plan;
  error : option string
}.
(** [{}] *)
Definition empty : t :=
  {| execution_time_ms := None; planning_time_ms := None; total_time_ms := None;
     scan_type := None; index_used := None; rows_scanned := None;
     rows_returned := None; issues := None; recommendations := None;
     raw_plan := None; error := None |}.
(** [analysis['issues'] = v] *)
Definition set_issues (v : list string) (a : t) : t :=
  {| execution_time_ms := execution_time_ms a; planning_time_ms := planning_time_ms a;
     total_time_ms := total_time_ms a; scan_type := scan_type a;
     index_used := index_used a; rows_scanned := rows_scanned a;
     rows_returned := rows_returned a; issues := Some v;
     recommendations := recommendations a; raw_plan := raw_plan a;
     error := error a |}.
End Analysis.

Module QueryAnalyzer.

(** [self.scan_types.get(node_type, 'unknown')] *)
Definition scan_types_get (node_type : string) (default : string) : string :=
  if String.eqb node_type "Seq Scan" then "sequential"
  else if String.eqb node_type "Index Scan" then "index"
  else if String.eqb node_type "Index Only Scan" then "index_only"
  else if String.eqb node_type "Bitmap Heap Scan" then "bitmap"
  else default.

(** The [info] dictionary at the start of [_extract_scan_info]. *)
Definition info0 : ScanInfo.t :=
  {| ScanInfo.primary_scan := "unknown"; ScanInfo.index_used := false;
     ScanInfo.index_name := None; ScanInfo.rows_scanned := 0;
     ScanInfo.scans_found := [] |}.

(** The part of [_extract_scan_info] on the node itself (lines 71-83). *)
Definition scan_node (p : plan) (level : nat) (info : ScanInfo.t) : ScanInfo.t :=
  let node_type := Py.get_default (node_type p) "" in
  if Py.contains "Scan" node_type then
    let info := ScanInfo.extend_scans [node_type] info in
    let info :=
      if (level =? 0)%nat || Py.not_str (ScanInfo.primary_scan info)
      then ScanInfo.set_primary_scan (scan_types_get node_type "unknown") info
      else info in
    let info :=
      if Py.contains "Index" node_type
      then ScanInfo.set_index true (index_name p) info
      else info in
    ScanInfo.add_rows (Py.get_default (actual_rows p) 0) info
  else info.

(** The body of the loop over [plan['Plans']] (lines 88-93). *)
Definition merge_child (info child_info : ScanInfo.t) : ScanInfo.t :=
  let info :=
    if negb (ScanInfo.index_used info) && ScanInfo.index_used child_info
    then ScanInfo.set_index (ScanInfo.index_used child_info)
                            (ScanInfo.index_name child_info) info
    else info in
  let info := ScanInfo.add_rows (ScanInfo.rows_scanned child_info) info in
  ScanInfo.extend_scans (ScanInfo.scans_found child_info) info.

Fixpoint _extract_scan_info (p : plan) (level : nat) {struct p} : ScanInfo.t :=
  let info := scan_node p level info0 in
  match p with
  | PlanDict _ _ _ (Some children) =>
      fold_left
        (fun info child_plan =>
           merge_child info (_extract_scan_info child_plan (S level)))
        children info
  | PlanDict _ _ _ None => info
  end.

(** [issues.append(tag)] under a condition. *)
Definition append_if (c : bool) (tag : string) (issues : list string) : list string :=
  if c then (issues ++ [tag])%list else issues.

Definition _detect_issues (p : plan) (scan_info : ScanInfo.t)
           (execution_time : Py.float) : Py.outcome (list string) :=
  let issues := [] in
  let issues :=
    if String.eqb (ScanInfo.primary_scan scan_info) "sequential" then
      if ScanInfo.rows_scanned scan_info >? 1000
      then (issues ++ ["SEQUENTIAL_SCAN_LARGE_DATASET"])%list
      else (issues ++ ["SEQUENTIAL_SCAN_SMALL_DATASET"])%list
    else issues in
  let issues :=
    append_if (Py.fgt execution_time (Py.float_of_Z 100)) "HIGH_EXECUTION_TIME" issues in
  let issues :=
    append_if (negb (ScanInfo.index_used scan_info)
               && (ScanInfo.rows_scanned scan_info >? 500))
              "NO_INDEX_AVAILABLE" issues in
  let rows_returned := Py.get_default (actual_rows p) 0 in
  if ScanInfo.rows_scanned scan_info >? 0 then
    match Py.int_truediv rows_returned (ScanInfo.rows_scanned scan_info) with
    | Py.Raise e => Py.Raise e
    | Py.Return selectivity =>
        Py.Return
          (append_if (Py.flt selectivity Py.float_0_1
                      && (ScanInfo.rows_scanned scan_info >? 1000))
                     "LOW_SELECTIVITY" issues)
    end
  else Py.Return issues.

(** [tag in issues] *)
Definition mem (tag : string) (issues : list string) : bool :=
  existsb (String.eqb tag) issues.

Definition _generate_recommendations (issues : list string)
           (scan_info : ScanInfo.t) : list recommendation :=
  let recommendations := [] in
  let recommendations :=
    if mem "SEQUENTIAL_SCAN_LARGE_DATASET" issues then
      app recommendations
      [{| rec_type := "CREATE_INDEX"; rec_priority := "HIGH";
          rec_action := "create_hnsw_index";
          rec_reasoning :=
            "Sequential scan detected on "
            ++ Py.str_int (ScanInfo.rows_scanned scan_info) ++ " rows. "
            ++ "Vector similarity search requires an index for acceptable performance.";
          rec_expected_improvement := "10-100x faster queries" |}]
    else recommendations in
  let recommendations :=
    if mem "HIGH_EXECUTION_TIME" issues && negb (ScanInfo.index_used scan_info) then
      app recommendations
      [{| rec_type := "CREATE_INDEX"; rec_priority := "HIGH";
          rec_action := "create_hnsw_index";
          rec_reasoning :=
            "High execution time without index usage. HNSW index recommended.";
          rec_expected_improvement := "40-50x faster queries" |}]
    else recommendations in
  let recommendations :=
    if mem "NO_INDEX_AVAILABLE" issues then
      app recommendations
      [{| rec_type := "CREATE_INDEX"; rec_priority := "MEDIUM";
          rec_action := "create_ivfflat_index";
          rec_reasoning :=
            "No vector index found. Consider IVFFlat for larger datasets.";
          rec_expected_improvement := "20-30x faster queries" |}]
    else recommendations in
  if mem "LOW_SELECTIVITY" issues then
    app recommendations
    [{| rec_type := "OPTIMIZE_QUERY"; rec_priority := "MEDIUM";
        rec_action := "add_filters";
        rec_reasoning := "Low selectivity detected. Consider adding WHERE clauses.";
        rec_expected_improvement := "Reduced rows scanned" |}]
  else recommendations.

(** [{'error': 'Invalid EXPLAIN output'}] *)
Definition invalid_explain : Analysis.t :=
  {| Analysis.execution_time_ms := None; Analysis.planning_time_ms := None;
     Analysis.total_time_ms := None; Analysis.scan_type := None;
     Analysis.index_used := None; Analysis.rows_scanned := None;
     Analysis.rows_returned := None; Analysis.issues := None;
     Analysis.recommendations := None; Analysis.raw_plan := None;
     Analysis.error := Some "Invalid EXPLAIN output" |}.

(** [analyze_plan]; the argument is [None] for Python's [None], and
    otherwise a dictionary whose entries, where present, have the types
    of the EXPLAIN output (the empty dictionary has none of them). *)
Definition analyze_plan (explain_output : option explain_output)
  : Py.outcome Analysis.t :=
  match explain_output with
  | None => Py.Return invalid_explain
  | Some eo =>
      match Plan eo with
      | None => Py.Return invalid_explain
      | Some plan =>
          let execution_time :=
            Py.get_default (Execution_Time eo) (Py.float_of_Z 0) in
          let planning_time :=
            Py.get_default (Planning_Time eo) (Py.float_of_Z 0) in
          let scan_info := _extract_scan_info plan 0 in
          match _detect_issues plan scan_info execution_time with
          | Py.Raise e => Py.Raise e
          | Py.Return issues =>
              let recommendations := _generate_recommendations issues scan_info in
              Py.Return
                {| Analysis.execution_time_ms := Some execution_time;
                   Analysis.planning_time_ms := Some planning_time;
                   Analysis.total_time_ms :=
                     Some (Py.fadd execution_time planning_time);
                   Analysis.scan_type := Some (ScanInfo.primary_scan scan_info);
                   Analysis.index_used := Some (ScanInfo.index_used scan_info);
                   Analysis.rows_scanned := Some (ScanInfo.rows_scanned scan_info);
                   Analysis.rows_returned :=
                     Some (Py.get_default (actual_rows plan) 0);
                   Analysis.issues := Some issues;
                   Analysis.recommendations := Some recommendations;
                   Analysis.raw_plan := Some plan;
                   Analysis.error := None |}
          end
      end
  end.

End QueryAnalyzer.


(** ** database.py *)

(** The dictionary given to [log_query_metric]. *)
Record metric_data : Type := {
  query_type : string;
  metric_execution_time_ms : Py.float;
  metric_index_used : bool;
  metric_rows_scanned : Z;
  query_plan_scan_type : string
}.

(** The dictionary given to [log_agent_action]. *)
Record action_data : Type := {
  action_type : string;
  action_reasoning : string;
  action_sql_executed : string;
  action_success : bool;
  impact_expected_improvement : option string;
  impact_confidence : option string
}.

(** The statements the code sends through its cursor. *)
Inductive statement : Type :=
| ExplainAnalyze (embedding : list Py.float)
| CountIndex (indexname : string)
| InsertQueryMetric (row : metric_data)
| InsertAgentAction (row : action_data)
| DropIndexIfExists (indexname : string)
| CreateIndex (indexname : string) (index_type : string)
| RegisterIndex (indexname : string) (index_type : string).

(** What the cursor holds after a statement. *)
Inductive result_set : Type :=
| NoResult
| CountRows (rows : list Z)                           (* column [count] *)
| ExplainRow (row : option (list explain_output)).    (* [fetchone()] *)

Module DatabaseManager.

(** The tables of schema [rag_system] that the code reads or writes;
    [pg_indexes] holds the [indexname] column of the catalogue view. *)
Record tables : Type := {
  pg_indexes : list string;
  index_registry : list (string * string);
  query_metrics : list metric_data;
  agent_actions : list action_data
}.

(** The connection: the committed tables, the tables as the open
    transaction sees them, and the script of the server: which statement
    (by its number on this connection) fails, and what an EXPLAIN returns. *)
Record t : Type := {
  committed : tables;
  pending : tables;
  statements : nat;
  fault : nat -> option string;
  explain : nat -> option (list explain_output)
}.

Definition set_pending (tb : tables) (db : t) : t :=
  {| committed := committed db; pending := tb; statements := statements db;
     fault := fault db; explain := explain db |}.

(** The effect of a statement that succeeds. *)
Definition apply_statement (st : statement) (tb : tables) : tables :=
  match st with
  | ExplainAnalyze _ | CountIndex _ => tb
  | InsertQueryMetric row =>
      {| pg_indexes := pg_indexes tb; index_registry := index_registry tb;
         query_metrics := (query_metrics tb ++ [row])%list;
         agent_actions := agent_actions tb |}
  | InsertAgentAction row =>
      {| pg_indexes := pg_indexes tb; index_registry := index_registry tb;
         query_metrics := query_metrics tb;
         agent_actions := (agent_actions tb ++ [row])%list |}
  | DropIndexIfExists name =>
      {| pg_indexes := remove string_dec name (pg_indexes tb);
         index_registry := index_registry tb;
         query_metrics := query_metrics tb; agent_actions := agent_actions tb |}
  | CreateIndex name _ =>
      {| pg_indexes := (pg_indexes tb ++ [name])%list;
         index_registry := index_registry tb;
         query_metrics := query_metrics tb; agent_actions := agent_actions tb |}
  | RegisterIndex name ty =>
      {| pg_indexes := pg_indexes tb;
         index_registry :=
           if existsb (fun r => String.eqb (fst r) name) (index_registry tb)
           then index_registry tb
           else (index_registry tb ++ [(name, ty)])%list;
         query_metrics := query_metrics tb; agent_actions := agent_actions tb |}
  end.

(** What a statement that succeeds leaves in the cursor. *)
Definition result_of (st : statement) (db : t) : result_set :=
  match st with
  | ExplainAnalyze _ => ExplainRow (explain db (statements db))
  | CountIndex name =>
      CountRows [Z.of_nat (count_occ string_dec (pg_indexes (pending db)) name)]
  | _ => NoResult
  end.

(** [self.cursor.execute(...)], with the fetch that follows it.  A
    [CREATE INDEX] on a name that exists fails on the server. *)
Definition cursor_execute (st : statement) : Py.M t result_set :=
  fun db =>
    let db' :=
      {| committed := committed db; pending := pending db;
         statements := S (statements db); fault := fault db;
         explain := explain db |} in
    match fault db (statements db) with
    | Some msg => (Py.Raise (Py.DatabaseError msg), db')
    | None =>
        match st with
        | CreateIndex name _ =>
            if existsb (String.eqb name) (pg_indexes (pending db))
            then (Py.Raise (Py.DatabaseError "relation already exists"), db')
            else (Py.Return NoResult,
                  set_pending (apply_statement st (pending db)) db')
        | _ => (Py.Return (result_of st db),
                set_pending (apply_statement st (pending db)) db')
        end
    end.

(** [self.conn.commit()] *)
Definition commit : Py.M t unit :=
  Py.modify (fun db =>
    {| committed := pending db; pending := pending db;
       statements := statements db; fault := fault db; explain := explain db |}).

(** [self.conn.rollback()] *)
Definition rollback : Py.M t unit :=
  Py.modify (fun db =>
    {| committed := committed db; pending := committed db;
       statements := statements db; fault := fault db; explain := explain db |}).

Definition execute_query (query : statement) : Py.M t result_set :=
  Py.try_except
    (cursor_execute query)
    (fun e => rollback ;;; Py.raise e).

(** [repr] of a string without quotes or escapes in it, of a dictionary
    item and of a list. *)
Definition repr_str (s : string) : string := "'" ++ s ++ "'".
Definition repr_list (l : list string) : string := "[" ++ Py.join ", " l ++ "]".
Definition dict_item {A} (key : string) (repr : A -> string) (o : option A)
  : list string :=
  match o with
  | Some v => ["'" ++ key ++ "': " ++ repr v]
  | None => []
  end.

(** [str(plan)]: the keys of the model, in the order of the record. *)
Fixpoint str_plan (p : plan) : string :=
  match p with
  | PlanDict nt idx rows kids =>
      "{" ++
      Py.join ", "
        (app (dict_item "Node Type" repr_str nt)
        (app (dict_item "Index Name" repr_str idx)
        (app (dict_item "Actual Rows" Py.str_int rows)
             (dict_item "Plans" (fun l => repr_list (map str_plan l)) kids))))
      ++ "}"
  end.

(** The values [analyze_query] returns when it cannot observe. *)
Definition fallback_values (error : option string) : Analysis.t :=
  {| Analysis.execution_time_ms := Some (Py.float_of_Z 100);
     Analysis.planning_time_ms := Some (Py.float_of_Z 0);
     Analysis.total_time_ms := None;
     Analysis.scan_type := Some "ERROR";
     Analysis.index_used := Some false;
     Analysis.rows_scanned := None; Analysis.rows_returned := None;
     Analysis.issues := None; Analysis.recommendations := None;
     Analysis.raw_plan := None; Analysis.error := error |}.

(** [not embedding] *)
Definition no_embedding (embedding : option (list Py.float)) : bool :=
  match embedding with
  | None | Some [] => true
  | Some (_ :: _) => false
  end.

Definition analyze_query (query_text : string)
           (embedding : option (list Py.float)) : Py.M t Analysis.t :=
  Py.try_except
    (if no_embedding embedding then Py.ret (fallback_values None)
     else
       result <- cursor_execute (ExplainAnalyze (Py.get_default embedding [])) ;;
       match result with
       | ExplainRow (Some explain_data) =>
           match explain_data with
           | [] => Py.raise (Py.Exception "Empty EXPLAIN plan")
           | explain_data :: _ =>
               let plan :=
                 Py.get_default (Plan explain_data) (PlanDict None None None None) in
               let execution_time :=
                 Py.get_default (Execution_Time explain_data) (Py.float_of_Z 0) in
               let planning_time :=
                 Py.get_default (Planning_Time explain_data) (Py.float_of_Z 0) in
               let scan_type := Py.get_default (node_type plan) "Unknown" in
               let index_used :=
                 Py.contains "Index Scan" (str_plan plan)
                 || Py.contains "Bitmap" (str_plan plan) in
               Py.ret
                 {| Analysis.execution_time_ms := Some execution_time;
                    Analysis.planning_time_ms := Some planning_time;
                    Analysis.total_time_ms := None;
                    Analysis.scan_type := Some scan_type;
                    Analysis.index_used := Some index_used;
                    Analysis.rows_scanned := None; Analysis.rows_returned := None;
                    Analysis.issues := None; Analysis.recommendations := None;
                    Analysis.raw_plan := None; Analysis.error := None |}
           end
       | _ => Py.raise (Py.Exception "Empty EXPLAIN result")
       end)
    (fun e => rollback ;;; Py.ret (fallback_values (Some (Py.str_exn e)))).

(** [create_index2]: the variant that drops and recreates. *)
Definition create_index2 (index_name index_type : string) : Py.M t unit :=
  if String.eqb index_type "hnsw" || String.eqb index_type "ivfflat" then
    Py.try_except
      (cursor_execute (DropIndexIfExists index_name) ;;;
       cursor_execute (CreateIndex index_name index_type) ;;;
       commit ;;;
       cursor_execute (RegisterIndex index_name index_type) ;;;
       commit)
      (fun e => rollback ;;; Py.raise e)
  else Py.raise (Py.ValueError ("Unknown index type: " ++ index_type)).

(** [create_index]: the function ends after building the text of
    [drop_query]; no statement but the existence check is sent. *)
Definition create_index (index_name index_type : string) : Py.M t unit :=
  result <- execute_query (CountIndex index_name) ;;
  match result with
  | CountRows (count :: _) =>
      if count >? 0 then Py.ret tt
      else
        let drop_query := "DROP INDEX IF EXISTS rag_system." ++ index_name ++ ";" in
        Py.ret tt
  | _ =>
      let drop_query := "DROP INDEX IF EXISTS rag_system." ++ index_name ++ ";" in
      Py.ret tt
  end.

Definition log_query_metric (metric : metric_data) : Py.M t unit :=
  Py.try_except
    (cursor_execute (InsertQueryMetric metric) ;;; commit)
    (fun e => rollback).

Definition log_agent_action (action : action_data) : Py.M t unit :=
  Py.try_except
    (cursor_execute (InsertAgentAction action) ;;; commit)
    (fun e => rollback).

(** [execute_explain]: the legacy method passes no embedding on. *)
Definition execute_explain (query : string) : Py.M t Analysis.t :=
  analyze_query query None.

End DatabaseManager.


(** ** optimizer.py *)

(** The decision dictionary.  ['index_type'] is a key whose value may be
    Python's [None]: the outer option is the key, the inner one the value. *)
Module Decision.
Record t : Type := {
  action : option string;
  reasoning : option string;
  index_type : option (option string);
  expected_improvement : option string;
  confidence : option string
}.
Definition set_action (v : string) (d : t) : t :=
  {| action := Some v; reasoning := reasoning d; index_type := index_type d;
     expected_improvement := expected_improvement d; confidence := confidence d |}.
Definition set_reasoning (v : string) (d : t) : t :=
  {| action := action d; reasoning := Some v; index_type := index_type d;
     expected_improvement := expected_improvement d; confidence := confidence d |}.
Definition set_index_type (v : option string) (d : t) : t :=
  {| action := action d; reasoning := reasoning d; index_type := Some v;
     expected_improvement := expected_improvement d; confidence := confidence d |}.
Definition set_expected_improvement (v : string) (d : t) : t :=
  {| action := action d; reasoning := reasoning d; index_type := index_type d;
     expected_improvement := Some v; confidence := confidence d |}.
Definition set_confidence (v : string) (d : t) : t :=
  {| action := action d; reasoning := reasoning d; index_type := index_type d;
     expected_improvement := expected_improvement d; confidence := Some v |}.
End Decision.

(** What [_build_optimization_prompt] interpolates into its fixed text. *)
Record prompt : Type := {
  prompt_execution_time_ms : Py.float;
  prompt_scan_type : string;
  prompt_index_used : bool;
  prompt_rows_scanned : option Z;       (* [None] prints as N/A *)
  prompt_rows_returned : option Z;
  prompt_issues : list string
}.

Module LLMOptimizer.

(** The optimizer with the ollama daemon behind it: the prompts received
    so far, and the script of the daemon: what the call number [n] returns
    as [response['message']['content']], or raises. *)
Record t : Type := {
  model_name : string;
  chat_calls : list prompt;
  chat_reply : nat -> Py.outcome string
}.

(** [ollama.chat(...)] followed by [response['message']['content']] *)
Definition ollama_chat (p : prompt) : Py.M t string :=
  fun o =>
    (chat_reply o (List.length (chat_calls o)),
     {| model_name := model_name o;
        chat_calls := (chat_calls o ++ [p])%list;
        chat_reply := chat_reply o |}).

Definition _build_optimization_prompt (analysis : Analysis.t) : Py.M t prompt :=
  execution_time_ms <- Py.getitem "execution_time_ms" (Analysis.execution_time_ms analysis) ;;
  scan_type <- Py.getitem "scan_type" (Analysis.scan_type analysis) ;;
  index_used <- Py.getitem "index_used" (Analysis.index_used analysis) ;;
  issues <- Py.getitem "issues" (Analysis.issues analysis) ;;
  Py.ret {| prompt_execution_time_ms := execution_time_ms;
            prompt_scan_type := scan_type;
            prompt_index_used := index_used;
            prompt_rows_scanned := Analysis.rows_scanned analysis;
            prompt_rows_returned := Analysis.rows_returned analysis;
            prompt_issues := issues |}.

(** The body of the loop over the lines of the reply (lines 140-144). *)
Definition parse_line (decision : Decision.t) (line : string) : Decision.t :=
  if String.prefix "REASONING:" (Py.strip line)
  then Decision.set_reasoning (Py.strip (Py.remove_all "REASONING:" line)) decision
  else if String.prefix "EXPECTED_IMPROVEMENT:" (Py.strip line)
  then Decision.set_expected_improvement
         (Py.strip (Py.remove_all "EXPECTED_IMPROVEMENT:" line)) decision
  else decision.

Definition _parse_llm_response (llm_output : string) (analysis : Analysis.t)
  : Py.M t Decision.t :=
  let decision :=
    {| Decision.action := Some "no_action";
       Decision.reasoning := Some llm_output;
       Decision.index_type := Some None;
       Decision.expected_improvement := Some "Unknown";
       Decision.confidence := Some "medium" |} in
  let llm_lower := Py.lower llm_output in
  let decision :=
    if Py.contains "create_hnsw_index" llm_lower || Py.contains "hnsw" llm_lower
    then Decision.set_index_type (Some "hnsw")
           (Decision.set_action "create_hnsw_index" decision)
    else if Py.contains "create_ivfflat_index" llm_lower
            || Py.contains "ivfflat" llm_lower
    then Decision.set_index_type (Some "ivfflat")
           (Decision.set_action "create_ivfflat_index" decision)
    else if Py.contains "optimize_query" llm_lower
    then Decision.set_action "optimize_query" decision
    else decision in
  let decision := fold_left parse_line (Py.split_lines llm_output) decision in
  execution_time_ms <- Py.getitem "execution_time_ms" (Analysis.execution_time_ms analysis) ;;
  if Py.fgt execution_time_ms (Py.float_of_Z 200)
  then Py.ret (Decision.set_confidence "high" decision)
  else if Py.fgt execution_time_ms (Py.float_of_Z 100)
  then Py.ret (Decision.set_confidence "medium" decision)
  else Py.ret (Decision.set_confidence "low" decision).

Definition _fallback_decision (analysis : Analysis.t) : Py.M t Decision.t :=
  let decision :=
    {| Decision.action := Some "no_action";
       Decision.reasoning := Some "Fallback rule-based decision";
       Decision.index_type := Some None;
       Decision.expected_improvement := Some "Unknown";
       Decision.confidence := Some "low" |} in
  execution_time_ms <- Py.getitem "execution_time_ms" (Analysis.execution_time_ms analysis) ;;
  if Py.fgt execution_time_ms (Py.float_of_Z 100) then
    index_used <- Py.getitem "index_used" (Analysis.index_used analysis) ;;
    if negb index_used then
      rows_scanned <- Py.getitem "rows_scanned" (Analysis.rows_scanned analysis) ;;
      if rows_scanned <? 100000 then
        Py.ret
          (Decision.set_expected_improvement "10-50x faster"
          (Decision.set_reasoning
             "Dataset size suitable for HNSW. High performance required."
          (Decision.set_index_type (Some "hnsw")
          (Decision.set_action "create_hnsw_index" decision))))
      else
        Py.ret
          (Decision.set_expected_improvement "20-30x faster"
          (Decision.set_reasoning "Large dataset. IVFFlat more memory efficient."
          (Decision.set_index_type (Some "ivfflat")
          (Decision.set_action "create_ivfflat_index" decision))))
    else Py.ret decision
  else Py.ret decision.

Definition decide_optimization (analysis : Analysis.t) : Py.M t Decision.t :=
  prompt <- _build_optimization_prompt analysis ;;
  Py.try_except
    (llm_output <- ollama_chat prompt ;;
     _parse_llm_response llm_output analysis)
    (fun e => _fallback_decision analysis).

Definition generate_sql {S} (decision : Decision.t) (tenant_id : string)
  : Py.M S (option string) :=
  action <- Py.getitem "action" (Decision.action decision) ;;
  if String.eqb action "create_hnsw_index" then
    let index_name := "idx_embedding_hnsw_" ++ tenant_id in
    Py.ret (Some ("
CREATE INDEX IF NOT EXISTS " ++ index_name ++ "
ON rag_system.documents
USING hnsw (embedding vector_cosine_ops)
WITH (m = 16, ef_construction = 64);
"))
  else if String.eqb action "create_ivfflat_index" then
    let index_name := "idx_embedding_ivfflat_" ++ tenant_id in
    Py.ret (Some ("
CREATE INDEX IF NOT EXISTS " ++ index_name ++ "
ON rag_system.documents
USING ivfflat (embedding vector_cosine_ops)
WITH (lists = 100);
"))
  else Py.ret None.

End LLMOptimizer.


(** ** agent_core.py *)

(** The dictionary [act] returns.  [None] in [sql_executed] and [error] is
    Python's [None]; [action] and [message] are keys that can be absent. *)
Module ActionResult.
Record t : Type := {
  action : option string;
  success : bool;
  sql_executed : option string;
  error : option string;
  message : option string
}.
Definition set_success (v : bool) (r : t) : t :=
  {| action := action r; success := v; sql_executed := sql_executed r;
     error := error r; message := message r |}.
Definition set_sql_executed (v : string) (r : t) : t :=
  {| action := action r; success := success r; sql_executed := Some v;
     error := error r; message := message r |}.
Definition set_error (v : string) (r : t) : t :=
  {| action := action r; success := success r; sql_executed := sql_executed r;
     error := Some v; message := message r |}.
End ActionResult.

(** The dictionary [run_optimization_cycle] returns, without
    ['cycle_time_seconds'], which is wall-clock time. *)
Module CycleResult.
Record t : Type := {
  analysis_before : Analysis.t;
  decision : Decision.t;
  action_result : ActionResult.t;
  analysis_after : option Analysis.t;
  improvement_percentage : option Py.float
}.
End CycleResult.

Module AutoTuningAgent.

Record t : Type := {
  db : DatabaseManager.t;
  optimizer : LLMOptimizer.t;
  encode_query : string -> Py.outcome (list Py.float);   (* [self.embedder] *)
  optimization_count : Z;
  total_improvement : Py.float
}.

Definition set_db (v : DatabaseManager.t) (a : t) : t :=
  {| db := v; optimizer := optimizer a; encode_query := encode_query a;
     optimization_count := optimization_count a;
     total_improvement := total_improvement a |}.
Definition set_optimizer (v : LLMOptimizer.t) (a : t) : t :=
  {| db := db a; optimizer := v; encode_query := encode_query a;
     optimization_count := optimization_count a;
     total_improvement := total_improvement a |}.
Definition set_optimization_count (v : Z) (a : t) : t :=
  {| db := db a; optimizer := optimizer a; encode_query := encode_query a;
     optimization_count := v; total_improvement := total_improvement a |}.
Definition set_total_improvement (v : Py.float) (a : t) : t :=
  {| db := db a; optimizer := optimizer a; encode_query := encode_query a;
     optimization_count := optimization_count a; total_improvement := v |}.

(** Calls on [self.db] and on [self.optimizer]. *)
Definition on_db {A} (c : Py.M DatabaseManager.t A) : Py.M t A :=
  Py.zoom db set_db c.
Definition on_optimizer {A} (c : Py.M LLMOptimizer.t A) : Py.M t A :=
  Py.zoom optimizer set_optimizer c.

(** [analysis['issues'].append(tag)] *)
Definition append_issue (tag : string) (analysis : Analysis.t) : Analysis.t :=
  Analysis.set_issues
    (Py.get_default (Analysis.issues analysis) [] ++ [tag])%list analysis.

Definition observe (query_embedding : list Py.float) (tenant_id : string)
  : Py.M t Analysis.t :=
  analysis <- on_db (DatabaseManager.analyze_query "Vector Similarity Search"
                       (Some query_embedding)) ;;
  let analysis := Analysis.set_issues [] analysis in
  execution_time_ms <- Py.getitem "execution_time_ms" (Analysis.execution_time_ms analysis) ;;
  let analysis :=
    if Py.fgt execution_time_ms (Py.float_of_Z 20)
    then append_issue "high_latency" analysis else analysis in
  index_used <- Py.getitem "index_used" (Analysis.index_used analysis) ;;
  let analysis :=
    if negb index_used then append_issue "missing_index" analysis else analysis in
  scan_type <- Py.getitem "scan_type" (Analysis.scan_type analysis) ;;
  on_db (DatabaseManager.log_query_metric
           {| query_type := "vector_similarity_search";
              metric_execution_time_ms := execution_time_ms;
              metric_index_used := index_used;
              metric_rows_scanned := 0;
              query_plan_scan_type := scan_type |}) ;;;
  Py.ret analysis.

(** [not analysis['issues']] *)
Definition no_issues (issues : list string) : bool :=
  match issues with
  | [] => true
  | _ :: _ => false
  end.

Definition reason (analysis : Analysis.t) : Py.M t Decision.t :=
  issues <- Py.getitem "issues" (Analysis.issues analysis) ;;
  if no_issues issues then
    Py.ret {| Decision.action := Some "no_action";
              Decision.reasoning := Some "Performance is acceptable";
              Decision.index_type := None;
              Decision.expected_improvement := None;
              Decision.confidence := None |}
  else on_optimizer (LLMOptimizer.decide_optimization analysis).

(** [not sql] *)
Definition no_sql (sql : option string) : bool :=
  match sql with
  | None => true
  | Some s => Py.not_str s
  end.

(** [index_type.upper()], and [index_type] inside an f-string. *)
Definition upper_of (index_type : option string) : Py.M t string :=
  match index_type with
  | Some s => Py.ret (Py.upper s)
  | None => Py.raise (Py.AttributeError "'NoneType' object has no attribute 'upper'")
  end.
Definition format_of (index_type : option string) : string :=
  Py.get_default index_type "None".

(** The [try] block of [act] (lines 118-151) runs on the agent and the
    local dictionary [result], so that the handler sees what the block had
    stored in [result] before it raised. *)
Definition frame : Type := (t * ActionResult.t)%type.
Definition on_self {A} (c : Py.M t A) : Py.M frame A :=
  Py.zoom fst (fun a (f : frame) => (a, snd f)) c.
Definition update_result (f : ActionResult.t -> ActionResult.t) : Py.M frame unit :=
  Py.modify (fun fr : frame => (fst fr, f (snd fr))).

Definition act_try (decision : Decision.t) (tenant_id : string) : Py.M frame unit :=
  sql <- LLMOptimizer.generate_sql decision tenant_id ;;
  if no_sql sql then
    update_result (ActionResult.set_error "No SQL generated")   (* return result *)
  else
    let sql := Py.get_default sql "" in
    update_result (ActionResult.set_sql_executed sql) ;;;
    action <- Py.getitem "action" (Decision.action decision) ;;
    (if Py.contains "create_" action && Py.contains "index" action then
       index_type <- Py.getitem "index_type" (Decision.index_type decision) ;;
       let index_name :=
         "idx_embedding_" ++ format_of index_type ++ "_" ++ tenant_id in
       on_self (upper_of index_type) ;;;
       on_self (on_db (DatabaseManager.create_index index_name (format_of index_type))) ;;;
       update_result (ActionResult.set_success true)
     else Py.ret tt) ;;;
    reasoning <- Py.getitem "reasoning" (Decision.reasoning decision) ;;
    fr <- Py.get ;;
    on_self (on_db (DatabaseManager.log_agent_action
                      {| action_type := action;
                         action_reasoning := reasoning;
                         action_sql_executed := sql;
                         action_success := ActionResult.success (snd fr);
                         impact_expected_improvement :=
                           Decision.expected_improvement decision;
                         impact_confidence := Decision.confidence decision |})) ;;;
    on_self (Py.modify (fun a => set_optimization_count (optimization_count a + 1) a)).

Definition act (decision : Decision.t) (tenant_id : string) : Py.M t ActionResult.t :=
  action <- Py.getitem "action" (Decision.action decision) ;;
  if String.eqb action "no_action" then
    Py.ret {| ActionResult.action := None; ActionResult.success := true;
              ActionResult.sql_executed := None; ActionResult.error := None;
              ActionResult.message := Some "No action taken" |}
  else
    let result :=
      {| ActionResult.action := Some action; ActionResult.success := false;
         ActionResult.sql_executed := None; ActionResult.error := None;
         ActionResult.message := None |} in
    fun a =>
      match act_try decision tenant_id (a, result) with
      | (Py.Return _, (a', result)) => (Py.Return result, a')
      | (Py.Raise e, (a', result)) =>
          (Py.Return (ActionResult.set_success false
                        (ActionResult.set_error (Py.str_exn e) result)), a')
      end.

Definition run_optimization_cycle (query_text tenant_id : string)
  : Py.M t CycleResult.t :=
  a <- Py.get ;;
  query_embedding <- Py.lift (encode_query a query_text) ;;
  analysis_before <- observe query_embedding tenant_id ;;
  decision <- reason analysis_before ;;
  action_result <- act decision tenant_id ;;
  action <- (if ActionResult.success action_result
             then Py.getitem "action" (Decision.action decision)
             else Py.ret "") ;;
  if ActionResult.success action_result && Py.contains "create_" action then
    analysis_after <- observe query_embedding tenant_id ;;
    time_before <- Py.getitem "execution_time_ms"
                     (Analysis.execution_time_ms analysis_before) ;;
    time_after <- Py.getitem "execution_time_ms"
                    (Analysis.execution_time_ms analysis_after) ;;
    quotient <- Py.lift (Py.truediv (Py.fsub time_before time_after) time_before) ;;
    let improvement := Py.fmul quotient (Py.float_of_Z 100) in
    Py.modify (fun a => set_total_improvement
                          (Py.fadd (total_improvement a) improvement) a) ;;;
    Py.ret {| CycleResult.analysis_before := analysis_before;
              CycleResult.decision := decision;
              CycleResult.action_result := action_result;
              CycleResult.analysis_after := Some analysis_after;
              CycleResult.improvement_percentage := Some improvement |}
  else
    Py.ret {| CycleResult.analysis_before := analysis_before;
              CycleResult.decision := decision;
              CycleResult.action_result := action_result;
              CycleResult.analysis_after := None;
              CycleResult.improvement_percentage := None |}.

(** [get_statistics]: ['optimizations_performed'], ['average_improvement']
    and ['total_improvement']. *)
Definition get_statistics (a : t) : Z * Py.float * Py.float :=
  (optimization_count a,
   SFdiv Py.prec Py.emax (total_improvement a)
         (Py.float_of_Z (Z.max (optimization_count a) 1)),
   total_improvement a).

(** The agent after [__init__], on a given connection and daemon. *)
Definition init (d : DatabaseManager.t) (o : LLMOptimizer.t)
           (embed : string -> Py.outcome (list Py.float)) : t :=
  {| db := d; optimizer := o; encode_query := embed;
     optimization_count := 0; total_improvement := Py.float_of_Z 0 |}.

End AutoTuningAgent.


(** ** Definitions used by the statements *)

(** All the nodes of a plan tree, at any depth, root first. *)
Fixpoint nodes (p : plan) : list plan :=
  p :: match p with
       | PlanDict _ _ _ (Some children) => flat_map nodes children
       | PlanDict _ _ _ None => []
       end.

(** A node is a scan node when its kind label contains the marker. *)
Definition is_scan_node (p : plan) : bool :=
  Py.contains "Scan" (Py.get_default (node_type p) "").

Definition sum_Z (l : list Z) : Z := fold_right Z.add 0 l.

(** The rows of the scan nodes of a list of nodes, summed. *)
Definition rows_in (l : list plan) : Z :=
  sum_Z (map (fun n => Py.get_default (actual_rows n) 0) (filter is_scan_node l)).

(** The rows of the scan nodes of a tree, summed. *)
Definition rows_of_scan_nodes (p : plan) : Z := rows_in (nodes p).

(** Induction on plan trees, with the hypothesis on every child. *)
Fixpoint plan_induction (P : plan -> Prop)
    (Hleaf : forall nt idx rows, P (PlanDict nt idx rows None))
    (Hnode : forall nt idx rows children,
        Forall P children -> P (PlanDict nt idx rows (Some children)))
    (p : plan) {struct p} : P p :=
  match p with
  | PlanDict nt idx rows None => Hleaf nt idx rows
  | PlanDict nt idx rows (Some children) =>
      Hnode nt idx rows children
        ((fix all (l : list plan) : Forall P l :=
            match l with
            | [] => Forall_nil P
            | c :: l' => Forall_cons c (plan_induction P Hleaf Hnode c) (all l')
            end) children)
  end.


(** The index sets of a connection, committed and seen by the open
    transaction, are both [l]. *)
Definition indexes_are (l : list string) (d : DatabaseManager.t) : Prop :=
  DatabaseManager.pg_indexes (DatabaseManager.committed d) = l /\
  DatabaseManager.pg_indexes (DatabaseManager.pending d) = l.

(** The name [act] gives to the index of a scope. *)
Definition index_name_of (index_type tenant_id : string) : string :=
  "idx_embedding_" ++ index_type ++ "_" ++ tenant_id.

(** The two actions that create an index. *)
Definition create_action (index_type : string) : string :=
  "create_" ++ index_type ++ "_index".

(** Confidence as a function of the execution time alone: high above
    200 ms, medium above 100 ms and up to 200 ms, low otherwise. *)
Definition confidence_by_time (t : Py.float) (c : option string) : Prop :=
  (c = Some "high" <-> Py.fgt t (Py.float_of_Z 200) = true) /\
  (c = Some "medium" <->
     Py.fgt t (Py.float_of_Z 100) = true /\ Py.fle t (Py.float_of_Z 200) = true) /\
  (c = Some "low" <->
     Py.fgt t (Py.float_of_Z 200) = false /\
     ~ (Py.fgt t (Py.float_of_Z 100) = true /\ Py.fle t (Py.float_of_Z 200) = true)).

(** [((time_before - time_after) / time_before) * 100] where the divisor
    is not zero. *)
Definition improvement_of (time_before time_after : Py.float) : Py.float :=
  Py.fmul (SFdiv Py.prec Py.emax (Py.fsub time_before time_after) time_before)
          (Py.float_of_Z 100).

(** The decision of [_parse_llm_response] before its confidence is set
    (lines 120-144). *)
Definition parsed_fields (llm_output : string) : Decision.t :=
  let decision :=
    {| Decision.action := Some "no_action";
       Decision.reasoning := Some llm_output;
       Decision.index_type := Some None;
       Decision.expected_improvement := Some "Unknown";
       Decision.confidence := Some "medium" |} in
  let llm_lower := Py.lower llm_output in
  let decision :=
    if Py.contains "create_hnsw_index" llm_lower || Py.contains "hnsw" llm_lower
    then Decision.set_index_type (Some "hnsw")
           (Decision.set_action "create_hnsw_index" decision)
    else if Py.contains "create_ivfflat_index" llm_lower
            || Py.contains "ivfflat" llm_lower
    then Decision.set_index_type (Some "ivfflat")
           (Decision.set_action "create_ivfflat_index" decision)
    else if Py.contains "optimize_query" llm_lower
    then Decision.set_action "optimize_query" decision
    else decision in
  fold_left LLMOptimizer.parse_line (Py.split_lines llm_output) decision.

(** The confidence [_parse_llm_response] sets (lines 147-152). *)
Definition confidence_of (t : Py.float) : string :=
  if Py.fgt t (Py.float_of_Z 200) then "high"
  else if Py.fgt t (Py.float_of_Z 100) then "medium" else "low".

(** A computation keeps a property of the state, however it ends. *)
Definition preserves {S A} (P : S -> Prop) (c : Py.M S A) : Prop :=
  forall s, P s -> P (snd (c s)).

(** The statements that are not DDL. *)
Definition not_ddl (st : statement) : Prop :=
  match st with
  | DropIndexIfExists _ | CreateIndex _ _ => False
  | _ => True
  end.

(** A computation on the connection that sends no DDL: it keeps the
    index sets, whatever they are. *)
Definition sends_no_ddl {A} (c : Py.M DatabaseManager.t A) : Prop :=
  forall l, preserves (indexes_are l) c.

(** What the steps of a cycle leave alone: the index sets of the
    connection, the running total and, but for [act], the counter. *)
Definition keeps_indexes (l : list string) (a : AutoTuningAgent.t) : Prop :=
  indexes_are l (AutoTuningAgent.db a).
Definition keeps_total (total : Py.float) (a : AutoTuningAgent.t) : Prop :=
  AutoTuningAgent.total_improvement a = total.
Definition keeps_count (count : Z) (a : AutoTuningAgent.t) : Prop :=
  AutoTuningAgent.optimization_count a = count.

(** The connection after one more statement that changed no table. *)
Definition one_more_statement (d : DatabaseManager.t) : DatabaseManager.t :=
  {| DatabaseManager.committed := DatabaseManager.committed d;
     DatabaseManager.pending := DatabaseManager.pending d;
     DatabaseManager.statements := S (DatabaseManager.statements d);
     DatabaseManager.fault := DatabaseManager.fault d;
     DatabaseManager.explain := DatabaseManager.explain d |}.

(** *** Concrete runs *)

Module Scenario.

(** A sequential scan under a limit, and an index scan under a limit. *)
Definition seq_scan_plan : plan :=
  PlanDict (Some "Limit") None (Some 5)
    (Some [PlanDict (Some "Seq Scan") None (Some 40000) None]).
Definition index_scan_plan : plan :=
  PlanDict (Some "Limit") None (Some 5)
    (Some [PlanDict (Some "Index Scan") (Some "idx_embedding_hnsw_default")
                    (Some 5) None]).

Definition explained (p : plan) (execution_time : Z) : explain_output :=
  {| Plan := Some p;
     Execution_Time := Some (Py.float_of_Z execution_time);
     Planning_Time := Some (Py.float_of_Z 1) |}.

Definition tables_with (indexes : list string) : DatabaseManager.tables :=
  {| DatabaseManager.pg_indexes := indexes;
     DatabaseManager.index_registry := [];
     DatabaseManager.query_metrics := [];
     DatabaseManager.agent_actions := [] |}.

(** A server that answers every statement; the first EXPLAIN reports
    [first] ms, the later ones [later] ms. *)
Definition server (indexes : list string) (p : plan) (first later : Z)
  : DatabaseManager.t :=
  {| DatabaseManager.committed := tables_with indexes;
     DatabaseManager.pending := tables_with indexes;
     DatabaseManager.statements := 0;
     DatabaseManager.fault := fun _ => None;
     DatabaseManager.explain :=
       fun n => Some [if (n =? 0)%nat then explained p first
                      else explained p later] |}.

Definition daemon (reply : Py.outcome string) : LLMOptimizer.t :=
  {| LLMOptimizer.model_name := "phi3:mini";
     LLMOptimizer.chat_calls := [];
     LLMOptimizer.chat_reply := fun _ => reply |}.

Definition embed (text : string) : Py.outcome (list Py.float) :=
  Py.Return [Py.float_of_Z 1; Py.float_of_Z 0].

Definition unreachable : Py.outcome string :=
  Py.Raise (Py.ResponseError "connection refused").

Definition advises_hnsw : Py.outcome string :=
  Py.Return "ACTION: create_hnsw_index
REASONING: Sequential scan on a small collection.
EXPECTED_IMPROVEMENT: 10-50x faster".

(** No index yet, a sequential scan of 150 ms, the daemon down. *)
Definition slow_without_oracle : AutoTuningAgent.t :=
  AutoTuningAgent.init (server [] seq_scan_plan 150 150) (daemon unreachable) embed.

(** No index yet, a sequential scan of 120 ms and then of 12 ms, the
    daemon advising HNSW. *)
Definition first_cycle : AutoTuningAgent.t :=
  AutoTuningAgent.init (server [] seq_scan_plan 120 12) (daemon advises_hnsw) embed.

(** The index of the scope exists and is used; 50 ms and then 40 ms, the
    daemon advising HNSW again. *)
Definition second_cycle : AutoTuningAgent.t :=
  AutoTuningAgent.init
    (server ["idx_embedding_hnsw_default"] index_scan_plan 50 40)
    (daemon advises_hnsw) embed.

(** No index yet, an execution time reported as 0 ms, the daemon advising
    HNSW. *)
Definition zero_time : AutoTuningAgent.t :=
  AutoTuningAgent.init (server [] seq_scan_plan 0 0) (daemon advises_hnsw) embed.

(** A server that fails every statement, with the daemon down. *)
Definition server_down : AutoTuningAgent.t :=
  AutoTuningAgent.init
    {| DatabaseManager.committed := tables_with ["idx_embedding_hnsw_default"];
       DatabaseManager.pending := tables_with ["idx_embedding_hnsw_default"];
       DatabaseManager.statements := 0;
       DatabaseManager.fault := fun _ => Some "server closed the connection";
       DatabaseManager.explain := fun _ => None |}
    (daemon unreachable) embed.

(** The index of the scope exists and is used, in 5 ms. *)
Definition quiet : AutoTuningAgent.t :=
  AutoTuningAgent.init
    (server ["idx_embedding_hnsw_default"] index_scan_plan 5 5)
    (daemon advises_hnsw) embed.

(** A reply whose last line has a no-break space (U+00A0) on both sides. *)
Definition nbsp : string :=
  String (ascii_of_nat 194) (String (ascii_of_nat 160) EmptyString).
Definition padded_line : string :=
  nbsp ++ " REASONING: the index is used " ++ nbsp.
Definition padded_reply : string :=
  "REASONING: first
ACTION: no_action
" ++ padded_line.

(** An analysis of 150 ms on which an index was used. *)
Definition analysis_150_indexed : Analysis.t :=
  {| Analysis.execution_time_ms := Some (Py.float_of_Z 150);
     Analysis.planning_time_ms := Some (Py.float_of_Z 1);
     Analysis.total_time_ms := None;
     Analysis.scan_type := Some "Limit";
     Analysis.index_used := Some true;
     Analysis.rows_scanned := None; Analysis.rows_returned := None;
     Analysis.issues := Some ["high_latency"];
     Analysis.recommendations := None; Analysis.raw_plan := None;
     Analysis.error := None |}.

(** The decision the fallback rule and the oracle give for HNSW. *)
Definition hnsw_decision : Decision.t :=
  {| Decision.action := Some "create_hnsw_index";
     Decision.reasoning := Some "Dataset size suitable for HNSW. High performance required.";
     Decision.index_type := Some (Some "hnsw");
     Decision.expected_improvement := Some "10-50x faster";
     Decision.confidence := Some "low" |}.

End Scenario.


(** ** Definitions used by the further properties *)

(** A scan node whose kind label says that an index is used. *)
Definition is_index_scan (p : plan) : bool :=
  is_scan_node p && Py.contains "Index" (Py.get_default (node_type p) "").

(** The index name of the first node of a list that is an index scan. *)
Definition first_index_name (l : list plan) : option string :=
  match find is_index_scan l with
  | Some n => index_name n
  | None => None
  end.

(** What the walk says of a list of nodes: an index is used by one of
    them, and the name is that of the first that uses one. *)
Definition index_facts (i : ScanInfo.t) (l : list plan) : Prop :=
  ScanInfo.index_used i = existsb is_index_scan l /\
  ScanInfo.index_name i = first_index_name l.

(** The connection after a rollback and [n] more statements. *)
Definition rolled_back (n : nat) (d : DatabaseManager.t) : DatabaseManager.t :=
  {| DatabaseManager.committed := DatabaseManager.committed d;
     DatabaseManager.pending := DatabaseManager.committed d;
     DatabaseManager.statements := (n + DatabaseManager.statements d)%nat;
     DatabaseManager.fault := DatabaseManager.fault d;
     DatabaseManager.explain := DatabaseManager.explain d |}.

(** A limit that reports [10 ^ 400] rows over a sequential scan of one
    row: the quotient of the two is outside the double range. *)
Definition overflowing_plan : plan :=
  PlanDict (Some "Limit") None (Some (10 ^ 400))
           (Some [PlanDict (Some "Seq Scan") None (Some 1) None]).

(** A large sequential scan at the root. *)
Definition large_seq_scan : plan :=
  PlanDict (Some "Seq Scan") None (Some 40000) None.

(** A line of the reply that gives the reasoning (line 141). *)
Definition starts_reasoning (line : string) : bool :=
  String.prefix "REASONING:" (Py.strip line).

(** The prompt built from an analysis that holds the four keys read. *)
Definition prompt_of (analysis : Analysis.t) (time : Py.float) (kind : string)
           (used : bool) (issues : list string) : prompt :=
  {| prompt_execution_time_ms := time;
     prompt_scan_type := kind;
     prompt_index_used := used;
     prompt_rows_scanned := Analysis.rows_scanned analysis;
     prompt_rows_returned := Analysis.rows_returned analysis;
     prompt_issues := issues |}.

(** The four shapes of a decision: the index type is set exactly on the
    two actions that create an index. *)
Definition well_shaped (d : Decision.t) : Prop :=
  (Decision.action d = Some "create_hnsw_index" /\
   Decision.index_type d = Some (Some "hnsw")) \/
  (Decision.action d = Some "create_ivfflat_index" /\
   Decision.index_type d = Some (Some "ivfflat")) \/
  (Decision.action d = Some "no_action" /\ Decision.index_type d = Some None) \/
  (Decision.action d = Some "optimize_query" /\ Decision.index_type d = Some None).

(** The issues that [observe] derives from a time and an index flag. *)
Definition coarse_issues (time : Py.float) (used : bool) : list string :=
  ((if Py.fgt time (Py.float_of_Z 20) then ["high_latency"] else [])
   ++ (if used then [] else ["missing_index"]))%list.

(** The daemon after at most one more call. *)
Definition at_most_one_call (o o' : LLMOptimizer.t) : Prop :=
  LLMOptimizer.chat_reply o' = LLMOptimizer.chat_reply o /\
  LLMOptimizer.model_name o' = LLMOptimizer.model_name o /\
  (LLMOptimizer.chat_calls o' = LLMOptimizer.chat_calls o \/
   exists p, LLMOptimizer.chat_calls o' = (LLMOptimizer.chat_calls o ++ [p])%list).

(** ** scripts/benchmark.py *)

Module Benchmark.



End Benchmark.

(** ** scripts/load_data.py, with [insert_documents] of agent/database.py *)

Module LoadData.

(** An item of the dataset, and a document on its way to the table; the
    embedding is [None] until the key ['embedding'] is set. *)
Record item : Type := {
  text : string;
  title : string;
  url : string }.

Record document : Type := {
  tenant_id : string;
  content : string;
  embedding : option (list Py.float);
  metadata_title : string;
  metadata_url : string;
  metadata_source : string }.

Definition set_embedding (v : option (list Py.float)) (doc : document) : document :=
  {| tenant_id := tenant_id doc; content := content doc; embedding := v;
     metadata_title := metadata_title doc; metadata_url := metadata_url doc;
     metadata_source := metadata_source doc |}.

(** The connection that [load_wikipedia_data] opens and the embedding
    model: the rows of [rag_system.documents], the bulk INSERTs sent and
    which of them the server fails, the calls of the model and its
    replies.  Every call of [insert_documents] ends in a commit or in a
    rollback, on a connection that had nothing pending. *)
Record t : Type := {
  documents_table : list document;
  inserts : nat;
  insert_fault : nat -> option string;
  encodes : nat;
  encode_reply : nat -> list string -> Py.outcome (list (list Py.float)) }.

Definition has_embedding (doc : document) : bool :=
  match embedding doc with
  | Some _ => true
  | None => false
  end.

(** [execute_values(self.cursor, insert_query, values)] and the commit or
    the rollback that follows it. *)
Definition execute_values (values : list document) : Py.M t unit :=
  fun s =>
    let sent := S (inserts s) in
    match insert_fault s (inserts s) with
    | Some msg =>
        (Py.Raise (Py.DatabaseError msg),
         {| documents_table := documents_table s; inserts := sent;
            insert_fault := insert_fault s;
            encodes := encodes s; encode_reply := encode_reply s |})
    | None =>
        (Py.Return tt,
         {| documents_table := (documents_table s ++ values)%list; inserts := sent;
            insert_fault := insert_fault s;
            encodes := encodes s; encode_reply := encode_reply s |})
    end.

(** [insert_documents] (database.py 138-160): the list of values reads
    [doc['embedding']] of every document. *)
Definition insert_documents (documents : list document) : Py.M t unit :=
  values <- (if forallb has_embedding documents then Py.ret documents
             else Py.raise (Py.KeyError "embedding")) ;;
  execute_values values.

(** [embedder.encode_documents(texts)] *)
Definition encode_documents (texts : list string)
  : Py.M t (list (list Py.float)) :=
  fun s =>
    (encode_reply s (encodes s) texts,
     {| documents_table := documents_table s; inserts := inserts s;
        insert_fault := insert_fault s;
        encodes := S (encodes s); encode_reply := encode_reply s |}).

(** [for doc, emb in zip(documents, embeddings): doc['embedding'] = emb] *)
Fixpoint zip_embeddings (documents : list document)
         (embeddings : list (list Py.float)) : list document :=
  match documents, embeddings with
  | doc :: documents', emb :: embeddings' =>
      set_embedding (Some emb) doc :: zip_embeddings documents' embeddings'
  | _, _ => documents
  end.

(** Lines 75-84 and 92-98: embed a batch and insert it. *)
Definition process_batch (documents : list document) : Py.M t unit :=
  embeddings <- encode_documents (map content documents) ;;
  insert_documents (zip_embeddings documents embeddings).

(** The dictionary of lines 60-68, with [item['text'][:1000]]. *)
Definition document_of (it : item) : document :=
  {| tenant_id := "wikipedia";
     content := Py.slice_to 1000 (text it);
     embedding := None;
     metadata_title := title it;
     metadata_url := url it;
     metadata_source := "wikipedia" |}.

(** The loop of lines 50-87 over the items that it reaches, with the
    documents of the batch in progress. *)
Fixpoint process_items (items : list item) (documents : list document)
  : Py.M t (list document) :=
  match items with
  | [] => Py.ret documents
  | it :: rest =>
      let doc := document_of it in
      if (Py.len (content doc) <? 100)%nat then
        process_items rest documents
      else
        let documents := (documents ++ [doc])%list in
        if (100 <=? List.length documents)%nat then
          process_batch documents ;;; process_items rest []
        else process_items rest documents
  end.

(** [load_wikipedia_data] from the loop to the last insert (lines 44-98):
    the loop breaks at the item of index [num_documents]. *)
Definition load_documents (num_documents : Z) (dataset : list item)
  : Py.M t unit :=
  documents <- process_items (firstn (Z.to_nat num_documents) dataset) [] ;;
  match documents with
  | [] => Py.ret tt
  | _ :: _ => process_batch documents
  end.

End LoadData.

(** The documents that the loop keeps of a list of items: those whose
    text, cut at 1000 characters, has at least 100. *)
Definition kept_of (items : list LoadData.item) : list LoadData.document :=
  filter (fun doc => negb (Py.len (LoadData.content doc) <? 100)%nat)
         (map LoadData.document_of items).
Definition kept (num_documents : Z) (dataset : list LoadData.item)
  : list LoadData.document :=
  kept_of (firstn (Z.to_nat num_documents) dataset).

(** A row as it was before its embedding was set. *)
Definition without_embedding (doc : LoadData.document) : LoadData.document :=
  LoadData.set_embedding None doc.

(** A document as the loop builds it and the table receives it. *)
Definition loaded (doc : LoadData.document) : Prop :=
  LoadData.embedding doc <> None /\
  LoadData.tenant_id doc = "wikipedia" /\
  (100 <= Py.len (LoadData.content doc) <= 1000)%nat.

Module LoadScenario.

Definition text_of_length (n : nat) : string :=
  string_of_list_ascii (repeat "a"%char n).

(** [n] times the character U+00E9, which takes two bytes. *)
Definition e_acute : string :=
  String (ascii_of_nat 195) (String (ascii_of_nat 169) EmptyString).
Definition accented (n : nat) : string := String.concat EmptyString (repeat e_acute n).

(** Five items: 150 characters, 20 characters, 60 characters in 120
    bytes, 1200 characters, and 150 characters in 300 bytes. *)
Definition dataset : list LoadData.item :=
  [ {| LoadData.text := text_of_length 150; LoadData.title := "April";
       LoadData.url := "https://simple.wikipedia.org/wiki/April" |};
    {| LoadData.text := text_of_length 20; LoadData.title := "Stub";
       LoadData.url := "https://simple.wikipedia.org/wiki/Stub" |};
    {| LoadData.text := accented 60; LoadData.title := "Summer";
       LoadData.url := "https://simple.wikipedia.org/wiki/Summer" |};
    {| LoadData.text := text_of_length 1200; LoadData.title := "Art";
       LoadData.url := "https://simple.wikipedia.org/wiki/Art" |};
    {| LoadData.text := accented 150; LoadData.title := "Coffee";
       LoadData.url := "https://simple.wikipedia.org/wiki/Coffee" |} ].

(** 250 items of 120 characters. *)
Definition pages : list LoadData.item :=
  repeat {| LoadData.text := text_of_length 120; LoadData.title := "Page";
            LoadData.url := "https://simple.wikipedia.org/wiki/Page" |} 250.

(** A model that gives every text the same embedding. *)
Definition model (n : nat) (texts : list string)
  : Py.outcome (list (list Py.float)) :=
  Py.Return (map (fun _ => [Py.float_of_Z 1; Py.float_of_Z 0]) texts).

(** An empty table on a server that takes every insert, and on one that
    fails the second insert. *)
Definition fresh : LoadData.t :=
  {| LoadData.documents_table := []; LoadData.inserts := 0;
     LoadData.insert_fault := fun _ => None;
     LoadData.encodes := 0; LoadData.encode_reply := model |}.
Definition second_insert_fails : LoadData.t :=
  {| LoadData.documents_table := []; LoadData.inserts := 0;
     LoadData.insert_fault :=
       fun n => match n with
                | 1%nat => Some "could not extend file: No space left on device"
                | _ => None
                end;
     LoadData.encodes := 0; LoadData.encode_reply := model |}.

End LoadScenario.

(** * Properties *)

(** ** The plan walk *)

Section Walk.

Import QueryAnalyzer.

Lemma merge_child_rows (info child_info : ScanInfo.t) :
  ScanInfo.rows_scanned (merge_child info child_info)
  = ScanInfo.rows_scanned info + ScanInfo.rows_scanned child_info.
Proof.
  unfold merge_child.
  destruct (negb (ScanInfo.index_used info) && ScanInfo.index_used child_info);
    reflexivity.
Qed.

Lemma merge_child_primary (info child_info : ScanInfo.t) :
  ScanInfo.primary_scan (merge_child info child_info) = ScanInfo.primary_scan info.
Proof.
  unfold merge_child.
  destruct (negb (ScanInfo.index_used info) && ScanInfo.index_used child_info);
    reflexivity.
Qed.

(** The loop over the children adds the rows that each child reports. *)
Lemma loop_rows (f : plan -> ScanInfo.t) (children : list plan) :
  forall info,
    ScanInfo.rows_scanned
      (fold_left (fun info child_plan => merge_child info (f child_plan))
                 children info)
    = ScanInfo.rows_scanned info
      + sum_Z (map (fun c => ScanInfo.rows_scanned (f c)) children).
Proof.
  induction children as [|c children IH]; intros info; simpl.
  - lia.
  - rewrite IH, merge_child_rows. lia.
Qed.

(** The loop over the children leaves the primary scan kind alone. *)
Lemma loop_primary (f : plan -> ScanInfo.t) (children : list plan) :
  forall info,
    ScanInfo.primary_scan
      (fold_left (fun info child_plan => merge_child info (f child_plan))
                 children info)
    = ScanInfo.primary_scan info.
Proof.
  induction children as [|c children IH]; intros info; simpl.
  - reflexivity.
  - rewrite IH. apply merge_child_primary.
Qed.

Lemma scan_node_rows (p : plan) (level : nat) :
  ScanInfo.rows_scanned (scan_node p level info0)
  = if is_scan_node p then Py.get_default (actual_rows p) 0 else 0.
Proof.
  unfold scan_node, is_scan_node.
  destruct (Py.contains "Scan" (Py.get_default (node_type p) "")); [|reflexivity].
  destruct ((level =? 0)%nat || Py.not_str (ScanInfo.primary_scan _));
    destruct (Py.contains "Index" _); reflexivity.
Qed.

Lemma scan_node_primary (p : plan) :
  ScanInfo.primary_scan (scan_node p 0 info0)
  = if is_scan_node p
    then scan_types_get (Py.get_default (node_type p) "") "unknown"
    else "unknown".
Proof.
  unfold scan_node, is_scan_node.
  destruct (Py.contains "Scan" (Py.get_default (node_type p) "")); [|reflexivity].
  simpl. destruct (Py.contains "Index" _); reflexivity.
Qed.

Lemma extract_unfold (p : plan) (level : nat) :
  _extract_scan_info p level
  = match plans p with
    | Some children =>
        fold_left
          (fun info child_plan =>
             merge_child info (_extract_scan_info child_plan (S level)))
          children (scan_node p level info0)
    | None => scan_node p level info0
    end.
Proof. destruct p as [nt idx rows [children|]]; reflexivity. Qed.

Lemma sum_Z_app (l1 l2 : list Z) : sum_Z (l1 ++ l2) = sum_Z l1 + sum_Z l2.
Proof. induction l1 as [|x l1 IH]; simpl; [|rewrite IH]; lia. Qed.

Lemma rows_in_app (l1 l2 : list plan) : rows_in (l1 ++ l2) = rows_in l1 + rows_in l2.
Proof. unfold rows_in. rewrite filter_app, map_app. apply sum_Z_app. Qed.

Lemma rows_in_children (children : list plan) :
  rows_in (flat_map nodes children) = sum_Z (map rows_of_scan_nodes children).
Proof.
  induction children as [|c children IH]; simpl; [reflexivity|].
  rewrite rows_in_app, IH. reflexivity.
Qed.

End Walk.

(** The rows that the walk reports are those of the scan nodes. *)
Lemma extract_rows_scanned (p : plan) (level : nat) :
  ScanInfo.rows_scanned (QueryAnalyzer._extract_scan_info p level)
  = rows_of_scan_nodes p.
Proof.
  revert level.
  induction p as [nt idx rows | nt idx rows children IH] using plan_induction;
    intros level; rewrite extract_unfold; unfold rows_of_scan_nodes; cbn [plans].
  - rewrite scan_node_rows. unfold rows_in. simpl.
    destruct (is_scan_node (PlanDict nt idx rows None)); simpl; lia.
  - rewrite loop_rows, scan_node_rows.
    change (nodes (PlanDict nt idx rows (Some children)))
      with ([PlanDict nt idx rows (Some children)] ++ flat_map nodes children)%list.
    rewrite rows_in_app, rows_in_children.
    f_equal.
    + unfold rows_in. simpl.
      destruct (is_scan_node (PlanDict nt idx rows (Some children))); simpl; lia.
    + f_equal. apply map_ext_Forall.
      eapply Forall_impl; [|exact IH]. intros c Hc. apply Hc.
Qed.

(** The primary scan kind is decided on the root alone. *)
Lemma extract_primary_scan (p : plan) :
  ScanInfo.primary_scan (QueryAnalyzer._extract_scan_info p 0)
  = if is_scan_node p
    then QueryAnalyzer.scan_types_get (Py.get_default (node_type p) "") "unknown"
    else "unknown".
Proof.
  rewrite extract_unfold.
  destruct (plans p) as [children|].
  - rewrite loop_primary. apply scan_node_primary.
  - apply scan_node_primary.
Qed.

(** A list of nodes without a scan node has no scanned rows. *)
Lemma rows_in_no_scan (l : list plan) :
  Forall (fun n => is_scan_node n = false) l -> rows_in l = 0.
Proof.
  unfold rows_in. induction 1 as [|n l Hn Hl IH]; simpl; [reflexivity|].
  rewrite Hn. exact IH.
Qed.

(** C8. For every plan tree, and at every level of the walk,
    [rows_scanned] is the sum of ['Actual Rows'] over all the nodes of the
    tree, at any depth, whose ['Node Type'] contains the marker [Scan];
    the other nodes add nothing. *)
Theorem rows_scanned_sums_scan_nodes (p : plan) (level : nat) :
  ScanInfo.rows_scanned (QueryAnalyzer._extract_scan_info p level)
  = sum_Z (map (fun n => Py.get_default (actual_rows n) 0)
               (filter is_scan_node (nodes p))).
Proof. apply extract_rows_scanned. Qed.

(** C7. For every plan tree, the primary scan kind is the kind of the root
    when the root is a scan node, and [unknown] when it is not, whatever the
    descendants are: under a [Limit] root, a sequential scan that alone is
    classified [sequential] leaves the tree [unknown]. *)
Theorem primary_scan_is_root_level (p : plan) :
  ScanInfo.primary_scan (QueryAnalyzer._extract_scan_info p 0)
  = (if is_scan_node p
     then QueryAnalyzer.scan_types_get (Py.get_default (node_type p) "") "unknown"
     else "unknown")
  /\ ScanInfo.primary_scan
       (QueryAnalyzer._extract_scan_info Scenario.seq_scan_plan 0) = "unknown"
  /\ ScanInfo.scans_found
       (QueryAnalyzer._extract_scan_info Scenario.seq_scan_plan 0) = ["Seq Scan"]
  /\ ScanInfo.primary_scan
       (QueryAnalyzer._extract_scan_info
          (PlanDict (Some "Seq Scan") None (Some 40000) None) 0) = "sequential".
Proof.
  split; [apply extract_primary_scan|repeat split; reflexivity].
Qed.

(** ** Comparison of floats *)

Lemma SFcompare_swap (x y : spec_float) :
  SFcompare y x = option_map CompOpp (SFcompare x y).
Proof.
  destruct x as [sx|sx| |sx mx ex], y as [sy|sy| |sy my ey]; simpl;
    try reflexivity;
    try (destruct sx; reflexivity); try (destruct sy; reflexivity);
    try (destruct sx, sy; reflexivity).
  destruct sx, sy; try reflexivity;
    rewrite (Z.compare_antisym ex ey);
    destruct (ex ?= ey); simpl; try reflexivity;
    rewrite (Pos.compare_cont_antisym mx my Eq); reflexivity.
Qed.

Lemma SFcompare_nan (x y : spec_float) :
  SFcompare x y = None -> x = S754_nan \/ y = S754_nan.
Proof.
  destruct x as [sx|sx| |sx mx ex], y as [sy|sy| |sy my ey]; simpl;
    try discriminate; auto.
Qed.

(** Above the bound [b], nothing is at most [b]. *)
Lemma fle_false_of_fgt (t b : Py.float) : Py.fgt t b = true -> Py.fle t b = false.
Proof.
  unfold Py.fgt, Py.fle, SFltb, SFleb. rewrite (SFcompare_swap b t).
  destruct (SFcompare b t) as [[| |]|]; simpl; congruence.
Qed.

(** A number above some bound and not above [b] is at most [b]. *)
Lemma fle_true_of_not_fgt (t a b : Py.float) :
  a <> S754_nan -> b <> S754_nan ->
  Py.fgt t a = true -> Py.fgt t b = false -> Py.fle t b = true.
Proof.
  unfold Py.fgt, Py.fle, SFltb, SFleb. intros Ha Hb H1 H2.
  rewrite (SFcompare_swap b t).
  destruct (SFcompare b t) as [[| |]|] eqn:E; simpl; try congruence.
  destruct (SFcompare_nan _ _ E) as [E'|E']; [congruence|].
  subst t. destruct a; simpl in H1; discriminate.
Qed.

(** ** Parsing the reply of the oracle *)

Section Parsing.

Import LLMOptimizer.

Lemma parse_line_action (d : Decision.t) (line : string) :
  Decision.action (parse_line d line) = Decision.action d.
Proof.
  unfold parse_line.
  destruct (String.prefix "REASONING:" (Py.strip line)); [reflexivity|].
  destruct (String.prefix "EXPECTED_IMPROVEMENT:" (Py.strip line)); reflexivity.
Qed.

Lemma parse_line_index_type (d : Decision.t) (line : string) :
  Decision.index_type (parse_line d line) = Decision.index_type d.
Proof.
  unfold parse_line.
  destruct (String.prefix "REASONING:" (Py.strip line)); [reflexivity|].
  destruct (String.prefix "EXPECTED_IMPROVEMENT:" (Py.strip line)); reflexivity.
Qed.

Lemma parse_line_reasoning (d : Decision.t) (line : string) :
  Decision.reasoning d <> None -> Decision.reasoning (parse_line d line) <> None.
Proof.
  unfold parse_line.
  destruct (String.prefix "REASONING:" (Py.strip line)); [simpl; discriminate|].
  destruct (String.prefix "EXPECTED_IMPROVEMENT:" (Py.strip line)); auto.
Qed.

Lemma parse_lines_action (lines : list string) :
  forall d, Decision.action (fold_left parse_line lines d) = Decision.action d.
Proof.
  induction lines as [|l lines IH]; intros d; simpl; [reflexivity|].
  rewrite IH. apply parse_line_action.
Qed.

Lemma parse_lines_index_type (lines : list string) :
  forall d, Decision.index_type (fold_left parse_line lines d) = Decision.index_type d.
Proof.
  induction lines as [|l lines IH]; intros d; simpl; [reflexivity|].
  rewrite IH. apply parse_line_index_type.
Qed.

Lemma parse_lines_reasoning (lines : list string) :
  forall d, Decision.reasoning d <> None ->
            Decision.reasoning (fold_left parse_line lines d) <> None.
Proof.
  induction lines as [|l lines IH]; intros d H; simpl; [exact H|].
  apply IH, parse_line_reasoning, H.
Qed.

Lemma parse_returns (llm_output : string) (analysis : Analysis.t)
      (t : Py.float) (o : LLMOptimizer.t) :
  Analysis.execution_time_ms analysis = Some t ->
  _parse_llm_response llm_output analysis o
  = (Py.Return (Decision.set_confidence (confidence_of t) (parsed_fields llm_output)), o).
Proof.
  intros Ht. unfold _parse_llm_response, confidence_of. rewrite Ht.
  unfold Py.bind, Py.getitem, Py.ret. fold (parsed_fields llm_output).
  destruct (Py.fgt t (Py.float_of_Z 200)); [reflexivity|].
  destruct (Py.fgt t (Py.float_of_Z 100)); reflexivity.
Qed.

End Parsing.

(** C10. For every reply whose lowercased text contains [hnsw] anywhere,
    the parsed decision has action [create_hnsw_index] and index type
    [hnsw], whatever else the reply contains; the actions
    [create_ivfflat_index] and [optimize_query] are only chosen for a reply
    without the token. *)
Theorem hnsw_token_has_priority (reply : string) (analysis : Analysis.t)
        (t : Py.float) (o : LLMOptimizer.t) :
  Analysis.execution_time_ms analysis = Some t ->
  exists d,
    LLMOptimizer._parse_llm_response reply analysis o = (Py.Return d, o) /\
    (Py.contains "hnsw" (Py.lower reply) = true ->
     Decision.action d = Some "create_hnsw_index" /\
     Decision.index_type d = Some (Some "hnsw")) /\
    (Decision.action d = Some "create_ivfflat_index" \/
     Decision.action d = Some "optimize_query" ->
     Py.contains "hnsw" (Py.lower reply) = false).
Proof.
  intros Ht. eexists. split; [apply (parse_returns reply analysis t o Ht)|].
  unfold parsed_fields. simpl Decision.action. simpl Decision.index_type.
  rewrite parse_lines_action, parse_lines_index_type.
  destruct (Py.contains "hnsw" (Py.lower reply)) eqn:Hh.
  - rewrite orb_true_r. simpl. split; [auto|].
    intros [H|H]; discriminate.
  - split; [discriminate|reflexivity].
Qed.

Lemma hnsw_token_has_priority_witness :
  exists d,
    LLMOptimizer._parse_llm_response
      "HNSW needs too much memory here; create_ivfflat_index instead."
      Scenario.analysis_150_indexed (Scenario.daemon Scenario.advises_hnsw)
    = (Py.Return d, Scenario.daemon Scenario.advises_hnsw) /\
    Decision.action d = Some "create_hnsw_index" /\
    Decision.index_type d = Some (Some "hnsw").
Proof.
  destruct (hnsw_token_has_priority
              "HNSW needs too much memory here; create_ivfflat_index instead."
              Scenario.analysis_150_indexed (Py.float_of_Z 150)
              (Scenario.daemon Scenario.advises_hnsw) eq_refl)
    as [d [Hd [Hh _]]].
  exists d. split; [exact Hd|]. apply Hh. reflexivity.
Defined.

(** ** Confidence *)

Lemma parsed_confidence_by_time (t : Py.float) :
  confidence_by_time t (Some (confidence_of t)).
Proof.
  assert (N100 : Py.float_of_Z 100 <> S754_nan) by (vm_compute; discriminate).
  assert (N200 : Py.float_of_Z 200 <> S754_nan) by (vm_compute; discriminate).
  unfold confidence_by_time, confidence_of.
  destruct (Py.fgt t (Py.float_of_Z 200)) eqn:H200.
  - pose proof (fle_false_of_fgt _ _ H200) as Hle. rewrite Hle.
    split; [|split]; split; intros E; try reflexivity; try discriminate.
    + destruct E as [_ E]. discriminate.
    + destruct E as [E _]. discriminate.
  - destruct (Py.fgt t (Py.float_of_Z 100)) eqn:H100.
    + pose proof (fle_true_of_not_fgt _ _ _ N100 N200 H100 H200) as Hle.
      rewrite Hle.
      split; [|split]; split; intros E; try reflexivity; try discriminate.
      * split; reflexivity.
      * destruct E as [_ E]. exfalso. apply E. split; reflexivity.
    + split; [|split]; split; intros E; try reflexivity; try discriminate.
      * destruct E as [E _]. discriminate.
      * split; [reflexivity|]. intros [E' _]. discriminate.
Qed.

Lemma fallback_confidence (analysis : Analysis.t) (o o' : LLMOptimizer.t)
      (d : Decision.t) :
  LLMOptimizer._fallback_decision analysis o = (Py.Return d, o') ->
  Decision.confidence d = Some "low" /\ Decision.reasoning d <> None /\ o' = o.
Proof.
  unfold LLMOptimizer._fallback_decision, Py.bind, Py.getitem, Py.ret, Py.raise.
  destruct (Analysis.execution_time_ms analysis) as [t|]; [|discriminate].
  destruct (Py.fgt t (Py.float_of_Z 100)).
  - destruct (Analysis.index_used analysis) as [[|]|]; simpl; try discriminate.
    + intros H; inversion H; subst. repeat split. simpl. discriminate.
    + destruct (Analysis.rows_scanned analysis) as [n|]; [|discriminate].
      destruct (n <? 100000); intros H; inversion H; subst;
        repeat split; simpl; discriminate.
  - intros H; inversion H; subst. repeat split. simpl. discriminate.
Qed.

(** C4 (amended). For every analysis that holds its execution time, the
    decision parsed from any reply of the oracle has confidence high iff
    the time is above 200 ms, medium iff it is above 100 ms and at most
    200 ms, and low otherwise, whatever the action; the decision of the
    rule-based fallback has confidence low at every execution time. *)
Theorem confidence_follows_time_when_parsed (llm_output : string)
        (analysis : Analysis.t) (t : Py.float) (o : LLMOptimizer.t) :
  Analysis.execution_time_ms analysis = Some t ->
  (exists d,
      LLMOptimizer._parse_llm_response llm_output analysis o = (Py.Return d, o) /\
      confidence_by_time t (Decision.confidence d)) /\
  (Py.fgt t (Py.float_of_Z 100) = false \/
   Analysis.index_used analysis = Some true \/
   (Analysis.index_used analysis = Some false /\
    Analysis.rows_scanned analysis <> None) ->
   exists d,
     LLMOptimizer._fallback_decision analysis o = (Py.Return d, o) /\
     Decision.confidence d = Some "low").
Proof.
  intros Ht. split.
  - eexists. split; [apply (parse_returns llm_output analysis t o Ht)|].
    simpl. apply parsed_confidence_by_time.
  - intros Hcase.
    assert (exists d, LLMOptimizer._fallback_decision analysis o = (Py.Return d, o))
      as [d Hd].
    { unfold LLMOptimizer._fallback_decision, Py.bind, Py.getitem, Py.ret, Py.raise.
      rewrite Ht.
      destruct (Py.fgt t (Py.float_of_Z 100)); [|eexists; reflexivity].
      destruct Hcase as [H|[H|[H1 H2]]]; [discriminate| |].
      - rewrite H. simpl. eexists; reflexivity.
      - rewrite H1. simpl.
        destruct (Analysis.rows_scanned analysis) as [n|]; [|congruence].
        destruct (n <? 100000); eexists; reflexivity. }
    exists d. split; [exact Hd|]. apply (fallback_confidence _ _ _ _ Hd).
Qed.

Lemma confidence_follows_time_when_parsed_witness :
  (exists d,
      LLMOptimizer._parse_llm_response "use HNSW" Scenario.analysis_150_indexed
        (Scenario.daemon Scenario.unreachable)
      = (Py.Return d, Scenario.daemon Scenario.unreachable) /\
      confidence_by_time (Py.float_of_Z 150) (Decision.confidence d)) /\
  (exists d,
      LLMOptimizer._fallback_decision Scenario.analysis_150_indexed
        (Scenario.daemon Scenario.unreachable)
      = (Py.Return d, Scenario.daemon Scenario.unreachable) /\
      Decision.confidence d = Some "low").
Proof.
  destruct (confidence_follows_time_when_parsed "use HNSW"
              Scenario.analysis_150_indexed (Py.float_of_Z 150)
              (Scenario.daemon Scenario.unreachable) eq_refl) as [H1 H2].
  split; [exact H1|]. apply H2. right. left. reflexivity.
Defined.

(** C4, as stated, fails: with the oracle unreachable and an execution
    time of 150 ms, the engine returns a decision of confidence low, where
    the rule by execution time asks for medium. *)
Lemma fallback_confidence_counterexample :
  exists d o',
    LLMOptimizer.decide_optimization Scenario.analysis_150_indexed
      (Scenario.daemon Scenario.unreachable) = (Py.Return d, o') /\
    Decision.confidence d = Some "low" /\
    ~ confidence_by_time (Py.float_of_Z 150) (Decision.confidence d).
Proof.
  eexists. eexists. split; [reflexivity|]. split; [reflexivity|].
  simpl. intros [_ [[_ Hmedium] _]].
  assert (Some "low" = Some "medium") as H by (apply Hmedium; split; reflexivity).
  discriminate.
Qed.

(** ** The reasoning step *)

(** C6. For every analysis whose list of issues is empty, and in every
    state of the agent, [reason] returns a decision of action [no_action]
    at once: the state of the agent, and with it the record of the calls
    that the oracle has received, is the one before the step. *)
Theorem no_issues_no_oracle_call (analysis : Analysis.t) (a : AutoTuningAgent.t) :
  Analysis.issues analysis = Some [] ->
  exists d,
    AutoTuningAgent.reason analysis a = (Py.Return d, a) /\
    Decision.action d = Some "no_action" /\
    LLMOptimizer.chat_calls
      (AutoTuningAgent.optimizer (snd (AutoTuningAgent.reason analysis a)))
    = LLMOptimizer.chat_calls (AutoTuningAgent.optimizer a).
Proof.
  intros H. unfold AutoTuningAgent.reason. rewrite H.
  eexists. split; [reflexivity|]. split; reflexivity.
Qed.

Lemma no_issues_no_oracle_call_witness :
  exists d,
    AutoTuningAgent.reason (Analysis.set_issues [] Scenario.analysis_150_indexed)
      Scenario.first_cycle = (Py.Return d, Scenario.first_cycle) /\
    Decision.action d = Some "no_action" /\
    LLMOptimizer.chat_calls
      (AutoTuningAgent.optimizer
         (snd (AutoTuningAgent.reason
                 (Analysis.set_issues [] Scenario.analysis_150_indexed)
                 Scenario.first_cycle)))
    = LLMOptimizer.chat_calls (AutoTuningAgent.optimizer Scenario.first_cycle).
Proof.
  apply (no_issues_no_oracle_call
           (Analysis.set_issues [] Scenario.analysis_150_indexed)
           Scenario.first_cycle).
  reflexivity.
Defined.

(** ** Plan analysis on a malformed input *)

(** C5 (amended). Given Python's [None], the empty dictionary or a
    dictionary without a ['Plan'] entry, plan analysis returns the
    dictionary that holds only ['error'], [Invalid EXPLAIN output], with
    no scan kind and no row count.  A scan summary of kind [unknown] with
    0 rows scanned is what the walk returns for a plan tree without scan
    nodes, the empty plan among them.  Plan analysis is not total: on a
    plan whose rows returned, divided by its rows scanned, are outside the
    double range, it raises [OverflowError]. *)
Theorem analyze_plan_on_malformed_input :
  (forall input,
      input = None \/ (exists eo, input = Some eo /\ Plan eo = None) ->
      QueryAnalyzer.analyze_plan input = Py.Return QueryAnalyzer.invalid_explain) /\
  (Analysis.error QueryAnalyzer.invalid_explain = Some "Invalid EXPLAIN output" /\
   Analysis.scan_type QueryAnalyzer.invalid_explain = None /\
   Analysis.rows_scanned QueryAnalyzer.invalid_explain = None) /\
  (forall p,
      Forall (fun n => is_scan_node n = false) (nodes p) ->
      ScanInfo.primary_scan (QueryAnalyzer._extract_scan_info p 0) = "unknown" /\
      ScanInfo.rows_scanned (QueryAnalyzer._extract_scan_info p 0) = 0) /\
  QueryAnalyzer.analyze_plan
    (Some {| Plan := Some overflowing_plan; Execution_Time := None;
             Planning_Time := None |})
  = Py.Raise (Py.OverflowError "integer division result too large for a float").
Proof.
  split; [|split; [|split]].
  - intros input [H|[eo [H1 H2]]]; subst; unfold QueryAnalyzer.analyze_plan;
      [|rewrite H2]; reflexivity.
  - repeat split.
  - intros p Hp. split.
    + rewrite extract_primary_scan.
      destruct p as [nt idx rows kids]. simpl in Hp.
      inversion Hp as [|n l Hroot Hrest]; subst. rewrite Hroot. reflexivity.
    + rewrite extract_rows_scanned. apply rows_in_no_scan, Hp.
  - vm_compute. reflexivity.
Qed.

Lemma analyze_plan_on_malformed_input_witness :
  QueryAnalyzer.analyze_plan
    (Some {| Plan := None; Execution_Time := Some (Py.float_of_Z 12);
             Planning_Time := None |})
  = Py.Return QueryAnalyzer.invalid_explain /\
  ScanInfo.primary_scan
    (QueryAnalyzer._extract_scan_info (PlanDict (Some "Limit") None (Some 5) None) 0)
  = "unknown" /\
  ScanInfo.rows_scanned
    (QueryAnalyzer._extract_scan_info (PlanDict (Some "Limit") None (Some 5) None) 0)
  = 0.
Proof.
  destruct analyze_plan_on_malformed_input as [Hbad [_ [Hnoscan _]]].
  split.
  - apply Hbad. right. eexists. split; reflexivity.
  - apply Hnoscan. repeat constructor.
Defined.

(** C5, as stated, fails: on the empty dictionary, and on [None], plan
    analysis returns the error dictionary, in which the scan kind is not
    [unknown] and the rows scanned are not 0: both keys are absent. *)
Lemma malformed_plan_counterexample :
  exists a,
    QueryAnalyzer.analyze_plan
      (Some {| Plan := None; Execution_Time := None; Planning_Time := None |})
    = Py.Return a /\
    QueryAnalyzer.analyze_plan None = Py.Return a /\
    Analysis.error a = Some "Invalid EXPLAIN output" /\
    Analysis.scan_type a <> Some "unknown" /\
    Analysis.rows_scanned a <> Some 0.
Proof.
  exists QueryAnalyzer.invalid_explain.
  repeat split; simpl; discriminate.
Qed.

(** ** What a computation preserves *)

Section Preservation.

Context {S : Type} (P : S -> Prop).

Lemma preserves_ret {A} (x : A) : preserves P (Py.ret x).
Proof. intros s H. exact H. Qed.

Lemma preserves_raise {A} (e : Py.exn) : preserves P (@Py.raise S A e).
Proof. intros s H. exact H. Qed.

Lemma preserves_lift {A} (o : Py.outcome A) : preserves P (@Py.lift S A o).
Proof. intros s H. exact H. Qed.

Lemma preserves_getitem {A} (key : string) (o : option A) :
  preserves P (@Py.getitem S A key o).
Proof. destruct o; intros s H; exact H. Qed.

Lemma preserves_get : preserves P (@Py.get S).
Proof. intros s H. exact H. Qed.

Lemma preserves_modify (f : S -> S) :
  (forall s, P s -> P (f s)) -> preserves P (Py.modify f).
Proof. intros Hf s H. apply Hf, H. Qed.

Lemma preserves_bind {A B} (c : Py.M S A) (k : A -> Py.M S B) :
  preserves P c -> (forall x, preserves P (k x)) -> preserves P (Py.bind c k).
Proof.
  intros Hc Hk s H. unfold Py.bind.
  specialize (Hc s H). destruct (c s) as [[x|e] s']; simpl in *.
  - apply Hk, Hc.
  - exact Hc.
Qed.

Lemma preserves_try_except {A} (c : Py.M S A) (h : Py.exn -> Py.M S A) :
  preserves P c -> (forall e, preserves P (h e)) -> preserves P (Py.try_except c h).
Proof.
  intros Hc Hh s H. unfold Py.try_except.
  specialize (Hc s H). destruct (c s) as [[x|e] s']; simpl in *.
  - exact Hc.
  - apply Hh, Hc.
Qed.

Lemma preserves_if {A} (b : bool) (c1 c2 : Py.M S A) :
  preserves P c1 -> preserves P c2 -> preserves P (if b then c1 else c2).
Proof. destruct b; auto. Qed.

End Preservation.

Lemma preserves_zoom {S T A} (P : S -> Prop) (Q : T -> Prop)
      (proj : S -> T) (inj : T -> S -> S) (c : Py.M T A) :
  (forall s, P s -> Q (proj s)) ->
  (forall t s, P s -> Q t -> P (inj t s)) ->
  preserves Q c -> preserves P (Py.zoom proj inj c).
Proof.
  intros Hp Hi Hc s H. unfold Py.zoom.
  specialize (Hc (proj s) (Hp s H)).
  destruct (c (proj s)) as [o t]. simpl in *. apply Hi; assumption.
Qed.

(** ** The connection *)

Section Connection.

Import DatabaseManager.

Variable l : list string.

(** The statements that are not DDL leave the index sets alone. *)
Lemma cursor_execute_indexes (st : statement) :
  not_ddl st -> preserves (indexes_are l) (cursor_execute st).
Proof.
  intros Hst db [Hc Hp]. unfold cursor_execute.
  destruct (fault db (statements db)); [split; assumption|].
  destruct st; simpl in Hst; try contradiction; split; simpl; assumption.
Qed.

Lemma commit_indexes : preserves (indexes_are l) commit.
Proof. intros db [Hc Hp]. split; simpl; assumption. Qed.

Lemma rollback_indexes : preserves (indexes_are l) rollback.
Proof. intros db [Hc Hp]. split; simpl; assumption. Qed.

Lemma execute_query_indexes (st : statement) :
  not_ddl st -> preserves (indexes_are l) (execute_query st).
Proof.
  intros Hst. unfold execute_query.
  apply preserves_try_except; [apply cursor_execute_indexes, Hst|].
  intros e. apply preserves_bind; [apply rollback_indexes|].
  intros _. apply preserves_raise.
Qed.

Lemma create_index_indexes (index_name index_type : string) :
  preserves (indexes_are l) (create_index index_name index_type).
Proof.
  unfold create_index.
  apply preserves_bind; [apply execute_query_indexes; exact I|].
  intros [|[|count rows]|row]; try apply preserves_ret.
  destruct (count >? 0); apply preserves_ret.
Qed.

Lemma log_query_metric_indexes (m : metric_data) :
  preserves (indexes_are l) (log_query_metric m).
Proof.
  unfold log_query_metric.
  apply preserves_try_except; [|intros e; apply rollback_indexes].
  apply preserves_bind; [apply cursor_execute_indexes; exact I|].
  intros _. apply commit_indexes.
Qed.

Lemma log_agent_action_indexes (m : action_data) :
  preserves (indexes_are l) (log_agent_action m).
Proof.
  unfold log_agent_action.
  apply preserves_try_except; [|intros e; apply rollback_indexes].
  apply preserves_bind; [apply cursor_execute_indexes; exact I|].
  intros _. apply commit_indexes.
Qed.

Lemma analyze_query_indexes (query_text : string) (embedding : option (list Py.float)) :
  preserves (indexes_are l) (analyze_query query_text embedding).
Proof.
  unfold analyze_query.
  apply preserves_try_except.
  - apply preserves_if; [apply preserves_ret|].
    apply preserves_bind; [apply cursor_execute_indexes; exact I|].
    intros [|rows|[[|eo rest]|]];
      try apply preserves_raise; apply preserves_ret.
  - intros e. apply preserves_bind; [apply rollback_indexes|].
    intros _. apply preserves_ret.
Qed.

End Connection.

(** ** The steps of the agent *)

Section Steps.

Import AutoTuningAgent.

(** A property of the agent that calls on the connection and on the
    optimizer keep. *)
Variable P : t -> Prop.
Hypothesis P_db :
  forall A (c : Py.M DatabaseManager.t A), sends_no_ddl c -> preserves P (on_db c).
Hypothesis P_optimizer :
  forall A (c : Py.M LLMOptimizer.t A), preserves P (on_optimizer c).

Lemma observe_preserves (query_embedding : list Py.float) (tenant_id : string) :
  preserves P (observe query_embedding tenant_id).
Proof.
  unfold observe.
  apply preserves_bind.
  { apply P_db. intros l. apply analyze_query_indexes. }
  intros an.
  apply preserves_bind; [apply preserves_getitem|]. intros t.
  apply preserves_bind; [apply preserves_getitem|]. intros iu.
  apply preserves_bind; [apply preserves_getitem|]. intros st.
  apply preserves_bind; [|intros _; apply preserves_ret].
  apply P_db. intros l. apply log_query_metric_indexes.
Qed.

Lemma reason_preserves (analysis : Analysis.t) : preserves P (reason analysis).
Proof.
  unfold reason.
  apply preserves_bind; [apply preserves_getitem|]. intros issues.
  apply preserves_if; [apply preserves_ret|apply P_optimizer].
Qed.

Lemma generate_sql_preserves {S} (Q : S -> Prop) (decision : Decision.t)
      (tenant_id : string) :
  preserves Q (@LLMOptimizer.generate_sql S decision tenant_id).
Proof.
  unfold LLMOptimizer.generate_sql.
  apply preserves_bind; [apply preserves_getitem|]. intros action.
  repeat apply preserves_if; apply preserves_ret.
Qed.

Lemma on_self_preserves {A} (c : Py.M t A) :
  preserves P c -> preserves (fun fr : frame => P (fst fr)) (on_self c).
Proof.
  intros Hc. unfold on_self.
  apply (preserves_zoom (fun fr : frame => P (fst fr)) P); auto.
Qed.

Lemma update_result_preserves (f : ActionResult.t -> ActionResult.t) :
  preserves (fun fr : frame => P (fst fr)) (update_result f).
Proof. intros fr H. exact H. Qed.

(** For [act], the property must also stand the increment of the counter. *)
Hypothesis P_count : forall a n, P a -> P (set_optimization_count n a).

Lemma act_try_preserves (decision : Decision.t) (tenant_id : string) :
  preserves (fun fr : frame => P (fst fr)) (act_try decision tenant_id).
Proof.
  unfold act_try.
  apply preserves_bind; [apply generate_sql_preserves|]. intros sql.
  apply preserves_if; [apply update_result_preserves|].
  apply preserves_bind; [apply update_result_preserves|]. intros _.
  apply preserves_bind; [apply preserves_getitem|]. intros action.
  apply preserves_bind.
  { apply preserves_if; [|apply preserves_ret].
    apply preserves_bind; [apply preserves_getitem|]. intros index_type.
    apply preserves_bind.
    { apply on_self_preserves. destruct index_type;
        [apply preserves_ret|apply preserves_raise]. }
    intros _.
    apply preserves_bind; [|intros _; apply update_result_preserves].
    apply on_self_preserves, P_db. intros l. apply create_index_indexes. }
  intros _.
  apply preserves_bind; [apply preserves_getitem|]. intros reasoning.
  apply preserves_bind; [apply preserves_get|]. intros fr.
  apply preserves_bind.
  { apply on_self_preserves, P_db. intros l. apply log_agent_action_indexes. }
  intros _.
  apply on_self_preserves, preserves_modify.
  intros a H. apply P_count, H.
Qed.

Lemma act_preserves (decision : Decision.t) (tenant_id : string) :
  preserves P (act decision tenant_id).
Proof.
  unfold act.
  apply preserves_bind; [apply preserves_getitem|]. intros action.
  apply preserves_if; [apply preserves_ret|].
  intros a H.
  match goal with
  | |- context [act_try ?d ?t ?fr] =>
      pose proof (act_try_preserves d t fr H) as Hk;
      destruct (act_try d t fr) as [[u|e] [a' result]]
  end; exact Hk.
Qed.

End Steps.

(** The three properties of the frame. *)
Lemma keeps_indexes_db (l : list string) A (c : Py.M DatabaseManager.t A) :
  sends_no_ddl c -> preserves (keeps_indexes l) (AutoTuningAgent.on_db c).
Proof.
  intros Hc. unfold AutoTuningAgent.on_db.
  apply (preserves_zoom (keeps_indexes l) (indexes_are l)); auto.
Qed.

Lemma keeps_indexes_optimizer (l : list string) A (c : Py.M LLMOptimizer.t A) :
  preserves (keeps_indexes l) (AutoTuningAgent.on_optimizer c).
Proof.
  intros a H. unfold AutoTuningAgent.on_optimizer, Py.zoom.
  destruct (c (AutoTuningAgent.optimizer a)). exact H.
Qed.

Lemma keeps_total_db (total : Py.float) A (c : Py.M DatabaseManager.t A) :
  sends_no_ddl c -> preserves (keeps_total total) (AutoTuningAgent.on_db c).
Proof.
  intros _ a H. unfold AutoTuningAgent.on_db, Py.zoom.
  destruct (c (AutoTuningAgent.db a)). exact H.
Qed.

Lemma keeps_total_optimizer (total : Py.float) A (c : Py.M LLMOptimizer.t A) :
  preserves (keeps_total total) (AutoTuningAgent.on_optimizer c).
Proof.
  intros a H. unfold AutoTuningAgent.on_optimizer, Py.zoom.
  destruct (c (AutoTuningAgent.optimizer a)). exact H.
Qed.

Lemma keeps_count_db (count : Z) A (c : Py.M DatabaseManager.t A) :
  sends_no_ddl c -> preserves (keeps_count count) (AutoTuningAgent.on_db c).
Proof.
  intros _ a H. unfold AutoTuningAgent.on_db, Py.zoom.
  destruct (c (AutoTuningAgent.db a)). exact H.
Qed.

Lemma keeps_count_optimizer (count : Z) A (c : Py.M LLMOptimizer.t A) :
  preserves (keeps_count count) (AutoTuningAgent.on_optimizer c).
Proof.
  intros a H. unfold AutoTuningAgent.on_optimizer, Py.zoom.
  destruct (c (AutoTuningAgent.optimizer a)). exact H.
Qed.

(** ** What the steps return *)

Section Returns.

Import AutoTuningAgent.

Lemma analyze_query_returns (query_text : string)
      (embedding : option (list Py.float)) (d : DatabaseManager.t) :
  exists analysis d' time used kind,
    DatabaseManager.analyze_query query_text embedding d = (Py.Return analysis, d') /\
    Analysis.execution_time_ms analysis = Some time /\
    Analysis.index_used analysis = Some used /\
    Analysis.scan_type analysis = Some kind.
Proof.
  unfold DatabaseManager.analyze_query, DatabaseManager.cursor_execute,
    DatabaseManager.rollback.
  unfold Py.bind, Py.try_except, Py.ret, Py.raise, Py.modify.
  destruct (DatabaseManager.no_embedding embedding).
  - do 5 eexists. repeat split; reflexivity.
  - destruct (DatabaseManager.fault d (DatabaseManager.statements d)).
    + do 5 eexists. repeat split; reflexivity.
    + cbn.
      destruct (DatabaseManager.explain d (DatabaseManager.statements d))
        as [[|eo rest]|]; do 5 eexists; repeat split; reflexivity.
Qed.

Lemma log_query_metric_returns (m : metric_data) (d : DatabaseManager.t) :
  exists d', DatabaseManager.log_query_metric m d = (Py.Return tt, d').
Proof.
  unfold DatabaseManager.log_query_metric, DatabaseManager.cursor_execute,
    DatabaseManager.rollback, DatabaseManager.commit.
  unfold Py.bind, Py.try_except, Py.ret, Py.raise, Py.modify.
  destruct (DatabaseManager.fault d (DatabaseManager.statements d));
    eexists; reflexivity.
Qed.

(** [observe] returns on every state, with the execution time in the
    analysis. *)
Lemma observe_returns (query_embedding : list Py.float) (tenant_id : string)
      (a : t) :
  exists analysis a' time,
    observe query_embedding tenant_id a = (Py.Return analysis, a') /\
    Analysis.execution_time_ms analysis = Some time.
Proof.
  destruct (analyze_query_returns "Vector Similarity Search"
              (Some query_embedding) (db a))
    as (an & d' & time & used & kind & Han & Ht & Hu & Hk).
  unfold observe. unfold Py.bind at 1. unfold on_db at 1, Py.zoom at 1.
  rewrite Han.
  unfold Py.bind at 1. cbn [Analysis.execution_time_ms Analysis.set_issues].
  rewrite Ht. unfold Py.getitem at 1, Py.ret at 1.
  unfold Py.bind at 1.
  assert (Hu' : Analysis.index_used
                  (if Py.fgt time (Py.float_of_Z 20)
                   then append_issue "high_latency" (Analysis.set_issues [] an)
                   else Analysis.set_issues [] an) = Some used)
    by (destruct (Py.fgt time (Py.float_of_Z 20)); exact Hu).
  assert (Ht' : Analysis.execution_time_ms
                  (if Py.fgt time (Py.float_of_Z 20)
                   then append_issue "high_latency" (Analysis.set_issues [] an)
                   else Analysis.set_issues [] an) = Some time)
    by (destruct (Py.fgt time (Py.float_of_Z 20)); exact Ht).
  assert (Hk' : Analysis.scan_type
                  (if Py.fgt time (Py.float_of_Z 20)
                   then append_issue "high_latency" (Analysis.set_issues [] an)
                   else Analysis.set_issues [] an) = Some kind)
    by (destruct (Py.fgt time (Py.float_of_Z 20)); exact Hk).
  set (an1 := if Py.fgt time (Py.float_of_Z 20)
              then append_issue "high_latency" (Analysis.set_issues [] an)
              else Analysis.set_issues [] an) in *.
  rewrite Hu'. unfold Py.getitem at 1, Py.ret at 1.
  unfold Py.bind at 1.
  assert (Hk'' : Analysis.scan_type
                   (if negb used then append_issue "missing_index" an1 else an1)
                 = Some kind)
    by (destruct (negb used); exact Hk').
  assert (Ht'' : Analysis.execution_time_ms
                   (if negb used then append_issue "missing_index" an1 else an1)
                 = Some time)
    by (destruct (negb used); exact Ht').
  set (an2 := if negb used then append_issue "missing_index" an1 else an1) in *.
  rewrite Hk''. unfold Py.getitem at 1, Py.ret at 1.
  unfold Py.bind at 1. unfold on_db at 1, Py.zoom at 1.
  match goal with
  | |- context [DatabaseManager.log_query_metric ?m ?d] =>
      destruct (log_query_metric_returns m d) as [d'' Hlog]; rewrite Hlog
  end.
  exists an2. eexists. exists time. split; [reflexivity|exact Ht''].
Qed.

Lemma create_index_existing (index_name index_type : string)
      (d : DatabaseManager.t) :
  In index_name (DatabaseManager.pg_indexes (DatabaseManager.pending d)) ->
  DatabaseManager.fault d (DatabaseManager.statements d) = None ->
  DatabaseManager.create_index index_name index_type d
  = (Py.Return tt, one_more_statement d).
Proof.
  intros Hin Hfault.
  unfold DatabaseManager.create_index, DatabaseManager.execute_query,
    DatabaseManager.cursor_execute, Py.bind, Py.try_except.
  rewrite Hfault. cbn.
  apply (count_occ_In string_dec) in Hin.
  destruct (Z.of_nat (count_occ string_dec
                        (DatabaseManager.pg_indexes (DatabaseManager.pending d))
                        index_name) >? 0) eqn:E; [reflexivity|].
  rewrite Z.gtb_ltb, Z.ltb_ge in E. lia.
Qed.

(** Without the index, and with the server answering, [create_index]
    sends the existence check and nothing else. *)
Lemma create_index_absent (index_name index_type : string)
      (d : DatabaseManager.t) :
  DatabaseManager.fault d (DatabaseManager.statements d) = None ->
  DatabaseManager.create_index index_name index_type d
  = (Py.Return tt, one_more_statement d).
Proof.
  intros Hfault.
  unfold DatabaseManager.create_index, DatabaseManager.execute_query,
    DatabaseManager.cursor_execute, Py.bind, Py.try_except.
  rewrite Hfault. cbn.
  destruct (Z.of_nat _ >? 0); reflexivity.
Qed.

Lemma log_agent_action_returns (m : action_data) (d : DatabaseManager.t) :
  exists d',
    DatabaseManager.log_agent_action m d = (Py.Return tt, d').
Proof.
  unfold DatabaseManager.log_agent_action, DatabaseManager.cursor_execute,
    DatabaseManager.rollback, DatabaseManager.commit.
  unfold Py.bind, Py.try_except, Py.ret, Py.raise, Py.modify.
  destruct (DatabaseManager.fault d (DatabaseManager.statements d));
    eexists; reflexivity.
Qed.

(** A decision that creates an index, on a connection that answers the
    existence check: [act] reports success, whether the index exists or
    not. *)
Lemma act_create_answered (decision : Decision.t) (tenant_id ty rs : string)
      (a : t) :
  ty = "hnsw" \/ ty = "ivfflat" ->
  Decision.action decision = Some (create_action ty) ->
  Decision.index_type decision = Some (Some ty) ->
  Decision.reasoning decision = Some rs ->
  DatabaseManager.fault (db a) (DatabaseManager.statements (db a)) = None ->
  exists r a' sql,
    act decision tenant_id a = (Py.Return r, a') /\
    ActionResult.success r = true /\
    ActionResult.error r = None /\
    ActionResult.sql_executed r = Some sql /\
    LLMOptimizer.generate_sql decision tenant_id a = (Py.Return (Some sql), a) /\
    optimization_count a' = optimization_count a + 1.
Proof.
  intros Hty Hact Hity Hrs Hfault.
  unfold act, act_try, LLMOptimizer.generate_sql.
  rewrite Hact, Hity, Hrs.
  destruct Hty; subst ty;
    unfold Py.bind, Py.getitem, Py.ret, on_self, on_db, update_result, upper_of,
      Py.zoom, Py.modify, Py.get;
    cbn -[DatabaseManager.create_index DatabaseManager.log_agent_action];
    rewrite create_index_absent by exact Hfault;
    cbn -[DatabaseManager.log_agent_action];
    match goal with
    | |- context [DatabaseManager.log_agent_action ?m ?d] =>
        destruct (log_agent_action_returns m d) as [d' Hlog]; rewrite Hlog
    end;
    cbn; do 3 eexists; repeat split.
Qed.

(** Every decision that the reasoning step returns has a reasoning. *)
Lemma decide_optimization_reasoning (analysis : Analysis.t)
      (o o' : LLMOptimizer.t) (d : Decision.t) :
  LLMOptimizer.decide_optimization analysis o = (Py.Return d, o') ->
  Decision.reasoning d <> None.
Proof.
  unfold LLMOptimizer.decide_optimization, LLMOptimizer._build_optimization_prompt.
  unfold Py.bind at 1 2 3 4 5.
  destruct (Analysis.execution_time_ms analysis) as [time|] eqn:Ht;
    [|discriminate].
  destruct (Analysis.scan_type analysis); [|discriminate].
  destruct (Analysis.index_used analysis); [|discriminate].
  destruct (Analysis.issues analysis); [|discriminate].
  cbn [Py.getitem Py.ret].
  unfold Py.try_except, Py.bind, LLMOptimizer.ollama_chat.
  destruct (LLMOptimizer.chat_reply o (List.length (LLMOptimizer.chat_calls o)))
    as [out|e].
  - rewrite (parse_returns out analysis time _ Ht).
    intros H. inversion H; subst. cbn.
    unfold parsed_fields. apply parse_lines_reasoning.
    destruct (_ || _); [cbn; discriminate|].
    destruct (_ || _); [cbn; discriminate|].
    destruct (Py.contains "optimize_query" _); cbn; discriminate.
  - intros H. apply (fallback_confidence _ _ _ _ H).
Qed.

Lemma reason_reasoning (analysis : Analysis.t) (a a' : t) (d : Decision.t) :
  reason analysis a = (Py.Return d, a') -> Decision.reasoning d <> None.
Proof.
  unfold reason, Py.bind, Py.getitem.
  destruct (Analysis.issues analysis) as [issues|]; [|discriminate].
  cbn [Py.ret].
  destruct (no_issues issues).
  - intros H. inversion H; subst. cbn. discriminate.
  - unfold on_optimizer, Py.zoom.
    destruct (LLMOptimizer.decide_optimization analysis (optimizer a))
      as [[d0|e] o'] eqn:E; intros H; inversion H; subst.
    apply (decide_optimization_reasoning _ _ _ _ E).
Qed.

End Returns.

(** ** The cycle *)

Section Cycle.

Import AutoTuningAgent.

(** The running total after the three first steps of a cycle is the one
    before them. *)
Lemma steps_keep_total (query_embedding : list Py.float) (tenant_id : string)
      (a a1 a2 a3 : t) (before : Analysis.t) (decision : Decision.t)
      (result : ActionResult.t) :
  observe query_embedding tenant_id a = (Py.Return before, a1) ->
  reason before a1 = (Py.Return decision, a2) ->
  act decision tenant_id a2 = (Py.Return result, a3) ->
  total_improvement a3 = total_improvement a.
Proof.
  intros Hobs Hrea Hact.
  pose proof (observe_preserves (keeps_total (total_improvement a))
                (keeps_total_db _) query_embedding tenant_id a eq_refl) as H1.
  rewrite Hobs in H1.
  pose proof (reason_preserves (keeps_total (total_improvement a))
                (keeps_total_optimizer _) before a1 H1) as H2.
  rewrite Hrea in H2.
  pose proof (act_preserves (keeps_total (total_improvement a))
                (keeps_total_db _) (fun a n H => H) decision tenant_id a2 H2) as H3.
  rewrite Hact in H3. exact H3.
Qed.

(** The cycle whose action succeeded on a create action: the Verifying
    phase runs. *)
Lemma cycle_verifies (query_text tenant_id action : string) (a a1 a2 a3 a4 : t)
      (query_embedding : list Py.float) (before after : Analysis.t)
      (decision : Decision.t) (result : ActionResult.t)
      (time_before time_after : Py.float) :
  encode_query a query_text = Py.Return query_embedding ->
  observe query_embedding tenant_id a = (Py.Return before, a1) ->
  reason before a1 = (Py.Return decision, a2) ->
  act decision tenant_id a2 = (Py.Return result, a3) ->
  ActionResult.success result = true ->
  Decision.action decision = Some action ->
  Py.contains "create_" action = true ->
  observe query_embedding tenant_id a3 = (Py.Return after, a4) ->
  Analysis.execution_time_ms before = Some time_before ->
  Analysis.execution_time_ms after = Some time_after ->
  Py.is_zero time_before = false ->
  run_optimization_cycle query_text tenant_id a
  = (Py.Return
       {| CycleResult.analysis_before := before;
          CycleResult.decision := decision;
          CycleResult.action_result := result;
          CycleResult.analysis_after := Some after;
          CycleResult.improvement_percentage :=
            Some (improvement_of time_before time_after) |},
     set_total_improvement
       (Py.fadd (total_improvement a4) (improvement_of time_before time_after)) a4).
Proof.
  intros Hemb Hobs Hrea Hact Hsucc Hd Hcreate Hobs2 Htb Hta Hnz.
  unfold run_optimization_cycle, Py.bind, Py.get, Py.lift.
  rewrite Hemb, Hobs, Hrea, Hact, Hsucc, Hd. cbn [Py.getitem Py.ret].
  rewrite Hcreate. cbn [andb].
  rewrite Hobs2, Htb, Hta. cbn [Py.getitem Py.ret].
  unfold Py.truediv. rewrite Hnz. reflexivity.
Qed.

End Cycle.




(** ** A cycle on a scope whose index exists *)

Section Existing.

Import AutoTuningAgent.

Lemma existence_check_answers (index_name : string) (d : DatabaseManager.t) :
  In index_name (DatabaseManager.pg_indexes (DatabaseManager.pending d)) ->
  DatabaseManager.fault d (DatabaseManager.statements d) = None ->
  exists count,
    DatabaseManager.execute_query (CountIndex index_name) d
    = (Py.Return (CountRows [count]), one_more_statement d) /\
    0 < count.
Proof.
  intros Hin Hfault.
  unfold DatabaseManager.execute_query, DatabaseManager.cursor_execute,
    Py.try_except.
  rewrite Hfault. cbn. eexists. split; [reflexivity|].
  apply (count_occ_In string_dec) in Hin. lia.
Qed.

Lemma create_action_contains (ty : string) :
  ty = "hnsw" \/ ty = "ivfflat" -> Py.contains "create_" (create_action ty) = true.
Proof. intros [H|H]; subst; reflexivity. Qed.

End Existing.

(** C3 (amended). For every cycle on a scope whose index already exists,
    in which the decision is again the create action of that index, the
    server answers the existence check and the time before is not zero:
    the check finds the index; the
    executor sends no DDL, so that the index sets are as before, and
    returns success with the generated statement in [sql_executed]; the
    Verifying phase runs; the counter of optimizations is one more than
    before and the running total has the measured improvement added. *)
Theorem existing_index_is_skipped_but_counted
        (query_text tenant_id ty : string) (a a1 a2 : AutoTuningAgent.t)
        (query_embedding : list Py.float) (before : Analysis.t)
        (decision : Decision.t) (l : list string) (time_before : Py.float) :
  AutoTuningAgent.encode_query a query_text = Py.Return query_embedding ->
  AutoTuningAgent.observe query_embedding tenant_id a = (Py.Return before, a1) ->
  AutoTuningAgent.reason before a1 = (Py.Return decision, a2) ->
  ty = "hnsw" \/ ty = "ivfflat" ->
  Decision.action decision = Some (create_action ty) ->
  Decision.index_type decision = Some (Some ty) ->
  indexes_are l (AutoTuningAgent.db a) ->
  In (index_name_of ty tenant_id) l ->
  DatabaseManager.fault (AutoTuningAgent.db a2)
    (DatabaseManager.statements (AutoTuningAgent.db a2)) = None ->
  Analysis.execution_time_ms before = Some time_before ->
  Py.is_zero time_before = false ->
  (exists count d',
      DatabaseManager.execute_query (CountIndex (index_name_of ty tenant_id))
        (AutoTuningAgent.db a2) = (Py.Return (CountRows [count]), d') /\
      0 < count) /\
  exists r a',
    AutoTuningAgent.run_optimization_cycle query_text tenant_id a
    = (Py.Return r, a') /\
    ActionResult.success (CycleResult.action_result r) = true /\
    (exists sql,
        ActionResult.sql_executed (CycleResult.action_result r) = Some sql /\
        LLMOptimizer.generate_sql decision tenant_id a2 = (Py.Return (Some sql), a2)) /\
    indexes_are l (AutoTuningAgent.db a') /\
    CycleResult.analysis_after r <> None /\
    (exists improvement,
        CycleResult.improvement_percentage r = Some improvement /\
        AutoTuningAgent.total_improvement a'
        = Py.fadd (AutoTuningAgent.total_improvement a) improvement) /\
    AutoTuningAgent.optimization_count a'
    = AutoTuningAgent.optimization_count a + 1.
Proof.
  intros Hemb Hobs Hrea Hty Hact Hity Hidx Hin Hfault Htb Hnz.
  (* the frame of the two first steps *)
  pose proof (observe_preserves (keeps_indexes l) (keeps_indexes_db l)
                query_embedding tenant_id a Hidx) as I1.
  rewrite Hobs in I1.
  pose proof (reason_preserves (keeps_indexes l) (keeps_indexes_optimizer l)
                before a1 I1) as I2.
  rewrite Hrea in I2. cbn [snd] in I1, I2.
  pose proof (observe_preserves
                (keeps_count (AutoTuningAgent.optimization_count a))
                (keeps_count_db _) query_embedding tenant_id a eq_refl) as N1.
  rewrite Hobs in N1.
  pose proof (reason_preserves
                (keeps_count (AutoTuningAgent.optimization_count a))
                (keeps_count_optimizer _) before a1 N1) as N2.
  rewrite Hrea in N2. cbn [snd] in N1, N2.
  split.
  { destruct (existence_check_answers (index_name_of ty tenant_id)
                (AutoTuningAgent.db a2)) as [count [Hq Hpos]];
      [destruct I2 as [_ Hp]; rewrite Hp; exact Hin|exact Hfault|].
    exists count. eexists. split; [exact Hq|exact Hpos]. }
  (* the action *)
  destruct (Decision.reasoning decision) as [rs|] eqn:Hrs;
    [|exfalso; apply (reason_reasoning _ _ _ _ Hrea); exact Hrs].
  destruct (act_create_answered decision tenant_id ty rs a2
              Hty Hact Hity Hrs Hfault)
    as (result & a3 & sql & Hrun & Hsucc & Herr & Hsql & Hgen & Hcount).
  pose proof (act_preserves (keeps_indexes l) (keeps_indexes_db l)
                (fun a n H => H) decision tenant_id a2 I2) as I3.
  rewrite Hrun in I3. cbn [snd] in I3.
  (* the second observation *)
  destruct (observe_returns query_embedding tenant_id a3)
    as (after & a4 & time_after & Hobs2 & Hta).
  pose proof (observe_preserves (keeps_indexes l) (keeps_indexes_db l)
                query_embedding tenant_id a3 I3) as I4.
  rewrite Hobs2 in I4.
  pose proof (observe_preserves
                (keeps_count (AutoTuningAgent.optimization_count a3))
                (keeps_count_db _) query_embedding tenant_id a3 eq_refl) as N4.
  rewrite Hobs2 in N4.
  pose proof (observe_preserves
                (keeps_total (AutoTuningAgent.total_improvement a3))
                (keeps_total_db _) query_embedding tenant_id a3 eq_refl) as T4.
  rewrite Hobs2 in T4. cbn [snd] in I4, N4, T4.
  pose proof (steps_keep_total query_embedding tenant_id a a1 a2 a3
                before decision result Hobs Hrea Hrun) as T3.
  do 2 eexists. split.
  { apply (cycle_verifies query_text tenant_id (create_action ty) a a1 a2 a3 a4
             query_embedding before after decision result time_before time_after);
      try assumption.
    apply create_action_contains, Hty. }
  cbn [CycleResult.action_result CycleResult.analysis_after
       CycleResult.improvement_percentage].
  split; [exact Hsucc|].
  split; [exists sql; split; assumption|].
  split; [exact I4|].
  split; [discriminate|].
  split.
  - eexists. split; [reflexivity|].
    cbn [AutoTuningAgent.total_improvement AutoTuningAgent.set_total_improvement].
    unfold keeps_total in T4. rewrite T4, T3. reflexivity.
  - cbn [AutoTuningAgent.optimization_count AutoTuningAgent.set_total_improvement].
    unfold keeps_count in N4, N2. rewrite N4, Hcount, N2. reflexivity.
Qed.

Lemma existing_index_is_skipped_but_counted_witness :
  exists r a',
    AutoTuningAgent.run_optimization_cycle "nearest documents" "default"
      Scenario.second_cycle = (Py.Return r, a') /\
    ActionResult.success (CycleResult.action_result r) = true /\
    indexes_are ["idx_embedding_hnsw_default"] (AutoTuningAgent.db a') /\
    CycleResult.analysis_after r <> None /\
    AutoTuningAgent.optimization_count a'
    = AutoTuningAgent.optimization_count Scenario.second_cycle + 1.
Proof.
  edestruct (existing_index_is_skipped_but_counted
               "nearest documents" "default" "hnsw" Scenario.second_cycle)
    as [_ (r & a' & Hrun & Hsucc & _ & Hidx & Hafter & _ & Hcount)].
  all: try (vm_compute; reflexivity).
  - left. reflexivity.
  - split; reflexivity.
  - left. reflexivity.
  - exists r, a'. repeat split; try assumption; apply Hidx.
Defined.

(** C3, as stated, fails: on a scope whose index exists, with the oracle
    advising the index again, the cycle returns success with a statement
    in [sql_executed], runs the Verifying phase, and changes both
    statistics. *)
Lemma second_cycle_counterexample :
  exists r a',
    AutoTuningAgent.run_optimization_cycle "nearest documents" "default"
      Scenario.second_cycle = (Py.Return r, a') /\
    In "idx_embedding_hnsw_default"
       (DatabaseManager.pg_indexes
          (DatabaseManager.committed (AutoTuningAgent.db Scenario.second_cycle))) /\
    ActionResult.success (CycleResult.action_result r) = true /\
    ActionResult.sql_executed (CycleResult.action_result r) <> None /\
    CycleResult.analysis_after r <> None /\
    AutoTuningAgent.optimization_count a'
    <> AutoTuningAgent.optimization_count Scenario.second_cycle /\
    AutoTuningAgent.total_improvement a'
    <> AutoTuningAgent.total_improvement Scenario.second_cycle.
Proof.
  eexists. eexists. split; [vm_compute; reflexivity|].
  split; [left; reflexivity|].
  split; [reflexivity|].
  split; [discriminate|].
  split; [discriminate|].
  split; [discriminate|].
  vm_compute. discriminate.
Qed.

(** ** Where the code leaves its documentation *)

(** [act] sends no DDL: the index sets after it are those before it,
    whatever the decision and however the action ends. *)
Lemma act_sends_no_ddl (l : list string) (decision : Decision.t)
      (tenant_id : string) (a : AutoTuningAgent.t) :
  indexes_are l (AutoTuningAgent.db a) ->
  indexes_are l (AutoTuningAgent.db (snd (AutoTuningAgent.act decision tenant_id a))).
Proof.
  apply (act_preserves (keeps_indexes l) (keeps_indexes_db l) (fun a n H => H)).
Qed.

(** C1 (the code departs from it). On a scope without an index, with the
    server answering every statement, [act] on the decision
    [create_hnsw_index] returns success = true and no error, and the index
    [idx_embedding_hnsw_default] exists neither in the committed tables nor
    in the open transaction afterwards: [create_index] ends after the
    existence check.  Its sibling [create_index2] on the same connection
    does create the index. *)
Theorem act_reports_success_without_index :
  exists r a',
    AutoTuningAgent.act Scenario.hnsw_decision "default" Scenario.first_cycle
    = (Py.Return r, a') /\
    ActionResult.success r = true /\
    ActionResult.error r = None /\
    ~ In "idx_embedding_hnsw_default"
         (DatabaseManager.pg_indexes
            (DatabaseManager.committed (AutoTuningAgent.db a'))) /\
    ~ In "idx_embedding_hnsw_default"
         (DatabaseManager.pg_indexes
            (DatabaseManager.pending (AutoTuningAgent.db a'))) /\
    In "idx_embedding_hnsw_default"
       (DatabaseManager.pg_indexes
          (DatabaseManager.committed
             (snd (DatabaseManager.create_index2 "idx_embedding_hnsw_default" "hnsw"
                     (AutoTuningAgent.db Scenario.first_cycle))))).
Proof.
  eexists. eexists. split; [vm_compute; reflexivity|].
  split; [reflexivity|]. split; [reflexivity|].
  split; [intros []|]. split; [intros []|].
  vm_compute. left. reflexivity.
Qed.

(** The fallback rule reads ['rows_scanned'], which the analysis of
    [DatabaseManager.analyze_query] does not hold: above 100 ms and without
    an index, a failure of the oracle becomes a [KeyError]. *)
Lemma reason_raises_without_rows (analysis : Analysis.t) (a : AutoTuningAgent.t)
      (time : Py.float) (kind issue : string) (issues : list string) (e : Py.exn) :
  Analysis.execution_time_ms analysis = Some time ->
  Analysis.scan_type analysis = Some kind ->
  Analysis.index_used analysis = Some false ->
  Analysis.issues analysis = Some (issue :: issues) ->
  Analysis.rows_scanned analysis = None ->
  Py.fgt time (Py.float_of_Z 100) = true ->
  LLMOptimizer.chat_reply (AutoTuningAgent.optimizer a)
    (List.length (LLMOptimizer.chat_calls (AutoTuningAgent.optimizer a)))
  = Py.Raise e ->
  fst (AutoTuningAgent.reason analysis a) = Py.Raise (Py.KeyError "rows_scanned").
Proof.
  intros Ht Hk Hu Hi Hr Hslow Hdown.
  unfold AutoTuningAgent.reason, AutoTuningAgent.on_optimizer,
    LLMOptimizer.decide_optimization, LLMOptimizer._build_optimization_prompt,
    LLMOptimizer._fallback_decision, LLMOptimizer.ollama_chat.
  unfold Py.bind, Py.try_except, Py.zoom.
  rewrite Hi, Ht, Hk, Hu. cbn -[Py.float_of_Z]. rewrite Hdown.
  cbn -[Py.float_of_Z]. rewrite Hslow, Hr. reflexivity.
Qed.

(** C2 (the code departs from it). With no index, a sequential scan of
    150 ms and the oracle unreachable, the embedding is computed and the
    observation returns an analysis without ['rows_scanned']; the Reasoning
    phase then raises [KeyError] from the fallback rule, and the cycle
    raises it instead of returning a result. *)
Theorem cycle_raises_when_oracle_is_down :
  exists query_embedding before a1,
    AutoTuningAgent.encode_query Scenario.slow_without_oracle "nearest documents"
    = Py.Return query_embedding /\
    AutoTuningAgent.observe query_embedding "default" Scenario.slow_without_oracle
    = (Py.Return before, a1) /\
    Analysis.rows_scanned before = None /\
    fst (AutoTuningAgent.reason before a1) = Py.Raise (Py.KeyError "rows_scanned") /\
    fst (AutoTuningAgent.run_optimization_cycle "nearest documents" "default"
           Scenario.slow_without_oracle)
    = Py.Raise (Py.KeyError "rows_scanned").
Proof.
  eexists. eexists. eexists.
  split; [reflexivity|].
  split; [vm_compute; reflexivity|].
  split; [reflexivity|].
  split; vm_compute; reflexivity.
Qed.

(** The improvement divides by the time before: when the server reports
    0 ms, the Verifying phase raises [ZeroDivisionError]. *)
Lemma cycle_raises_on_zero_time :
  fst (AutoTuningAgent.run_optimization_cycle "nearest documents" "default"
         Scenario.zero_time)
  = Py.Raise (Py.ZeroDivisionError "float division by zero").
Proof. vm_compute. reflexivity. Qed.

(** * Further properties *)

(** ** The plan walk: index and scan kinds *)

Section WalkIndex.

Import QueryAnalyzer.

Lemma scan_node_index (p : plan) (level : nat) :
  ScanInfo.index_used (scan_node p level info0) = is_index_scan p /\
  ScanInfo.index_name (scan_node p level info0)
  = (if is_index_scan p then index_name p else None).
Proof.
  unfold scan_node, is_index_scan, is_scan_node.
  destruct (Py.contains "Scan" (Py.get_default (node_type p) "")); [|split; reflexivity].
  destruct ((level =? 0)%nat || Py.not_str (ScanInfo.primary_scan _));
    destruct (Py.contains "Index" _); split; reflexivity.
Qed.

Lemma scan_node_scans (p : plan) (level : nat) :
  ScanInfo.scans_found (scan_node p level info0)
  = if is_scan_node p then [Py.get_default (node_type p) ""] else [].
Proof.
  unfold scan_node, is_scan_node.
  destruct (Py.contains "Scan" (Py.get_default (node_type p) "")); [|reflexivity].
  destruct ((level =? 0)%nat || Py.not_str (ScanInfo.primary_scan _));
    destruct (Py.contains "Index" _); reflexivity.
Qed.

Lemma merge_child_index (info child_info : ScanInfo.t) :
  ScanInfo.index_used (merge_child info child_info)
  = ScanInfo.index_used info || ScanInfo.index_used child_info /\
  ScanInfo.index_name (merge_child info child_info)
  = (if ScanInfo.index_used info then ScanInfo.index_name info
     else if ScanInfo.index_used child_info then ScanInfo.index_name child_info
          else ScanInfo.index_name info).
Proof.
  unfold merge_child.
  destruct (ScanInfo.index_used info) eqn:Hi;
    destruct (ScanInfo.index_used child_info) eqn:Hc; cbn; rewrite ?Hi, ?Hc;
    split; reflexivity.
Qed.

Lemma merge_child_scans (info child_info : ScanInfo.t) :
  ScanInfo.scans_found (merge_child info child_info)
  = (ScanInfo.scans_found info ++ ScanInfo.scans_found child_info)%list.
Proof.
  unfold merge_child.
  destruct (negb (ScanInfo.index_used info) && ScanInfo.index_used child_info);
    reflexivity.
Qed.

Lemma first_index_name_app (l1 l2 : list plan) :
  first_index_name (l1 ++ l2)
  = if existsb is_index_scan l1 then first_index_name l1 else first_index_name l2.
Proof.
  unfold first_index_name.
  induction l1 as [|n l1 IH]; cbn; [reflexivity|].
  destruct (is_index_scan n); [reflexivity|exact IH].
Qed.

(** The loop over the children keeps the first index found. *)
Lemma loop_index (f : plan -> ScanInfo.t) (children : list plan) :
  Forall (fun c => index_facts (f c) (nodes c)) children ->
  forall info,
    (ScanInfo.index_used info = false -> ScanInfo.index_name info = None) ->
    let out := fold_left (fun info child_plan => merge_child info (f child_plan))
                         children info in
    ScanInfo.index_used out
    = ScanInfo.index_used info || existsb is_index_scan (flat_map nodes children) /\
    ScanInfo.index_name out
    = (if ScanInfo.index_used info then ScanInfo.index_name info
       else first_index_name (flat_map nodes children)).
Proof.
  induction 1 as [|c children [Hu Hn] _ IH]; intros info Hinv;
    cbv zeta; cbn [fold_left flat_map existsb].
  - rewrite orb_false_r. split; [reflexivity|].
    destruct (ScanInfo.index_used info) eqn:E; [reflexivity|]. apply Hinv, eq_refl.
  - destruct (merge_child_index info (f c)) as [Mu Mn].
    destruct (IH (merge_child info (f c))) as [IHu IHn].
    { rewrite Mu, Mn. intros E. apply orb_false_elim in E. destruct E as [E1 E2].
      rewrite E1, E2. apply Hinv, E1. }
    cbv zeta in IHu, IHn. rewrite IHu, IHn, Mu, Mn.
    rewrite existsb_app, first_index_name_app, <- Hu, <- Hn.
    destruct (ScanInfo.index_used info); cbn; [split; reflexivity|].
    destruct (ScanInfo.index_used (f c)); cbn; split; reflexivity.
Qed.

Lemma loop_scans (f : plan -> ScanInfo.t) (children : list plan) :
  forall info,
    ScanInfo.scans_found
      (fold_left (fun info child_plan => merge_child info (f child_plan))
                 children info)
    = (ScanInfo.scans_found info
       ++ concat (map (fun c => ScanInfo.scans_found (f c)) children))%list.
Proof.
  induction children as [|c children IH]; intros info; cbn.
  - rewrite app_nil_r. reflexivity.
  - rewrite IH, merge_child_scans, app_assoc. reflexivity.
Qed.

Lemma extract_index_facts (p : plan) :
  forall level, index_facts (_extract_scan_info p level) (nodes p).
Proof.
  induction p as [nt idx rows | nt idx rows children IH] using plan_induction;
    intros level; rewrite extract_unfold; cbn [plans];
    destruct (scan_node_index (PlanDict nt idx rows None) level) as [Su Sn];
    unfold index_facts.
  - cbn [nodes existsb]. rewrite orb_false_r.
    unfold first_index_name. cbn [find]. rewrite Su, Sn.
    destruct (is_index_scan (PlanDict nt idx rows None)); split; reflexivity.
  - destruct (scan_node_index (PlanDict nt idx rows (Some children)) level)
      as [Su' Sn'].
    destruct (loop_index (fun c => _extract_scan_info c (S level)) children)
      with (info := scan_node (PlanDict nt idx rows (Some children)) level info0)
      as [Lu Ln].
    { eapply Forall_impl; [|exact IH]. intros c Hc. apply Hc. }
    { rewrite Su', Sn'. intros E. rewrite E. reflexivity. }
    cbv zeta in Lu, Ln. rewrite Lu, Ln, Su', Sn'.
    cbn [nodes existsb]. unfold first_index_name at 2. cbn [find].
    destruct (is_index_scan (PlanDict nt idx rows (Some children)));
      split; reflexivity.
Qed.

Lemma extract_scans_found (p : plan) :
  forall level,
    ScanInfo.scans_found (_extract_scan_info p level)
    = map (fun n => Py.get_default (node_type n) "") (filter is_scan_node (nodes p)).
Proof.
  induction p as [nt idx rows | nt idx rows children IH] using plan_induction;
    intros level; rewrite extract_unfold; cbn [plans].
  - rewrite scan_node_scans. cbn.
    destruct (is_scan_node (PlanDict nt idx rows None)); reflexivity.
  - rewrite loop_scans, scan_node_scans.
    change (nodes (PlanDict nt idx rows (Some children)))
      with ([PlanDict nt idx rows (Some children)] ++ flat_map nodes children)%list.
    rewrite filter_app, map_app. f_equal.
    + cbn. destruct (is_scan_node (PlanDict nt idx rows (Some children))); reflexivity.
    + clear nt idx rows.
      induction IH as [|c children Hc _ IHc]; cbn; [reflexivity|].
      rewrite filter_app, map_app, Hc, IHc. reflexivity.
Qed.

End WalkIndex.

(** X1. For every plan tree, and at every level of the walk, [index_used]
    says whether some node of the tree, at any depth, is a scan node whose
    kind contains [Index], and [index_name] is the ['Index Name'] of the
    first such node in the order of the walk (the node before its
    children, the children from left to right): a later index never
    replaces it. *)
Theorem index_is_first_index_scan (p : plan) (level : nat) :
  ScanInfo.index_used (QueryAnalyzer._extract_scan_info p level)
  = existsb is_index_scan (nodes p) /\
  ScanInfo.index_name (QueryAnalyzer._extract_scan_info p level)
  = match find is_index_scan (nodes p) with
    | Some n => index_name n
    | None => None
    end.
Proof. apply extract_index_facts. Qed.

(** X2. For every plan tree, [scans_found] lists the kinds of the scan
    nodes of the tree in the order of the walk, one entry per scan node. *)
Theorem scans_found_lists_scan_nodes (p : plan) (level : nat) :
  ScanInfo.scans_found (QueryAnalyzer._extract_scan_info p level)
  = map (fun n => Py.get_default (node_type n) "") (filter is_scan_node (nodes p)).
Proof. apply extract_scans_found. Qed.

(** ** The issues of a plan *)

Lemma detect_issues_tags (p : plan) (scan_info : ScanInfo.t)
      (execution_time : Py.float) (issues : list string) :
  QueryAnalyzer._detect_issues p scan_info execution_time = Py.Return issues ->
  QueryAnalyzer.mem "SEQUENTIAL_SCAN_LARGE_DATASET" issues
  = (String.eqb (ScanInfo.primary_scan scan_info) "sequential"
     && (ScanInfo.rows_scanned scan_info >? 1000)) /\
  QueryAnalyzer.mem "SEQUENTIAL_SCAN_SMALL_DATASET" issues
  = (String.eqb (ScanInfo.primary_scan scan_info) "sequential"
     && negb (ScanInfo.rows_scanned scan_info >? 1000)) /\
  QueryAnalyzer.mem "HIGH_EXECUTION_TIME" issues
  = Py.fgt execution_time (Py.float_of_Z 100) /\
  QueryAnalyzer.mem "NO_INDEX_AVAILABLE" issues
  = (negb (ScanInfo.index_used scan_info)
     && (ScanInfo.rows_scanned scan_info >? 500)) /\
  (QueryAnalyzer.mem "LOW_SELECTIVITY" issues = true ->
   (ScanInfo.rows_scanned scan_info >? 1000) = true) /\
  NoDup issues.
Proof.
  unfold QueryAnalyzer._detect_issues, QueryAnalyzer.append_if.
  destruct (String.eqb (ScanInfo.primary_scan scan_info) "sequential");
    destruct (ScanInfo.rows_scanned scan_info >? 1000);
    destruct (Py.fgt execution_time (Py.float_of_Z 100));
    destruct (negb (ScanInfo.index_used scan_info)
              && (ScanInfo.rows_scanned scan_info >? 500));
    destruct (ScanInfo.rows_scanned scan_info >? 0);
    try destruct (Py.int_truediv _ _) as [selectivity|e];
    try discriminate;
    try destruct (Py.flt selectivity Py.float_0_1);
    cbn; intros H; inversion H; subst; clear H;
    (repeat split; try reflexivity; try discriminate;
     repeat constructor; cbn; intuition discriminate).
Qed.

(** X3. Whenever [_detect_issues] returns, its list holds each tag at most
    once, and it holds [SEQUENTIAL_SCAN_LARGE_DATASET] iff the primary scan
    is sequential with more than 1000 rows scanned,
    [SEQUENTIAL_SCAN_SMALL_DATASET] iff it is sequential with at most 1000,
    [HIGH_EXECUTION_TIME] iff the execution time is above 100 ms,
    [NO_INDEX_AVAILABLE] iff no index is used and more than 500 rows are
    scanned, and [LOW_SELECTIVITY] only with more than 1000 rows scanned. *)
Theorem issues_follow_thresholds (p : plan) (scan_info : ScanInfo.t)
        (execution_time : Py.float) (issues : list string) :
  QueryAnalyzer._detect_issues p scan_info execution_time = Py.Return issues ->
  NoDup issues /\
  (In "SEQUENTIAL_SCAN_LARGE_DATASET" issues <->
   ScanInfo.primary_scan scan_info = "sequential" /\
   1000 < ScanInfo.rows_scanned scan_info) /\
  (In "SEQUENTIAL_SCAN_SMALL_DATASET" issues <->
   ScanInfo.primary_scan scan_info = "sequential" /\
   ScanInfo.rows_scanned scan_info <= 1000) /\
  (In "HIGH_EXECUTION_TIME" issues <->
   Py.fgt execution_time (Py.float_of_Z 100) = true) /\
  (In "NO_INDEX_AVAILABLE" issues <->
   ScanInfo.index_used scan_info = false /\
   500 < ScanInfo.rows_scanned scan_info) /\
  (In "LOW_SELECTIVITY" issues -> 1000 < ScanInfo.rows_scanned scan_info).
Proof.
  intros H. destruct (detect_issues_tags _ _ _ _ H) as (L & S & T & N & W & D).
  assert (mem_In : forall tag l, QueryAnalyzer.mem tag l = true <-> In tag l).
  { intros tag l. unfold QueryAnalyzer.mem. rewrite existsb_exists. split.
    - intros [x [Hx E]]. apply String.eqb_eq in E. subst. exact Hx.
    - intros Hx. exists tag. split; [exact Hx|apply String.eqb_refl]. }
  split; [exact D|].
  split; [|split; [|split; [|split]]].
  - split; intros X.
    + apply mem_In in X. rewrite L in X. apply andb_prop in X.
      destruct X as [X1 X2]. split; [apply String.eqb_eq, X1|].
      rewrite Z.gtb_ltb in X2. apply Z.ltb_lt, X2.
    + destruct X as [E R]. apply mem_In. rewrite L. apply andb_true_intro. split.
      * apply String.eqb_eq, E.
      * rewrite Z.gtb_ltb. apply Z.ltb_lt, R.
  - split; intros X.
    + apply mem_In in X. rewrite S in X. apply andb_prop in X.
      destruct X as [X1 X2]. split; [apply String.eqb_eq, X1|].
      apply negb_true_iff in X2. rewrite Z.gtb_ltb in X2. apply Z.ltb_ge, X2.
    + destruct X as [E R]. apply mem_In. rewrite S. apply andb_true_intro. split.
      * apply String.eqb_eq, E.
      * apply negb_true_iff. rewrite Z.gtb_ltb. apply Z.ltb_ge, R.
  - split; intros X.
    + apply mem_In in X. rewrite T in X. exact X.
    + apply mem_In. rewrite T. exact X.
  - split; intros X.
    + apply mem_In in X. rewrite N in X. apply andb_prop in X.
      destruct X as [X1 X2]. split; [apply negb_true_iff, X1|].
      rewrite Z.gtb_ltb in X2. apply Z.ltb_lt, X2.
    + destruct X as [E R]. apply mem_In. rewrite N. apply andb_true_intro. split.
      * apply negb_true_iff, E.
      * rewrite Z.gtb_ltb. apply Z.ltb_lt, R.
  - intros X. apply mem_In in X. specialize (W X).
    rewrite Z.gtb_ltb in W. apply Z.ltb_lt, W.
Qed.

Lemma issues_follow_thresholds_witness :
  QueryAnalyzer._detect_issues large_seq_scan
    (QueryAnalyzer._extract_scan_info large_seq_scan 0) (Py.float_of_Z 150)
  = Py.Return ["SEQUENTIAL_SCAN_LARGE_DATASET"; "HIGH_EXECUTION_TIME";
               "NO_INDEX_AVAILABLE"] /\
  In "SEQUENTIAL_SCAN_LARGE_DATASET"
     ["SEQUENTIAL_SCAN_LARGE_DATASET"; "HIGH_EXECUTION_TIME"; "NO_INDEX_AVAILABLE"].
Proof.
  assert (E : QueryAnalyzer._detect_issues large_seq_scan
                (QueryAnalyzer._extract_scan_info large_seq_scan 0)
                (Py.float_of_Z 150)
              = Py.Return ["SEQUENTIAL_SCAN_LARGE_DATASET"; "HIGH_EXECUTION_TIME";
                           "NO_INDEX_AVAILABLE"])
    by (vm_compute; reflexivity).
  split; [exact E|].
  destruct (issues_follow_thresholds _ _ _ _ E) as (_ & L & _).
  apply L. split; [reflexivity|]. vm_compute. reflexivity.
Defined.

(** ** The connection: observation and logging *)

Section ConnectionReturns.

Import DatabaseManager.

(** X4. [analyze_query] raises on no connection state and no embedding: it
    returns an analysis with the execution time, the planning time, the
    scan type and the index flag, and without rows scanned or issues.
    Without an embedding ([None] or the empty list, as in the legacy
    [execute_explain]) it sends no statement and returns the fallback
    values (100.0 ms, [ERROR], no index) without an error text; when the
    EXPLAIN statement fails, it returns the same fallback values with the
    text of the failure, after a rollback. *)
Theorem analyze_query_never_raises (query_text : string)
        (embedding : option (list Py.float)) (d : t) :
  (exists analysis d' time planning kind used,
      analyze_query query_text embedding d = (Py.Return analysis, d') /\
      Analysis.execution_time_ms analysis = Some time /\
      Analysis.planning_time_ms analysis = Some planning /\
      Analysis.scan_type analysis = Some kind /\
      Analysis.index_used analysis = Some used /\
      Analysis.rows_scanned analysis = None /\
      Analysis.issues analysis = None) /\
  (no_embedding embedding = true ->
   analyze_query query_text embedding d = (Py.Return (fallback_values None), d)) /\
  execute_explain query_text d = (Py.Return (fallback_values None), d) /\
  (forall msg,
      no_embedding embedding = false ->
      fault d (statements d) = Some msg ->
      analyze_query query_text embedding d
      = (Py.Return (fallback_values (Some msg)), rolled_back 1 d)).
Proof.
  split; [|split; [|split]].
  - unfold analyze_query, cursor_execute, rollback.
    unfold Py.bind, Py.try_except, Py.ret, Py.raise, Py.modify.
    destruct (no_embedding embedding).
    + do 6 eexists. repeat split; reflexivity.
    + destruct (fault d (statements d)).
      * do 6 eexists. repeat split; reflexivity.
      * cbn. destruct (explain d (statements d)) as [[|eo rest]|];
          do 6 eexists; repeat split; reflexivity.
  - intros H. unfold analyze_query, Py.try_except. rewrite H. reflexivity.
  - reflexivity.
  - intros msg H F. unfold analyze_query, cursor_execute, rollback.
    unfold Py.bind, Py.try_except, Py.ret, Py.raise, Py.modify.
    rewrite H, F. reflexivity.
Qed.

Lemma analyze_query_never_raises_witness :
  analyze_query "Vector Similarity Search" (Some [])
    (AutoTuningAgent.db Scenario.first_cycle)
  = (Py.Return (fallback_values None), AutoTuningAgent.db Scenario.first_cycle).
Proof.
  destruct (analyze_query_never_raises "Vector Similarity Search" (Some [])
              (AutoTuningAgent.db Scenario.first_cycle)) as (_ & H & _).
  apply H. reflexivity.
Defined.

(** X5. The two logging functions never raise.  When the INSERT is
    answered, the row is appended and committed; when it fails, the
    transaction is rolled back and the committed tables are as before. *)
Theorem logging_is_best_effort (metric : metric_data) (action : action_data)
        (d : t) :
  (fault d (statements d) = None ->
   (exists d',
       log_query_metric metric d = (Py.Return tt, d') /\
       committed d' = pending d' /\
       query_metrics (committed d') = (query_metrics (pending d) ++ [metric])%list) /\
   (exists d',
       log_agent_action action d = (Py.Return tt, d') /\
       committed d' = pending d' /\
       agent_actions (committed d') = (agent_actions (pending d) ++ [action])%list)) /\
  (forall msg,
      fault d (statements d) = Some msg ->
      log_query_metric metric d = (Py.Return tt, rolled_back 1 d) /\
      log_agent_action action d = (Py.Return tt, rolled_back 1 d)).
Proof.
  unfold log_query_metric, log_agent_action, cursor_execute, rollback, commit.
  unfold Py.bind, Py.try_except, Py.ret, Py.raise, Py.modify.
  split.
  - intros F. rewrite F. split; eexists; repeat split; reflexivity.
  - intros msg F. rewrite F. split; reflexivity.
Qed.

Lemma logging_is_best_effort_witness :
  exists d',
    log_agent_action
      {| action_type := "create_hnsw_index"; action_reasoning := "slow";
         action_sql_executed := "CREATE INDEX"; action_success := true;
         impact_expected_improvement := None; impact_confidence := None |}
      (AutoTuningAgent.db Scenario.first_cycle) = (Py.Return tt, d') /\
    committed d' = pending d'.
Proof.
  destruct (logging_is_best_effort
              {| query_type := "q"; metric_execution_time_ms := Py.float_of_Z 1;
                 metric_index_used := false; metric_rows_scanned := 0;
                 query_plan_scan_type := "Limit" |}
              {| action_type := "create_hnsw_index"; action_reasoning := "slow";
                 action_sql_executed := "CREATE INDEX"; action_success := true;
                 impact_expected_improvement := None; impact_confidence := None |}
              (AutoTuningAgent.db Scenario.first_cycle)) as [H _].
  destruct (H eq_refl) as [_ [d' [H1 [H2 _]]]].
  exists d'. split; assumption.
Defined.

End ConnectionReturns.

(** ** The variant that drops and recreates *)

Section Recreate.

Import DatabaseManager.

Lemma removed_is_absent (name : string) (l : list string) :
  existsb (String.eqb name) (remove string_dec name l) = false.
Proof.
  destruct (existsb (String.eqb name) (remove string_dec name l)) eqn:E;
    [|reflexivity].
  apply existsb_exists in E. destruct E as [x [Hx E]].
  apply String.eqb_eq in E. subst x.
  exfalso. exact (remove_In string_dec l name Hx).
Qed.

Lemma count_after_recreate (name : string) (l : list string) :
  count_occ string_dec (remove string_dec name l ++ [name]) name = 1%nat.
Proof.
  rewrite count_occ_app.
  rewrite (proj1 (count_occ_not_In string_dec _ name) (remove_In string_dec l name)).
  cbn. destruct (string_dec name name); [reflexivity|congruence].
Qed.

Lemma count_of_others (name other : string) (l : list string) :
  other <> name ->
  count_occ string_dec (remove string_dec name l ++ [name]) other
  = count_occ string_dec l other.
Proof.
  intros Hne. rewrite count_occ_app. cbn.
  destruct (string_dec name other); [congruence|].
  rewrite Nat.add_0_r.
  induction l as [|x l IH]; cbn; [reflexivity|].
  destruct (string_dec name x) as [E|E]; destruct (string_dec x other) as [E'|E'];
    subst; try congruence; cbn.
  - destruct (string_dec other other); [|congruence]. rewrite IH. reflexivity.
  - destruct (string_dec x other); [congruence|]. exact IH.
Qed.

(** X6. On a connection that answers the three statements, [create_index2]
    with type [hnsw] or [ivfflat] returns, and afterwards the index is in
    the committed catalogue exactly once, whether it existed before or
    not, every other index is there as often as before, the index is in
    the registry, and no transaction is left open. *)
Theorem create_index2_creates_once (index_name index_type : string) (d : t) :
  index_type = "hnsw" \/ index_type = "ivfflat" ->
  fault d (statements d) = None ->
  fault d (S (statements d)) = None ->
  fault d (S (S (statements d))) = None ->
  exists d',
    create_index2 index_name index_type d = (Py.Return tt, d') /\
    committed d' = pending d' /\
    count_occ string_dec (pg_indexes (committed d')) index_name = 1%nat /\
    (forall other, other <> index_name ->
       count_occ string_dec (pg_indexes (committed d')) other
       = count_occ string_dec (pg_indexes (pending d)) other) /\
    existsb (fun r => String.eqb (fst r) index_name)
            (index_registry (committed d')) = true.
Proof.
  intros Hty F0 F1 F2.
  unfold create_index2.
  replace (String.eqb index_type "hnsw" || String.eqb index_type "ivfflat")
    with true by (destruct Hty; subst; reflexivity).
  unfold Py.try_except, Py.bind, cursor_execute, commit, Py.modify.
  rewrite F0. cbn -[remove string_dec]. rewrite F1.
  cbn -[remove string_dec]. rewrite removed_is_absent.
  cbn -[remove string_dec]. rewrite F2. cbn -[remove string_dec].
  eexists. split; [reflexivity|]. cbn -[remove string_dec].
  split; [reflexivity|].
  split; [apply count_after_recreate|].
  split; [intros other Hne; apply count_of_others, Hne|].
  destruct (existsb (fun r => String.eqb (fst r) index_name)
                    (index_registry (pending d))) eqn:E; [exact E|].
  rewrite existsb_app. cbn. rewrite String.eqb_refl. apply orb_true_r.
Qed.

Lemma create_index2_creates_once_witness :
  exists d',
    create_index2 "idx_embedding_hnsw_default" "hnsw"
      (AutoTuningAgent.db Scenario.second_cycle) = (Py.Return tt, d') /\
    count_occ string_dec (pg_indexes (committed d')) "idx_embedding_hnsw_default"
    = 1%nat.
Proof.
  destruct (create_index2_creates_once "idx_embedding_hnsw_default" "hnsw"
              (AutoTuningAgent.db Scenario.second_cycle)
              (or_introl eq_refl) eq_refl eq_refl eq_refl)
    as (d' & H1 & _ & H2 & _).
  exists d'. split; assumption.
Defined.

(** X7. How [create_index2] fails.  An unknown index type raises
    [ValueError] before any statement is sent.  When DROP or CREATE fails,
    the error is raised again after a rollback: the committed tables are
    untouched and an index dropped in the transaction is still there.
    When the insert into the registry fails, the error is raised although
    the index is already committed. *)
Theorem create_index2_failures (index_name index_type : string) (d : t) :
  (String.eqb index_type "hnsw" || String.eqb index_type "ivfflat" = false ->
   create_index2 index_name index_type d
   = (Py.Raise (Py.ValueError ("Unknown index type: " ++ index_type)), d)) /\
  (index_type = "hnsw" \/ index_type = "ivfflat" ->
   (forall msg,
       fault d (statements d) = Some msg ->
       create_index2 index_name index_type d
       = (Py.Raise (Py.DatabaseError msg), rolled_back 1 d)) /\
   (forall msg,
       fault d (statements d) = None ->
       fault d (S (statements d)) = Some msg ->
       create_index2 index_name index_type d
       = (Py.Raise (Py.DatabaseError msg), rolled_back 2 d)) /\
   (forall msg,
       fault d (statements d) = None ->
       fault d (S (statements d)) = None ->
       fault d (S (S (statements d))) = Some msg ->
       exists d',
         create_index2 index_name index_type d
         = (Py.Raise (Py.DatabaseError msg), d') /\
         committed d' = pending d' /\
         count_occ string_dec (pg_indexes (committed d')) index_name = 1%nat)).
Proof.
  split.
  - intros H. unfold create_index2. rewrite H. reflexivity.
  - intros Hty. unfold create_index2.
    replace (String.eqb index_type "hnsw" || String.eqb index_type "ivfflat")
      with true by (destruct Hty; subst; reflexivity).
    unfold Py.try_except, Py.bind, cursor_execute, commit, rollback,
      Py.modify, Py.raise.
    split; [|split].
    + intros msg F0. rewrite F0. reflexivity.
    + intros msg F0 F1. rewrite F0. cbn -[remove string_dec]. rewrite F1.
      reflexivity.
    + intros msg F0 F1 F2. rewrite F0. cbn -[remove string_dec]. rewrite F1.
      cbn -[remove string_dec]. rewrite removed_is_absent.
      cbn -[remove string_dec]. rewrite F2. cbn -[remove string_dec].
      eexists. split; [reflexivity|]. cbn -[remove string_dec].
      split; [reflexivity|apply count_after_recreate].
Qed.

Lemma create_index2_failures_witness :
  create_index2 "idx_embedding_flat_default" "flat"
    (AutoTuningAgent.db Scenario.second_cycle)
  = (Py.Raise (Py.ValueError "Unknown index type: flat"),
     AutoTuningAgent.db Scenario.second_cycle).
Proof.
  destruct (create_index2_failures "idx_embedding_flat_default" "flat"
              (AutoTuningAgent.db Scenario.second_cycle)) as [H _].
  apply H. reflexivity.
Defined.

End Recreate.

(** ** The decision engine *)

Section Engine.

Import LLMOptimizer.

Lemma fallback_keeps_state (analysis : Analysis.t) (o : t) :
  snd (_fallback_decision analysis o) = o.
Proof.
  unfold _fallback_decision, Py.bind, Py.getitem, Py.ret, Py.raise.
  destruct (Analysis.execution_time_ms analysis) as [time|]; [|reflexivity].
  destruct (Py.fgt time (Py.float_of_Z 100)); [|reflexivity].
  destruct (Analysis.index_used analysis) as [[|]|]; try reflexivity.
  cbn. destruct (Analysis.rows_scanned analysis) as [n|]; [|reflexivity].
  destruct (n <? 100000); reflexivity.
Qed.

Lemma fallback_shape (analysis : Analysis.t) (o o' : t) (d : Decision.t) :
  _fallback_decision analysis o = (Py.Return d, o') ->
  well_shaped d /\ Decision.action d <> Some "optimize_query" /\
  Decision.expected_improvement d <> None.
Proof.
  unfold _fallback_decision, Py.bind, Py.getitem, Py.ret, Py.raise, well_shaped.
  destruct (Analysis.execution_time_ms analysis) as [time|]; [|discriminate].
  destruct (Py.fgt time (Py.float_of_Z 100)).
  - destruct (Analysis.index_used analysis) as [[|]|]; cbn; try discriminate.
    + intros H; inversion H; subst; cbn.
      split; [right; right; left; split; reflexivity|split; discriminate].
    + destruct (Analysis.rows_scanned analysis) as [n|]; [|discriminate].
      destruct (n <? 100000); intros H; inversion H; subst; cbn.
      * split; [left; split; reflexivity|split; discriminate].
      * split; [right; left; split; reflexivity|split; discriminate].
  - intros H; inversion H; subst; cbn.
    split; [right; right; left; split; reflexivity|split; discriminate].
Qed.

Lemma parsed_fields_shape (llm_output : string) :
  well_shaped (parsed_fields llm_output).
Proof.
  unfold well_shaped, parsed_fields.
  rewrite parse_lines_action, parse_lines_index_type.
  destruct (_ || _); [left; split; reflexivity|].
  destruct (_ || _); [right; left; split; reflexivity|].
  destruct (Py.contains "optimize_query" _).
  - right; right; right; split; reflexivity.
  - right; right; left; split; reflexivity.
Qed.

Lemma parse_line_keeps_reasoning (d : Decision.t) (line : string) :
  starts_reasoning line = false ->
  Decision.reasoning (parse_line d line) = Decision.reasoning d.
Proof.
  unfold starts_reasoning, parse_line. intros H. rewrite H.
  destruct (String.prefix "EXPECTED_IMPROVEMENT:" (Py.strip line)); reflexivity.
Qed.

Lemma parse_lines_keep_reasoning (lines : list string) :
  Forall (fun l => starts_reasoning l = false) lines ->
  forall d, Decision.reasoning (fold_left parse_line lines d) = Decision.reasoning d.
Proof.
  induction 1 as [|l lines Hl _ IH]; intros d; cbn; [reflexivity|].
  rewrite IH. apply parse_line_keeps_reasoning, Hl.
Qed.

Lemma parse_line_sets_reasoning (d : Decision.t) (line : string) :
  starts_reasoning line = true ->
  Decision.reasoning (parse_line d line)
  = Some (Py.strip (Py.remove_all "REASONING:" line)).
Proof.
  unfold starts_reasoning, parse_line. intros H. rewrite H. reflexivity.
Qed.

(** X8. When the analysis holds the four keys that the prompt reads,
    [decide_optimization] consults the oracle exactly once, on the prompt
    built from the analysis, whether the oracle answers or fails and
    whether a decision comes out or not: the fallback does not ask again. *)
Theorem oracle_is_consulted_once (analysis : Analysis.t) (o : t)
        (time : Py.float) (kind : string) (used : bool) (issues : list string) :
  Analysis.execution_time_ms analysis = Some time ->
  Analysis.scan_type analysis = Some kind ->
  Analysis.index_used analysis = Some used ->
  Analysis.issues analysis = Some issues ->
  chat_calls (snd (decide_optimization analysis o))
  = (chat_calls o ++ [prompt_of analysis time kind used issues])%list /\
  chat_reply (snd (decide_optimization analysis o)) = chat_reply o /\
  model_name (snd (decide_optimization analysis o)) = model_name o.
Proof.
  intros Ht Hk Hu Hi.
  assert (E : snd (decide_optimization analysis o)
              = {| model_name := model_name o;
                   chat_calls :=
                     (chat_calls o ++ [prompt_of analysis time kind used issues])%list;
                   chat_reply := chat_reply o |}).
  { unfold decide_optimization, _build_optimization_prompt.
    unfold Py.bind, Py.try_except, ollama_chat.
    rewrite Ht, Hk, Hu, Hi. cbn [Py.getitem Py.ret].
    destruct (chat_reply o (List.length (chat_calls o))) as [out|e].
    - rewrite (parse_returns out analysis time _ Ht). reflexivity.
    - match goal with
      | |- context [_fallback_decision ?an ?s] =>
          pose proof (fallback_keeps_state an s) as Hs;
          destruct (_fallback_decision an s) as [r s']
      end.
      cbn in Hs. subst s'. reflexivity. }
  rewrite E. split; [reflexivity|split; reflexivity].
Qed.

Lemma oracle_is_consulted_once_witness :
  List.length
    (chat_calls (snd (decide_optimization Scenario.analysis_150_indexed
                        (Scenario.daemon Scenario.unreachable))))
  = 1%nat.
Proof.
  destruct (oracle_is_consulted_once Scenario.analysis_150_indexed
              (Scenario.daemon Scenario.unreachable)
              (Py.float_of_Z 150) "Limit" true ["high_latency"]
              eq_refl eq_refl eq_refl eq_refl) as [H _].
  rewrite H. reflexivity.
Defined.

(** X9. Every decision that [decide_optimization] returns, parsed from a
    reply or given by the fallback rule, has one of the four actions, with
    the index type [hnsw] on [create_hnsw_index], [ivfflat] on
    [create_ivfflat_index] and [None] on [no_action] and [optimize_query];
    it has a reasoning, an expected improvement and a confidence. *)
Theorem decisions_are_well_shaped (analysis : Analysis.t) (o o' : t)
        (d : Decision.t) :
  decide_optimization analysis o = (Py.Return d, o') ->
  well_shaped d /\
  Decision.reasoning d <> None /\
  Decision.expected_improvement d <> None /\
  (Decision.confidence d = Some "low" \/ Decision.confidence d = Some "medium" \/
   Decision.confidence d = Some "high").
Proof.
  intros H. split; [|split; [exact (decide_optimization_reasoning _ _ _ _ H)|]];
    revert H;
    unfold decide_optimization, _build_optimization_prompt;
    unfold Py.bind at 1 2 3 4 5;
    (destruct (Analysis.execution_time_ms analysis) as [time|] eqn:Ht;
       [|discriminate]);
    (destruct (Analysis.scan_type analysis); [|discriminate]);
    (destruct (Analysis.index_used analysis); [|discriminate]);
    (destruct (Analysis.issues analysis); [|discriminate]);
    cbn [Py.getitem Py.ret];
    unfold Py.try_except, Py.bind, ollama_chat;
    (destruct (chat_reply o (List.length (chat_calls o))) as [out|e];
       [rewrite (parse_returns out analysis time _ Ht);
        intros H; inversion H; subst; clear H|]).
  - apply parsed_fields_shape.
  - intros H. apply (fallback_shape _ _ _ _ H).
  - split.
    + cbn. unfold parsed_fields.
      assert (K : forall lines d0,
                 Decision.expected_improvement d0 <> None ->
                 Decision.expected_improvement (fold_left parse_line lines d0)
                 <> None).
      { induction lines as [|ln lines IH]; intros d0 H0; cbn; [exact H0|].
        apply IH. unfold parse_line.
        destruct (String.prefix "REASONING:" (Py.strip ln)); [exact H0|].
        destruct (String.prefix "EXPECTED_IMPROVEMENT:" (Py.strip ln));
          [cbn; discriminate|exact H0]. }
      apply K.
      destruct (_ || _); [cbn; discriminate|].
      destruct (_ || _); [cbn; discriminate|].
      destruct (Py.contains "optimize_query" _); cbn; discriminate.
    + cbn. unfold confidence_of.
      destruct (Py.fgt time (Py.float_of_Z 200)); [right; right; reflexivity|].
      destruct (Py.fgt time (Py.float_of_Z 100)); [right; left|left]; reflexivity.
  - intros H. split; [apply (fallback_shape _ _ _ _ H)|].
    left. apply (fallback_confidence _ _ _ _ H).
Qed.

Lemma decisions_are_well_shaped_witness :
  exists d o',
    decide_optimization Scenario.analysis_150_indexed
      (Scenario.daemon Scenario.advises_hnsw) = (Py.Return d, o') /\
    well_shaped d.
Proof.
  assert (E : exists d o',
             decide_optimization Scenario.analysis_150_indexed
               (Scenario.daemon Scenario.advises_hnsw) = (Py.Return d, o'))
    by (eexists; eexists; vm_compute; reflexivity).
  destruct E as (d & o' & E). exists d, o'. split; [exact E|].
  apply (decisions_are_well_shaped _ _ _ _ E).
Defined.

(** X10. The reasoning of a parsed decision comes from the last line of
    the reply that, stripped, starts with [REASONING:]: it is that line
    with every [REASONING:] removed, stripped; a reply without such a line
    is its own reasoning, whole. *)
Theorem reasoning_is_last_reasoning_line (reply : string) (analysis : Analysis.t)
        (time : Py.float) (o : t) :
  Analysis.execution_time_ms analysis = Some time ->
  exists d,
    _parse_llm_response reply analysis o = (Py.Return d, o) /\
    (Forall (fun l => starts_reasoning l = false) (Py.split_lines reply) ->
     Decision.reasoning d = Some reply) /\
    (forall before line after,
        Py.split_lines reply = (before ++ line :: after)%list ->
        starts_reasoning line = true ->
        Forall (fun l => starts_reasoning l = false) after ->
        Decision.reasoning d = Some (Py.strip (Py.remove_all "REASONING:" line))).
Proof.
  intros Ht. eexists. split; [apply (parse_returns reply analysis time o Ht)|].
  cbn [Decision.reasoning Decision.set_confidence]. unfold parsed_fields. split.
  - intros H. rewrite (parse_lines_keep_reasoning _ H).
    destruct (_ || _); [reflexivity|].
    destruct (_ || _); [reflexivity|].
    destruct (Py.contains "optimize_query" _); reflexivity.
  - intros before line after E Hline Hafter. rewrite E.
    rewrite fold_left_app. cbn [fold_left].
    rewrite (parse_lines_keep_reasoning _ Hafter).
    apply parse_line_sets_reasoning, Hline.
Qed.

Lemma reasoning_is_last_reasoning_line_witness :
  exists d,
    _parse_llm_response Scenario.padded_reply
      Scenario.analysis_150_indexed (Scenario.daemon Scenario.unreachable)
    = (Py.Return d, Scenario.daemon Scenario.unreachable) /\
    Decision.reasoning d = Some "the index is used".
Proof.
  destruct (reasoning_is_last_reasoning_line Scenario.padded_reply
              Scenario.analysis_150_indexed (Py.float_of_Z 150)
              (Scenario.daemon Scenario.unreachable) eq_refl)
    as (d & Hd & _ & Hlast).
  exists d. split; [exact Hd|].
  apply (Hlast ["REASONING: first"; "ACTION: no_action"]
               Scenario.padded_line []).
  - vm_compute. reflexivity.
  - vm_compute. reflexivity.
  - constructor.
Defined.

End Engine.

(** ** The executor *)

Section Executor.

Import AutoTuningAgent.

Ltac answer_act :=
  do 2 eexists; split; [reflexivity|]; cbn;
  split; [split; intros X; first [reflexivity|discriminate X]|lia].

Ltac run_create :=
  unfold Py.bind, Py.getitem, Py.ret, on_self, on_db, update_result, upper_of,
    Py.zoom, Py.modify, Py.get, Py.raise;
  cbn -[DatabaseManager.create_index DatabaseManager.log_agent_action];
  match goal with
  | |- context [Decision.index_type ?d] =>
      destruct (Decision.index_type d) as [[ty|]|];
      cbn -[DatabaseManager.create_index DatabaseManager.log_agent_action];
      [|answer_act|answer_act]
  end;
  match goal with
  | |- context [DatabaseManager.create_index ?n ?ty ?d] =>
      destruct (DatabaseManager.create_index n ty d) as [[u|e] d1];
      cbn -[DatabaseManager.log_agent_action]; [|answer_act]
  end;
  match goal with
  | |- context [Decision.reasoning ?d] =>
      destruct (Decision.reasoning d) as [rs|];
      cbn -[DatabaseManager.log_agent_action]; [|answer_act]
  end;
  match goal with
  | |- context [DatabaseManager.log_agent_action ?m ?d] =>
      destruct (log_agent_action_returns m d) as [d2 Hlog]; rewrite Hlog
  end;
  answer_act.

Lemma act_answers (decision : Decision.t) (tenant_id action : string) (a : t) :
  Decision.action decision = Some action ->
  exists r a',
    act decision tenant_id a = (Py.Return r, a') /\
    (ActionResult.success r = true <-> ActionResult.error r = None) /\
    optimization_count a'
    = optimization_count a
      + (if ActionResult.success r && negb (String.eqb action "no_action")
         then 1 else 0).
Proof.
  intros Hact. unfold act. rewrite Hact.
  unfold Py.bind at 1. cbn [Py.getitem Py.ret]. unfold Py.ret at 1.
  destruct (String.eqb action "no_action") eqn:Eno.
  - do 2 eexists. split; [reflexivity|]. cbn. split; [tauto|lia].
  - unfold act_try, LLMOptimizer.generate_sql. rewrite Hact.
    destruct (String.eqb action "create_hnsw_index") eqn:Eh;
      [apply String.eqb_eq in Eh; subst action; run_create|].
    destruct (String.eqb action "create_ivfflat_index") eqn:Ei;
      [apply String.eqb_eq in Ei; subst action; run_create|].
    unfold Py.bind, Py.getitem, Py.ret, update_result, Py.modify.
    rewrite Eh, Ei. cbn. answer_act.
Qed.

End Executor.

(** X11. [act] never raises on a decision that has an action: it returns a
    result in which success is true exactly when there is no error text,
    and it increments the counter of optimizations exactly when it returns
    success on an action other than [no_action].  A decision without the
    key ['action'] raises [KeyError] before anything is done. *)
Theorem act_never_raises (decision : Decision.t) (tenant_id : string)
        (a : AutoTuningAgent.t) :
  (forall action,
      Decision.action decision = Some action ->
      exists r a',
        AutoTuningAgent.act decision tenant_id a = (Py.Return r, a') /\
        (ActionResult.success r = true <-> ActionResult.error r = None) /\
        AutoTuningAgent.optimization_count a'
        = AutoTuningAgent.optimization_count a
          + (if ActionResult.success r && negb (String.eqb action "no_action")
             then 1 else 0)) /\
  (Decision.action decision = None ->
   AutoTuningAgent.act decision tenant_id a = (Py.Raise (Py.KeyError "action"), a)).
Proof.
  split.
  - intros action H. apply act_answers, H.
  - intros H. unfold AutoTuningAgent.act. rewrite H. reflexivity.
Qed.

Lemma act_never_raises_witness :
  exists r a',
    AutoTuningAgent.act Scenario.hnsw_decision "default" Scenario.second_cycle
    = (Py.Return r, a') /\
    (ActionResult.success r = true <-> ActionResult.error r = None).
Proof.
  destruct (act_never_raises Scenario.hnsw_decision "default" Scenario.second_cycle)
    as [H _].
  destruct (H "create_hnsw_index" eq_refl) as (r & a' & H1 & H2 & _).
  exists r, a'. split; assumption.
Defined.

(** X12. An action that is neither [no_action] nor one of the two create
    actions (the [optimize_query] that the oracle may choose among them) is
    never executed: [act] returns success = false with the error
    [No SQL generated] and no statement, sends nothing to the server, logs
    nothing and leaves the agent as it was. *)
Theorem other_actions_are_not_executed (decision : Decision.t)
        (tenant_id action : string) (a : AutoTuningAgent.t) :
  Decision.action decision = Some action ->
  String.eqb action "no_action" = false ->
  String.eqb action "create_hnsw_index" = false ->
  String.eqb action "create_ivfflat_index" = false ->
  AutoTuningAgent.act decision tenant_id a
  = (Py.Return {| ActionResult.action := Some action;
                  ActionResult.success := false;
                  ActionResult.sql_executed := None;
                  ActionResult.error := Some "No SQL generated";
                  ActionResult.message := None |}, a).
Proof.
  intros Hact Hn Hh Hi.
  unfold AutoTuningAgent.act, AutoTuningAgent.act_try, LLMOptimizer.generate_sql.
  rewrite Hact.
  unfold Py.bind, Py.getitem, Py.ret, AutoTuningAgent.update_result, Py.modify.
  rewrite Hn, Hh, Hi. reflexivity.
Qed.

Lemma other_actions_are_not_executed_witness :
  AutoTuningAgent.act
    (Decision.set_action "optimize_query" Scenario.hnsw_decision)
    "default" Scenario.first_cycle
  = (Py.Return {| ActionResult.action := Some "optimize_query";
                  ActionResult.success := false;
                  ActionResult.sql_executed := None;
                  ActionResult.error := Some "No SQL generated";
                  ActionResult.message := None |}, Scenario.first_cycle).
Proof. apply other_actions_are_not_executed; reflexivity. Defined.

Lemma create_index_fault (index_name index_type msg : string)
      (d : DatabaseManager.t) :
  DatabaseManager.fault d (DatabaseManager.statements d) = Some msg ->
  DatabaseManager.create_index index_name index_type d
  = (Py.Raise (Py.DatabaseError msg), rolled_back 1 d).
Proof.
  intros Hfault.
  unfold DatabaseManager.create_index, DatabaseManager.execute_query,
    DatabaseManager.cursor_execute, DatabaseManager.rollback,
    Py.bind, Py.try_except, Py.modify, Py.raise.
  rewrite Hfault. reflexivity.
Qed.

(** X13. When the existence check of a create action fails on the server,
    [act] returns success = false with the text of the failure as error
    and the generated statement still in [sql_executed]; the transaction is
    rolled back, no action is logged and the counter is not incremented. *)
Theorem failed_check_is_reported (decision : Decision.t)
        (tenant_id ty msg : string) (a : AutoTuningAgent.t) :
  ty = "hnsw" \/ ty = "ivfflat" ->
  Decision.action decision = Some (create_action ty) ->
  Decision.index_type decision = Some (Some ty) ->
  DatabaseManager.fault (AutoTuningAgent.db a)
    (DatabaseManager.statements (AutoTuningAgent.db a)) = Some msg ->
  exists sql,
    LLMOptimizer.generate_sql decision tenant_id a = (Py.Return (Some sql), a) /\
    AutoTuningAgent.act decision tenant_id a
    = (Py.Return {| ActionResult.action := Some (create_action ty);
                    ActionResult.success := false;
                    ActionResult.sql_executed := Some sql;
                    ActionResult.error := Some msg;
                    ActionResult.message := None |},
       AutoTuningAgent.set_db (rolled_back 1 (AutoTuningAgent.db a)) a).
Proof.
  intros Hty Hact Hity Hfault.
  unfold AutoTuningAgent.act, AutoTuningAgent.act_try, LLMOptimizer.generate_sql.
  rewrite Hact, Hity.
  destruct Hty; subst ty;
    unfold Py.bind, Py.getitem, Py.ret, AutoTuningAgent.on_self,
      AutoTuningAgent.on_db, AutoTuningAgent.update_result,
      AutoTuningAgent.upper_of, Py.zoom, Py.modify, Py.get;
    cbn -[DatabaseManager.create_index];
    rewrite (create_index_fault _ _ msg) by exact Hfault;
    cbn; eexists; split; reflexivity.
Qed.

Lemma failed_check_is_reported_witness :
  exists r a',
    AutoTuningAgent.act Scenario.hnsw_decision "default" Scenario.server_down
    = (Py.Return r, a') /\
    ActionResult.success r = false /\
    ActionResult.error r = Some "server closed the connection" /\
    AutoTuningAgent.optimization_count a'
    = AutoTuningAgent.optimization_count Scenario.server_down.
Proof.
  destruct (failed_check_is_reported Scenario.hnsw_decision "default" "hnsw"
              "server closed the connection" Scenario.server_down
              (or_introl eq_refl) eq_refl eq_refl eq_refl) as (sql & _ & H).
  do 2 eexists. split; [exact H|]. repeat split.
Defined.

(** ** The observation *)

Section Observation.

Import AutoTuningAgent.

Lemma analyze_query_keys (query_text : string)
      (embedding : option (list Py.float)) (d : DatabaseManager.t) :
  exists analysis d' time used kind,
    DatabaseManager.analyze_query query_text embedding d = (Py.Return analysis, d') /\
    Analysis.execution_time_ms analysis = Some time /\
    Analysis.index_used analysis = Some used /\
    Analysis.scan_type analysis = Some kind /\
    Analysis.rows_scanned analysis = None.
Proof.
  unfold DatabaseManager.analyze_query, DatabaseManager.cursor_execute,
    DatabaseManager.rollback.
  unfold Py.bind, Py.try_except, Py.ret, Py.raise, Py.modify.
  destruct (DatabaseManager.no_embedding embedding).
  - do 5 eexists. repeat split; reflexivity.
  - destruct (DatabaseManager.fault d (DatabaseManager.statements d)).
    + do 5 eexists. repeat split; reflexivity.
    + cbn.
      destruct (DatabaseManager.explain d (DatabaseManager.statements d))
        as [[|eo rest]|]; do 5 eexists; repeat split; reflexivity.
Qed.

Lemma analyze_query_fault (query_text msg : string)
      (embedding : option (list Py.float)) (d : DatabaseManager.t) :
  DatabaseManager.no_embedding embedding = false ->
  DatabaseManager.fault d (DatabaseManager.statements d) = Some msg ->
  DatabaseManager.analyze_query query_text embedding d
  = (Py.Return (DatabaseManager.fallback_values (Some msg)), rolled_back 1 d).
Proof.
  intros H F.
  unfold DatabaseManager.analyze_query, DatabaseManager.cursor_execute,
    DatabaseManager.rollback.
  unfold Py.bind, Py.try_except, Py.ret, Py.raise, Py.modify.
  rewrite H, F. reflexivity.
Qed.

(** [observe] is [analyze_query], the two coarse issues, and the metric. *)
Lemma observe_spec (query_embedding : list Py.float) (tenant_id : string) (a : t) :
  exists analysis d0 d1 time used kind,
    DatabaseManager.analyze_query "Vector Similarity Search"
      (Some query_embedding) (db a) = (Py.Return analysis, d0) /\
    Analysis.execution_time_ms analysis = Some time /\
    Analysis.index_used analysis = Some used /\
    Analysis.scan_type analysis = Some kind /\
    Analysis.rows_scanned analysis = None /\
    DatabaseManager.log_query_metric
      {| query_type := "vector_similarity_search";
         metric_execution_time_ms := time;
         metric_index_used := used;
         metric_rows_scanned := 0;
         query_plan_scan_type := kind |} d0 = (Py.Return tt, d1) /\
    observe query_embedding tenant_id a
    = (Py.Return (Analysis.set_issues (coarse_issues time used) analysis),
       set_db d1 a).
Proof.
  destruct (analyze_query_keys "Vector Similarity Search"
              (Some query_embedding) (db a))
    as (an & d0 & time & used & kind & Han & Ht & Hu & Hk & Hr).
  destruct (log_query_metric_returns
              {| query_type := "vector_similarity_search";
                 metric_execution_time_ms := time;
                 metric_index_used := used;
                 metric_rows_scanned := 0;
                 query_plan_scan_type := kind |} d0) as [d1 Hlog].
  exists an, d0, d1, time, used, kind.
  repeat (split; [assumption|]).
  unfold observe, Py.bind, on_db, Py.zoom, Py.getitem, Py.ret, coarse_issues.
  rewrite Han.
  cbn -[DatabaseManager.log_query_metric Py.fgt Py.float_of_Z].
  rewrite Ht.
  destruct (Py.fgt time (Py.float_of_Z 20));
    cbn -[DatabaseManager.log_query_metric]; rewrite Hu;
    destruct used; cbn -[DatabaseManager.log_query_metric]; rewrite Hk;
    cbn -[DatabaseManager.log_query_metric]; rewrite Hlog; reflexivity.
Qed.

End Observation.

(** X14. [observe] never raises.  Its analysis has no rows scanned, and its
    issues are [high_latency] iff the execution time is above 20 ms,
    followed by [missing_index] iff no index was used, and nothing else.
    When the EXPLAIN statement fails, the analysis has 100.0 ms, no index,
    the text of the failure, and both issues, so that the reasoning step
    consults the oracle on fabricated figures. *)
Theorem observe_flags_latency_and_index (query_embedding : list Py.float)
        (tenant_id : string) (a : AutoTuningAgent.t) :
  exists analysis a' time used,
    AutoTuningAgent.observe query_embedding tenant_id a = (Py.Return analysis, a') /\
    Analysis.execution_time_ms analysis = Some time /\
    Analysis.index_used analysis = Some used /\
    Analysis.rows_scanned analysis = None /\
    Analysis.issues analysis
    = Some ((if Py.fgt time (Py.float_of_Z 20) then ["high_latency"] else [])
            ++ (if used then [] else ["missing_index"]))%list /\
    (forall msg,
        query_embedding <> [] ->
        DatabaseManager.fault (AutoTuningAgent.db a)
          (DatabaseManager.statements (AutoTuningAgent.db a)) = Some msg ->
        time = Py.float_of_Z 100 /\ used = false /\
        Analysis.error analysis = Some msg /\
        Analysis.issues analysis = Some ["high_latency"; "missing_index"]).
Proof.
  destruct (observe_spec query_embedding tenant_id a)
    as (an & d0 & d1 & time & used & kind & Han & Ht & Hu & Hk & Hr & Hlog & Hobs).
  exists (Analysis.set_issues (coarse_issues time used) an),
         (AutoTuningAgent.set_db d1 a), time, used.
  split; [exact Hobs|].
  split; [exact Ht|]. split; [exact Hu|]. split; [exact Hr|].
  split; [reflexivity|].
  intros msg Hne Hfault.
  rewrite (analyze_query_fault "Vector Similarity Search" msg
             (Some query_embedding) (AutoTuningAgent.db a)) in Han;
    [|destruct query_embedding; [congruence|reflexivity]|exact Hfault].
  inversion Han; subst an d0. cbn in Ht, Hu.
  inversion Ht; subst time. inversion Hu; subst used.
  repeat split.
Qed.

Lemma observe_flags_latency_and_index_witness :
  exists analysis a',
    AutoTuningAgent.observe [Py.float_of_Z 1; Py.float_of_Z 0] "default"
      Scenario.server_down = (Py.Return analysis, a') /\
    Analysis.issues analysis = Some ["high_latency"; "missing_index"].
Proof.
  destruct (observe_flags_latency_and_index [Py.float_of_Z 1; Py.float_of_Z 0]
              "default" Scenario.server_down)
    as (an & a' & time & used & H1 & _ & _ & _ & _ & Hf).
  exists an, a'. split; [exact H1|].
  apply (Hf "server closed the connection"); [discriminate|reflexivity].
Defined.

(** ** What the steps leave in the agent *)

Section StepEffects.

Import AutoTuningAgent.

Lemma observe_count (emb : list Py.float) (tenant_id : string) (s : t) :
  optimization_count (snd (observe emb tenant_id s)) = optimization_count s.
Proof.
  apply (observe_preserves (keeps_count (optimization_count s))
           (keeps_count_db _) emb tenant_id s eq_refl).
Qed.

Lemma observe_total (emb : list Py.float) (tenant_id : string) (s : t) :
  total_improvement (snd (observe emb tenant_id s)) = total_improvement s.
Proof.
  apply (observe_preserves (keeps_total (total_improvement s))
           (keeps_total_db _) emb tenant_id s eq_refl).
Qed.

Lemma observe_optimizer (emb : list Py.float) (tenant_id : string) (s : t) :
  optimizer (snd (observe emb tenant_id s)) = optimizer s.
Proof.
  apply (observe_preserves (fun x => optimizer x = optimizer s)); [|reflexivity].
  intros A c _ x H. unfold on_db, Py.zoom. destruct (c (db x)). exact H.
Qed.

Lemma reason_count (analysis : Analysis.t) (s : t) :
  optimization_count (snd (reason analysis s)) = optimization_count s.
Proof.
  apply (reason_preserves (keeps_count (optimization_count s))
           (keeps_count_optimizer _) analysis s eq_refl).
Qed.

Lemma reason_total (analysis : Analysis.t) (s : t) :
  total_improvement (snd (reason analysis s)) = total_improvement s.
Proof.
  apply (reason_preserves (keeps_total (total_improvement s))
           (keeps_total_optimizer _) analysis s eq_refl).
Qed.

Lemma act_total (decision : Decision.t) (tenant_id : string) (s : t) :
  total_improvement (snd (act decision tenant_id s)) = total_improvement s.
Proof.
  apply (act_preserves (keeps_total (total_improvement s))
           (keeps_total_db _) (fun a n H => H) decision tenant_id s eq_refl).
Qed.

Lemma act_optimizer (decision : Decision.t) (tenant_id : string) (s : t) :
  optimizer (snd (act decision tenant_id s)) = optimizer s.
Proof.
  apply (act_preserves (fun x => optimizer x = optimizer s)); [|auto|reflexivity].
  intros A c _ x H. unfold on_db, Py.zoom. destruct (c (db x)). exact H.
Qed.

Lemma act_count (decision : Decision.t) (tenant_id : string) (s : t) :
  optimization_count s <= optimization_count (snd (act decision tenant_id s))
  <= optimization_count s + 1.
Proof.
  destruct (Decision.action decision) as [action|] eqn:E.
  - destruct (act_answers decision tenant_id action s E) as (r & a' & H & _ & C).
    rewrite H. cbn [snd]. rewrite C.
    destruct (ActionResult.success r && negb (String.eqb action "no_action")); lia.
  - unfold act. rewrite E. cbn. lia.
Qed.

Lemma decide_calls (analysis : Analysis.t) (o : LLMOptimizer.t) :
  at_most_one_call o (snd (LLMOptimizer.decide_optimization analysis o)).
Proof.
  unfold at_most_one_call, LLMOptimizer.decide_optimization,
    LLMOptimizer._build_optimization_prompt.
  unfold Py.bind, Py.try_except, LLMOptimizer.ollama_chat, Py.getitem.
  destruct (Analysis.execution_time_ms analysis) as [time|] eqn:Ht;
    [|cbn; auto].
  destruct (Analysis.scan_type analysis); [|cbn; auto].
  destruct (Analysis.index_used analysis); [|cbn; auto].
  destruct (Analysis.issues analysis); [|cbn; auto].
  cbn [Py.ret].
  destruct (LLMOptimizer.chat_reply o (List.length (LLMOptimizer.chat_calls o)))
    as [out|e].
  - rewrite (parse_returns out analysis time _ Ht). cbn.
    split; [reflexivity|]. split; [reflexivity|]. right. eexists. reflexivity.
  - match goal with
    | |- context [LLMOptimizer._fallback_decision ?an ?s] =>
        pose proof (fallback_keeps_state an s) as Hs;
        destruct (LLMOptimizer._fallback_decision an s) as [r s']
    end.
    cbn in Hs. subst s'. cbn.
    split; [reflexivity|]. split; [reflexivity|]. right. eexists. reflexivity.
Qed.

Lemma reason_calls (analysis : Analysis.t) (s : t) :
  at_most_one_call (optimizer s) (optimizer (snd (reason analysis s))).
Proof.
  unfold reason, Py.bind, Py.getitem.
  destruct (Analysis.issues analysis) as [issues|];
    [|cbn; unfold at_most_one_call; auto].
  cbn [Py.ret]. destruct (no_issues issues);
    [cbn; unfold at_most_one_call; auto|].
  unfold on_optimizer, Py.zoom.
  pose proof (decide_calls analysis (optimizer s)) as H.
  destruct (LLMOptimizer.decide_optimization analysis (optimizer s)) as [r o'].
  exact H.
Qed.

End StepEffects.

(** ** The cycle, however it ends *)

Section CycleEnds.

Import AutoTuningAgent.

(** The state in which a cycle ends is the state after one of its steps. *)
Lemma cycle_final_state (query_text tenant_id : string) (a : t) :
  let final := snd (run_optimization_cycle query_text tenant_id a) in
  final = a \/
  (exists emb, final = snd (observe emb tenant_id a)) \/
  (exists emb before,
      final = snd (reason before (snd (observe emb tenant_id a)))) \/
  (exists emb before d,
      final = snd (act d tenant_id
                     (snd (reason before (snd (observe emb tenant_id a)))))) \/
  (exists emb before d,
      final = snd (observe emb tenant_id
                     (snd (act d tenant_id
                             (snd (reason before
                                     (snd (observe emb tenant_id a)))))))) \/
  (exists emb before d v,
      final = set_total_improvement v
                (snd (observe emb tenant_id
                        (snd (act d tenant_id
                                (snd (reason before
                                        (snd (observe emb tenant_id a))))))))).
Proof.
  cbv zeta. unfold run_optimization_cycle, Py.bind, Py.get, Py.lift.
  destruct (encode_query a query_text) as [emb|e]; [|left; reflexivity].
  destruct (observe emb tenant_id a) as [[before|e] a1] eqn:Hobs;
    [|right; left; exists emb; rewrite Hobs; reflexivity].
  destruct (reason before a1) as [[d|e] a2] eqn:Hrea;
    [|right; right; left; exists emb, before; rewrite Hobs; cbn [snd];
      rewrite Hrea; reflexivity].
  destruct (act d tenant_id a2) as [[r|e] a3] eqn:Hact;
    [|right; right; right; left; exists emb, before, d; rewrite Hobs; cbn [snd];
      rewrite Hrea; cbn [snd]; rewrite Hact; reflexivity].
  assert (S3 : a3 = snd (act d tenant_id
                           (snd (reason before (snd (observe emb tenant_id a))))))
    by (rewrite Hobs; cbn [snd]; rewrite Hrea; cbn [snd]; rewrite Hact; reflexivity).
  destruct (ActionResult.success r); cbn [Py.ret Py.getitem andb snd].
  - destruct (Decision.action d) as [action|];
      cbn [Py.ret Py.raise Py.getitem snd];
      [|right; right; right; left; exists emb, before, d; exact S3].
    destruct (Py.contains "create_" action); cbn [Py.ret snd];
      [|right; right; right; left; exists emb, before, d; exact S3].
    destruct (observe emb tenant_id a3) as [[after|e] a4] eqn:Hobs2;
      assert (S4 : a4 = snd (observe emb tenant_id a3))
        by (rewrite Hobs2; reflexivity);
      rewrite S3 in S4; cbn [snd];
      [|right; right; right; right; left; exists emb, before, d; exact S4].
    destruct (Analysis.execution_time_ms before) as [tb|];
      cbn [Py.ret Py.raise Py.getitem snd];
      [|right; right; right; right; left; exists emb, before, d; exact S4].
    destruct (Analysis.execution_time_ms after) as [ta|];
      cbn [Py.ret Py.raise Py.getitem snd];
      [|right; right; right; right; left; exists emb, before, d; exact S4].
    unfold Py.truediv. destruct (Py.is_zero tb); cbn [snd];
      [right; right; right; right; left; exists emb, before, d; exact S4|].
    right; right; right; right; right. exists emb, before, d. eexists.
    cbn [snd Py.modify Py.ret]. rewrite S4. reflexivity.
  - right; right; right; left; exists emb, before, d; exact S3.
Qed.

End CycleEnds.

(** X15. However a cycle ends, with a result or with an exception, the
    counter of optimizations after it is the counter before it or one
    more: a cycle never counts twice and never counts down. *)
Theorem cycle_counts_at_most_one (query_text tenant_id : string)
        (a : AutoTuningAgent.t) :
  AutoTuningAgent.optimization_count a
  <= AutoTuningAgent.optimization_count
       (snd (AutoTuningAgent.run_optimization_cycle query_text tenant_id a))
  <= AutoTuningAgent.optimization_count a + 1.
Proof.
  destruct (cycle_final_state query_text tenant_id a)
    as [H|[[emb H]|[(emb & before & H)|[(emb & before & d & H)|
        [(emb & before & d & H)|(emb & before & d & v & H)]]]]];
    rewrite H; clear H;
    cbn [AutoTuningAgent.optimization_count AutoTuningAgent.set_total_improvement];
    rewrite ?observe_count;
    try (pose proof (act_count d tenant_id
                       (snd (AutoTuningAgent.reason before
                               (snd (AutoTuningAgent.observe emb tenant_id a)))))
          as Hc; rewrite reason_count, observe_count in Hc);
    rewrite ?reason_count, ?observe_count; lia.
Qed.

(** X16. However a cycle ends, the oracle has been consulted at most once
    in it: the calls recorded after the cycle are those before it, or
    those followed by one prompt. *)
Theorem cycle_consults_oracle_at_most_once (query_text tenant_id : string)
        (a : AutoTuningAgent.t) :
  let o := AutoTuningAgent.optimizer a in
  let o' := AutoTuningAgent.optimizer
              (snd (AutoTuningAgent.run_optimization_cycle query_text tenant_id a)) in
  LLMOptimizer.chat_calls o' = LLMOptimizer.chat_calls o \/
  exists p, LLMOptimizer.chat_calls o' = (LLMOptimizer.chat_calls o ++ [p])%list.
Proof.
  cbv zeta.
  assert (R : forall emb before,
             at_most_one_call (AutoTuningAgent.optimizer a)
               (AutoTuningAgent.optimizer
                  (snd (AutoTuningAgent.reason before
                          (snd (AutoTuningAgent.observe emb tenant_id a)))))).
  { intros emb before.
    pose proof (reason_calls before (snd (AutoTuningAgent.observe emb tenant_id a)))
      as H. rewrite observe_optimizer in H. exact H. }
  destruct (cycle_final_state query_text tenant_id a)
    as [H|[[emb H]|[(emb & before & H)|[(emb & before & d & H)|
        [(emb & before & d & H)|(emb & before & d & v & H)]]]]];
    rewrite H; clear H;
    cbn [AutoTuningAgent.optimizer AutoTuningAgent.set_total_improvement];
    rewrite ?observe_optimizer, ?act_optimizer, ?observe_optimizer;
    try (left; reflexivity);
    apply (R emb before).
Qed.

(** ** The result of a cycle *)

Section CycleResults.

Import AutoTuningAgent.

Lemma run_state {S A} (c : Py.M S A) (s s' : S) (o : Py.outcome A) :
  c s = (o, s') -> s' = snd (c s).
Proof. intros H. rewrite H. reflexivity. Qed.

(** X17. In every result that a cycle returns, the second analysis and the
    improvement are both present or both absent; they are present only
    when the action returned success on an action whose name contains
    [create_]; the running total after the cycle is the one before it
    when they are absent, and the one before it plus the improvement when
    they are present; and the counter is incremented exactly when the
    action returned success on an action other than [no_action]. *)
Theorem verification_only_after_success (query_text tenant_id : string)
        (a a' : t) (r : CycleResult.t) :
  run_optimization_cycle query_text tenant_id a = (Py.Return r, a') ->
  (CycleResult.analysis_after r = None <->
   CycleResult.improvement_percentage r = None) /\
  (CycleResult.analysis_after r <> None ->
   ActionResult.success (CycleResult.action_result r) = true /\
   exists action,
     Decision.action (CycleResult.decision r) = Some action /\
     Py.contains "create_" action = true) /\
  total_improvement a'
  = match CycleResult.improvement_percentage r with
    | Some improvement => Py.fadd (total_improvement a) improvement
    | None => total_improvement a
    end /\
  exists action,
    Decision.action (CycleResult.decision r) = Some action /\
    optimization_count a'
    = optimization_count a
      + (if ActionResult.success (CycleResult.action_result r)
            && negb (String.eqb action "no_action")
         then 1 else 0).
Proof.
  unfold run_optimization_cycle, Py.bind, Py.get, Py.lift.
  destruct (encode_query a query_text) as [emb|e]; [|discriminate].
  destruct (observe emb tenant_id a) as [[before|e] a1] eqn:Hobs; [|discriminate].
  destruct (reason before a1) as [[d|e] a2] eqn:Hrea; [|discriminate].
  destruct (act d tenant_id a2) as [[res|e] a3] eqn:Hact; [|discriminate].
  pose proof (run_state _ _ _ _ Hobs) as S1.
  pose proof (run_state _ _ _ _ Hrea) as S2.
  pose proof (run_state _ _ _ _ Hact) as S3.
  assert (T3 : total_improvement a3 = total_improvement a).
  { rewrite S3, act_total, S2, reason_total, S1, observe_total. reflexivity. }
  assert (N2 : optimization_count a2 = optimization_count a).
  { rewrite S2, reason_count, S1, observe_count. reflexivity. }
  assert (C3 : exists action,
             Decision.action d = Some action /\
             optimization_count a3
             = optimization_count a
               + (if ActionResult.success res && negb (String.eqb action "no_action")
                  then 1 else 0)).
  { destruct (Decision.action d) as [action|] eqn:E.
    - destruct (act_answers d tenant_id action a2 E) as (r0 & a0 & H & _ & C).
      rewrite H in Hact. inversion Hact; subst r0 a0.
      exists action. split; [reflexivity|]. rewrite C, N2. reflexivity.
    - unfold act in Hact. rewrite E in Hact. discriminate. }
  destruct C3 as (action & Hd & C3). rewrite Hd.
  destruct (ActionResult.success res) eqn:Hsucc;
    cbn [Py.ret Py.getitem andb].
  - destruct (Py.contains "create_" action) eqn:Hc; cbn [Py.ret].
    + destruct (observe emb tenant_id a3) as [[after|e] a4] eqn:Hobs2;
        [|discriminate].
      pose proof (run_state _ _ _ _ Hobs2) as S4.
      destruct (Analysis.execution_time_ms before) as [tb|];
        cbn [Py.ret Py.raise Py.getitem]; [|discriminate].
      destruct (Analysis.execution_time_ms after) as [ta|];
        cbn [Py.ret Py.raise Py.getitem]; [|discriminate].
      unfold Py.truediv. destruct (Py.is_zero tb); [discriminate|].
      cbn [Py.modify Py.ret]. intros H. inversion H; subst r a'. cbn.
      split; [split; discriminate|].
      split; [intros _; split; [exact Hsucc|exists action; split; assumption]|].
      split.
      * rewrite S4, observe_total, T3. reflexivity.
      * exists action. split; [exact Hd|].
        rewrite S4, observe_count, C3, Hsucc. reflexivity.
    + intros H. inversion H; subst r a'. cbn.
      split; [split; reflexivity|].
      split; [intros X; congruence|].
      split; [exact T3|].
      exists action. split; [exact Hd|]. rewrite C3, Hsucc. reflexivity.
  - intros H. inversion H; subst r a'. cbn.
    split; [split; reflexivity|].
    split; [intros X; congruence|].
    split; [exact T3|].
    exists action. split; [exact Hd|]. rewrite C3, Hsucc. reflexivity.
Qed.

End CycleResults.

Lemma verification_only_after_success_witness :
  exists r a',
    AutoTuningAgent.run_optimization_cycle "nearest documents" "default"
      Scenario.quiet = (Py.Return r, a') /\
    CycleResult.analysis_after r = None /\
    AutoTuningAgent.total_improvement a'
    = AutoTuningAgent.total_improvement Scenario.quiet.
Proof.
  assert (E : exists r a',
             AutoTuningAgent.run_optimization_cycle "nearest documents" "default"
               Scenario.quiet = (Py.Return r, a'))
    by (eexists; eexists; vm_compute; reflexivity).
  destruct E as (r & a' & E).
  destruct (verification_only_after_success _ _ _ _ _ E) as (Hiff & _ & Ht & _).
  assert (N : CycleResult.improvement_percentage r = None).
  { revert E. vm_compute. intros E. inversion E. reflexivity. }
  exists r, a'. split; [exact E|]. split; [apply Hiff, N|].
  rewrite Ht, N. reflexivity.
Defined.

(** ** The two ways through the reasoning step *)

Section CyclePaths.

Import AutoTuningAgent.

(** What a returned observation says of the state and of its own issues. *)
Lemma observe_issues (emb : list Py.float) (tenant_id : string) (a a1 : t)
      (before : Analysis.t) (time : Py.float) (used : bool) :
  observe emb tenant_id a = (Py.Return before, a1) ->
  Analysis.execution_time_ms before = Some time ->
  Analysis.index_used before = Some used ->
  Analysis.issues before = Some (coarse_issues time used) /\
  Analysis.rows_scanned before = None /\
  optimizer a1 = optimizer a /\
  optimization_count a1 = optimization_count a /\
  total_improvement a1 = total_improvement a.
Proof.
  intros Hobs Ht Hu.
  destruct (observe_spec emb tenant_id a)
    as (an & d0 & d1 & time' & used' & kind & _ & Ht' & Hu' & _ & Hr & _ & Hobs').
  rewrite Hobs' in Hobs. inversion Hobs; subst before a1. clear Hobs.
  cbn in Ht, Hu |- *.
  rewrite Ht' in Ht. rewrite Hu' in Hu. inversion Ht; inversion Hu; subst.
  repeat split. exact Hr.
Qed.

(** The state of the daemon after [decide_optimization]. *)
Lemma decide_final_state (analysis : Analysis.t) (o : LLMOptimizer.t)
      (time : Py.float) (kind : string) (used : bool) (issues : list string) :
  Analysis.execution_time_ms analysis = Some time ->
  Analysis.scan_type analysis = Some kind ->
  Analysis.index_used analysis = Some used ->
  Analysis.issues analysis = Some issues ->
  snd (LLMOptimizer.decide_optimization analysis o)
  = {| LLMOptimizer.model_name := LLMOptimizer.model_name o;
       LLMOptimizer.chat_calls :=
         (LLMOptimizer.chat_calls o
            ++ [prompt_of analysis time kind used issues])%list;
       LLMOptimizer.chat_reply := LLMOptimizer.chat_reply o |}.
Proof.
  intros Ht Hk Hu Hi.
  unfold LLMOptimizer.decide_optimization, LLMOptimizer._build_optimization_prompt.
  unfold Py.bind, Py.try_except, LLMOptimizer.ollama_chat.
  rewrite Ht, Hk, Hu, Hi. cbn [Py.getitem Py.ret].
  destruct (LLMOptimizer.chat_reply o (List.length (LLMOptimizer.chat_calls o)))
    as [out|e].
  - rewrite (parse_returns out analysis time _ Ht). reflexivity.
  - match goal with
    | |- context [LLMOptimizer._fallback_decision ?an ?s] =>
        pose proof (fallback_keeps_state an s) as Hs;
        destruct (LLMOptimizer._fallback_decision an s) as [r s']
    end.
    cbn in Hs. subst s'. reflexivity.
Qed.

(** After the reasoning step, a cycle leaves the daemon alone. *)
Lemma cycle_optimizer (query_text tenant_id : string) (a a1 : t)
      (emb : list Py.float) (before : Analysis.t) :
  encode_query a query_text = Py.Return emb ->
  observe emb tenant_id a = (Py.Return before, a1) ->
  optimizer (snd (run_optimization_cycle query_text tenant_id a))
  = optimizer (snd (reason before a1)).
Proof.
  intros Hemb Hobs.
  unfold run_optimization_cycle, Py.bind, Py.get, Py.lift.
  rewrite Hemb, Hobs.
  destruct (reason before a1) as [[d|e] a2] eqn:Hrea; [|reflexivity].
  destruct (act d tenant_id a2) as [[res|e] a3] eqn:Hact;
    pose proof (act_optimizer d tenant_id a2) as O3; rewrite Hact in O3;
    cbn [snd] in O3 |- *; [|exact O3].
  destruct (ActionResult.success res); cbn [Py.ret Py.getitem andb snd];
    [|exact O3].
  destruct (Decision.action d) as [action|];
    cbn [Py.ret Py.raise Py.getitem snd]; [|exact O3].
  destruct (Py.contains "create_" action); cbn [Py.ret snd]; [|exact O3].
  destruct (observe emb tenant_id a3) as [[after|e] a4] eqn:Hobs2;
    pose proof (observe_optimizer emb tenant_id a3) as O4; rewrite Hobs2 in O4;
    cbn [snd] in O4 |- *; rewrite O3 in O4; [|exact O4].
  destruct (Analysis.execution_time_ms before) as [tb|];
    cbn [Py.ret Py.raise Py.getitem snd]; [|exact O4].
  destruct (Analysis.execution_time_ms after) as [ta|];
    cbn [Py.ret Py.raise Py.getitem snd]; [|exact O4].
  unfold Py.truediv. destruct (Py.is_zero tb); cbn [snd]; [exact O4|].
  cbn [Py.modify Py.ret snd]. exact O4.
Qed.

End CyclePaths.

(** X18. A query that the server answers in at most 20 ms through an index
    is left alone: the cycle returns the decision [no_action] with the
    reasoning [Performance is acceptable], an action result of success
    without statement, and no second analysis; the agent is left in the
    state in which the observation left it, so that the oracle was not
    consulted, nothing but the EXPLAIN and the metric was sent to the
    server, and the statistics are those before the cycle. *)
Theorem fast_indexed_query_is_left_alone (query_text tenant_id : string)
        (a a1 : AutoTuningAgent.t) (emb : list Py.float)
        (before : Analysis.t) (time : Py.float) :
  AutoTuningAgent.encode_query a query_text = Py.Return emb ->
  AutoTuningAgent.observe emb tenant_id a = (Py.Return before, a1) ->
  Analysis.execution_time_ms before = Some time ->
  Py.fgt time (Py.float_of_Z 20) = false ->
  Analysis.index_used before = Some true ->
  AutoTuningAgent.run_optimization_cycle query_text tenant_id a
  = (Py.Return
       {| CycleResult.analysis_before := before;
          CycleResult.decision :=
            {| Decision.action := Some "no_action";
               Decision.reasoning := Some "Performance is acceptable";
               Decision.index_type := None;
               Decision.expected_improvement := None;
               Decision.confidence := None |};
          CycleResult.action_result :=
            {| ActionResult.action := None; ActionResult.success := true;
               ActionResult.sql_executed := None; ActionResult.error := None;
               ActionResult.message := Some "No action taken" |};
          CycleResult.analysis_after := None;
          CycleResult.improvement_percentage := None |}, a1) /\
  AutoTuningAgent.optimizer a1 = AutoTuningAgent.optimizer a /\
  AutoTuningAgent.optimization_count a1 = AutoTuningAgent.optimization_count a /\
  AutoTuningAgent.total_improvement a1 = AutoTuningAgent.total_improvement a.
Proof.
  intros Hemb Hobs Ht Hfast Hu.
  destruct (observe_issues _ _ _ _ _ _ _ Hobs Ht Hu) as (Hi & _ & Ho & Hc & Htot).
  unfold coarse_issues in Hi. rewrite Hfast in Hi. cbn in Hi.
  split; [|split; [exact Ho|split; [exact Hc|exact Htot]]].
  unfold AutoTuningAgent.run_optimization_cycle, Py.bind, Py.get, Py.lift.
  rewrite Hemb, Hobs. unfold AutoTuningAgent.reason, Py.bind.
  rewrite Hi. reflexivity.
Qed.

Lemma fast_indexed_query_is_left_alone_witness :
  exists r a1,
    AutoTuningAgent.run_optimization_cycle "nearest documents" "default"
      Scenario.quiet = (Py.Return r, a1) /\
    Decision.action (CycleResult.decision r) = Some "no_action" /\
    AutoTuningAgent.optimizer a1 = AutoTuningAgent.optimizer Scenario.quiet.
Proof.
  assert (E : exists emb before a1 time,
             AutoTuningAgent.encode_query Scenario.quiet "nearest documents"
             = Py.Return emb /\
             AutoTuningAgent.observe emb "default" Scenario.quiet
             = (Py.Return before, a1) /\
             Analysis.execution_time_ms before = Some time /\
             Py.fgt time (Py.float_of_Z 20) = false /\
             Analysis.index_used before = Some true)
    by (do 4 eexists; repeat split; vm_compute; reflexivity).
  destruct E as (emb & before & a1 & time & H1 & H2 & H3 & H4 & H5).
  destruct (fast_indexed_query_is_left_alone "nearest documents" "default"
              Scenario.quiet a1 emb before time H1 H2 H3 H4 H5) as (H & Ho & _).
  eexists. exists a1. split; [exact H|]. split; [reflexivity|exact Ho].
Defined.

(** X19. A query that takes more than 20 ms, or that uses no index, reaches
    the oracle: however the cycle ends, the oracle has received exactly
    one prompt in it, built from the first observation, with both issues
    derived from the time and the index flag and with no count of rows
    scanned (the prompt says N/A), since the observation holds none. *)
Theorem slow_or_unindexed_query_reaches_oracle (query_text tenant_id : string)
        (a a1 : AutoTuningAgent.t) (emb : list Py.float)
        (before : Analysis.t) (time : Py.float) (used : bool) (kind : string) :
  AutoTuningAgent.encode_query a query_text = Py.Return emb ->
  AutoTuningAgent.observe emb tenant_id a = (Py.Return before, a1) ->
  Analysis.execution_time_ms before = Some time ->
  Analysis.index_used before = Some used ->
  Analysis.scan_type before = Some kind ->
  Py.fgt time (Py.float_of_Z 20) = true \/ used = false ->
  LLMOptimizer.chat_calls
    (AutoTuningAgent.optimizer
       (snd (AutoTuningAgent.run_optimization_cycle query_text tenant_id a)))
  = (LLMOptimizer.chat_calls (AutoTuningAgent.optimizer a)
       ++ [{| prompt_execution_time_ms := time;
              prompt_scan_type := kind;
              prompt_index_used := used;
              prompt_rows_scanned := None;
              prompt_rows_returned := Analysis.rows_returned before;
              prompt_issues :=
                ((if Py.fgt time (Py.float_of_Z 20) then ["high_latency"] else [])
                   ++ (if used then [] else ["missing_index"]))%list |}])%list.
Proof.
  intros Hemb Hobs Ht Hu Hk Hslow.
  destruct (observe_issues _ _ _ _ _ _ _ Hobs Ht Hu) as (Hi & Hr & Ho & _ & _).
  rewrite (cycle_optimizer _ _ _ _ _ _ Hemb Hobs).
  unfold AutoTuningAgent.reason, Py.bind. rewrite Hi. cbn [Py.getitem Py.ret].
  assert (N : AutoTuningAgent.no_issues (coarse_issues time used) = false).
  { unfold coarse_issues.
    destruct Hslow as [H|H]; rewrite H; [reflexivity|].
    destruct (Py.fgt time (Py.float_of_Z 20)); reflexivity. }
  rewrite N. unfold AutoTuningAgent.on_optimizer, Py.zoom.
  pose proof (decide_final_state before (AutoTuningAgent.optimizer a1)
                time kind used _ Ht Hk Hu Hi) as E.
  destruct (LLMOptimizer.decide_optimization before (AutoTuningAgent.optimizer a1))
    as [r o']. cbn [snd] in E |- *. subst o'.
  cbn. rewrite Ho. unfold prompt_of, coarse_issues. rewrite Hr. reflexivity.
Qed.

Lemma slow_or_unindexed_query_reaches_oracle_witness :
  List.length
    (LLMOptimizer.chat_calls
       (AutoTuningAgent.optimizer
          (snd (AutoTuningAgent.run_optimization_cycle "nearest documents"
                  "default" Scenario.slow_without_oracle))))
  = 1%nat.
Proof.
  assert (E : exists emb before a1 time used kind,
             AutoTuningAgent.encode_query Scenario.slow_without_oracle
               "nearest documents" = Py.Return emb /\
             AutoTuningAgent.observe emb "default" Scenario.slow_without_oracle
             = (Py.Return before, a1) /\
             Analysis.execution_time_ms before = Some time /\
             Analysis.index_used before = Some used /\
             Analysis.scan_type before = Some kind /\
             used = false)
    by (do 6 eexists; repeat split; vm_compute; reflexivity).
  destruct E as (emb & before & a1 & time & used & kind
                 & H1 & H2 & H3 & H4 & H5 & H6).
  rewrite (slow_or_unindexed_query_reaches_oracle "nearest documents" "default"
             Scenario.slow_without_oracle a1 emb before time used kind
             H1 H2 H3 H4 H5 (or_intror H6)).
  reflexivity.
Defined.

(** X20. When the server fails the EXPLAIN statement and the oracle cannot
    be reached, the cycle still returns, and what it returns reads as a
    quiet run: the analysis holds the text of the failure beside the
    fabricated 100.0 ms, which is not above the 100 ms of the fallback
    rule, so the decision is the [no_action] of the rule, with confidence
    low, and the action result is a success; nothing is counted and
    nothing is verified. *)
Theorem degraded_cycle_reports_no_action (query_text tenant_id msg : string)
        (a : AutoTuningAgent.t) (emb : list Py.float) (e : Py.exn) :
  AutoTuningAgent.encode_query a query_text = Py.Return emb ->
  emb <> [] ->
  DatabaseManager.fault (AutoTuningAgent.db a)
    (DatabaseManager.statements (AutoTuningAgent.db a)) = Some msg ->
  LLMOptimizer.chat_reply (AutoTuningAgent.optimizer a)
    (List.length (LLMOptimizer.chat_calls (AutoTuningAgent.optimizer a)))
  = Py.Raise e ->
  exists r a',
    AutoTuningAgent.run_optimization_cycle query_text tenant_id a
    = (Py.Return r, a') /\
    Analysis.error (CycleResult.analysis_before r) = Some msg /\
    Analysis.execution_time_ms (CycleResult.analysis_before r)
    = Some (Py.float_of_Z 100) /\
    CycleResult.decision r
    = {| Decision.action := Some "no_action";
         Decision.reasoning := Some "Fallback rule-based decision";
         Decision.index_type := Some None;
         Decision.expected_improvement := Some "Unknown";
         Decision.confidence := Some "low" |} /\
    ActionResult.success (CycleResult.action_result r) = true /\
    ActionResult.sql_executed (CycleResult.action_result r) = None /\
    CycleResult.analysis_after r = None /\
    AutoTuningAgent.optimization_count a' = AutoTuningAgent.optimization_count a /\
    AutoTuningAgent.total_improvement a' = AutoTuningAgent.total_improvement a.
Proof.
  intros Hemb Hne Hfault Hdown.
  destruct (observe_spec emb tenant_id a)
    as (an & d0 & d1 & time & used & kind
        & Han & Ht & Hu & Hk & Hr & Hlog & Hobs).
  rewrite (analyze_query_fault "Vector Similarity Search" msg (Some emb)
             (AutoTuningAgent.db a)) in Han;
    [|destruct emb; [congruence|reflexivity]|exact Hfault].
  injection Han as <- <-.
  cbn -[Py.float_of_Z] in Ht, Hu, Hk.
  injection Ht as <-. injection Hu as <-. injection Hk as <-. clear Hr.
  change (binary_round Py.prec Py.emax false 100 0) with (Py.float_of_Z 100) in *.
  assert (C : coarse_issues (Py.float_of_Z 100) false
              = ["high_latency"; "missing_index"]) by (vm_compute; reflexivity).
  assert (F : Py.fgt (Py.float_of_Z 100) (Py.float_of_Z 100) = false)
    by (vm_compute; reflexivity).
  rewrite C in Hobs.
  assert (D : exists o',
             LLMOptimizer.decide_optimization
               (Analysis.set_issues ["high_latency"; "missing_index"]
                  (DatabaseManager.fallback_values (Some msg)))
               (AutoTuningAgent.optimizer a)
             = (Py.Return
                  {| Decision.action := Some "no_action";
                     Decision.reasoning := Some "Fallback rule-based decision";
                     Decision.index_type := Some None;
                     Decision.expected_improvement := Some "Unknown";
                     Decision.confidence := Some "low" |}, o')).
  { unfold LLMOptimizer.decide_optimization,
      LLMOptimizer._build_optimization_prompt, LLMOptimizer.ollama_chat,
      LLMOptimizer._fallback_decision.
    unfold Py.bind, Py.try_except.
    cbn -[Py.float_of_Z Py.fgt]. rewrite Hdown.
    cbn -[Py.float_of_Z Py.fgt]. rewrite F.
    eexists. reflexivity. }
  destruct D as [o' D].
  eexists. eexists.
  split.
  - unfold AutoTuningAgent.run_optimization_cycle.
    unfold Py.bind at 1 2 3. unfold Py.get, Py.lift.
    rewrite Hemb, Hobs.
    unfold AutoTuningAgent.reason, Py.bind at 1.
    cbn -[Py.float_of_Z Py.fgt LLMOptimizer.decide_optimization Py.bind].
    unfold Py.bind at 1. cbn [Py.ret AutoTuningAgent.no_issues].
    unfold AutoTuningAgent.on_optimizer, Py.zoom.
    cbn [AutoTuningAgent.optimizer AutoTuningAgent.set_db].
    rewrite D.
    reflexivity.
  - cbn. repeat split.
Qed.

Lemma degraded_cycle_reports_no_action_witness :
  exists r a',
    AutoTuningAgent.run_optimization_cycle "nearest documents" "default"
      Scenario.server_down = (Py.Return r, a') /\
    Decision.action (CycleResult.decision r) = Some "no_action" /\
    ActionResult.success (CycleResult.action_result r) = true.
Proof.
  destruct (degraded_cycle_reports_no_action "nearest documents" "default"
              "server closed the connection" Scenario.server_down
              [Py.float_of_Z 1; Py.float_of_Z 0]
              (Py.ResponseError "connection refused"))
    as (r & a' & H & _ & _ & Hd & Hs & _).
  all: try (vm_compute; reflexivity).
  - vm_compute. discriminate.
  - exists r, a'. split; [exact H|]. rewrite Hd. split; [reflexivity|exact Hs].
Defined.

(** ** scripts/benchmark.py: the loop over the queries *)

Section BenchmarkLoop.

Import AutoTuningAgent.



End BenchmarkLoop.



(** ** scripts/load_data.py: the batches *)

Section Loading.

Import LoadData.

Lemma slice_to_len (n : nat) (s : string) :
  (Py.len (Py.slice_to n s) <= n)%nat.
Proof.
  revert n. induction s as [|c s IH]; intros n; cbn [Py.slice_to Py.len]; [lia|].
  destruct (Py.is_continuation c) eqn:Hc.
  - cbn [Py.len]. rewrite Hc. specialize (IH n). lia.
  - destruct n as [|n]; cbn [Py.len]; [lia|]. rewrite Hc. specialize (IH n). lia.
Qed.

Lemma without_set_embedding (doc : document) (emb : list Py.float) :
  embedding doc = None ->
  without_embedding (set_embedding (Some emb) doc) = doc.
Proof. destruct doc; cbn; intros ->; reflexivity. Qed.

Lemma without_embedding_id (doc : document) :
  embedding doc = None -> without_embedding doc = doc.
Proof. destruct doc; cbn; intros ->; reflexivity. Qed.

Lemma map_without_embedding_id (documents : list document) :
  Forall (fun doc => embedding doc = None) documents ->
  map without_embedding documents = documents.
Proof.
  induction 1 as [|doc documents Hd _ IH]; cbn; [reflexivity|].
  rewrite (without_embedding_id doc Hd), IH. reflexivity.
Qed.

Lemma zip_embeddings_without (documents : list document)
      (embeddings : list (list Py.float)) :
  Forall (fun doc => embedding doc = None) documents ->
  map without_embedding (zip_embeddings documents embeddings) = documents.
Proof.
  intros H. revert embeddings.
  induction H as [|doc documents Hd Hds IH]; intros [|emb embeddings];
    try reflexivity.
  - apply (map_without_embedding_id (doc :: documents)).
    constructor; assumption.
  - cbn. rewrite (without_set_embedding doc emb Hd), IH. reflexivity.
Qed.

Lemma forallb_has_embedding (documents : list document) :
  forallb has_embedding documents = true ->
  Forall (fun doc => embedding doc <> None) documents.
Proof.
  rewrite forallb_forall, Forall_forall. intros H doc Hin.
  specialize (H doc Hin). unfold has_embedding in H.
  destruct (embedding doc); [discriminate|discriminate].
Qed.

(** A batch is inserted whole, with its embeddings, by one INSERT, or the
    table is left as it was. *)
Lemma process_batch_spec (documents : list document) (s : t) :
  Forall (fun doc => embedding doc = None) documents ->
  (exists new,
      process_batch documents s
      = (Py.Return tt, snd (process_batch documents s)) /\
      documents_table (snd (process_batch documents s))
      = (documents_table s ++ new)%list /\
      map without_embedding new = documents /\
      Forall (fun doc => embedding doc <> None) new /\
      inserts (snd (process_batch documents s)) = S (inserts s)) \/
  (exists e,
      fst (process_batch documents s) = Py.Raise e /\
      documents_table (snd (process_batch documents s)) = documents_table s /\
      (inserts s <= inserts (snd (process_batch documents s)))%nat).
Proof.
  intros H.
  unfold process_batch, encode_documents, insert_documents, execute_values.
  unfold Py.bind.
  destruct (encode_reply s (encodes s) (map content documents))
    as [embeddings|e]; cbn [fst snd].
  - destruct (forallb has_embedding (zip_embeddings documents embeddings))
      eqn:Hall; cbn [Py.ret Py.raise fst snd inserts insert_fault documents_table].
    + destruct (insert_fault s (inserts s)) as [msg|]; cbn.
      * right. eexists. split; [reflexivity|]. split; [reflexivity|lia].
      * left. exists (zip_embeddings documents embeddings).
        split; [reflexivity|]. split; [reflexivity|].
        split; [apply zip_embeddings_without, H|].
        split; [apply forallb_has_embedding, Hall|reflexivity].
    + right. eexists. split; [reflexivity|]. split; [reflexivity|lia].
  - right. eexists. split; [reflexivity|]. split; [reflexivity|cbn; lia].
Qed.

Lemma firstn_exact {A} (l r : list A) (k : nat) :
  List.length l = k -> firstn k (l ++ r) = l.
Proof.
  intros <-. rewrite firstn_app, Nat.sub_diag, firstn_all. cbn.
  apply app_nil_r.
Qed.

Lemma firstn_past {A} (l r : list A) (k m : nat) :
  List.length l = k -> firstn (k + m) (l ++ r) = (l ++ firstn m r)%list.
Proof. intros <-. apply firstn_app_2. Qed.

Lemma kept_of_cons (it : item) (rest : list item) :
  kept_of (it :: rest)
  = if (Py.len (content (document_of it)) <? 100)%nat
    then kept_of rest else document_of it :: kept_of rest.
Proof.
  unfold kept_of. cbn [map filter].
  destruct (Py.len (content (document_of it)) <? 100)%nat; reflexivity.
Qed.

(** The loop: the table gains whole batches of 100, in the order of the
    dataset; what is left is the batch in progress. *)
Lemma process_items_spec (items : list item) :
  forall (documents : list document) (s : t),
    Forall (fun doc => embedding doc = None) documents ->
    (List.length documents < 100)%nat ->
    exists new n,
      documents_table (snd (process_items items documents s))
      = (documents_table s ++ new)%list /\
      Forall (fun doc => embedding doc <> None) new /\
      List.length new = (100 * n)%nat /\
      match fst (process_items items documents s) with
      | Py.Return rest =>
          (map without_embedding new ++ rest)%list
          = (documents ++ kept_of items)%list /\
          (List.length rest < 100)%nat /\
          Forall (fun doc => embedding doc = None) rest /\
          inserts (snd (process_items items documents s)) = (inserts s + n)%nat
      | Py.Raise _ =>
          map without_embedding new
          = firstn (100 * n) (documents ++ kept_of items) /\
          (100 * n < List.length (documents ++ kept_of items))%nat
      end.
Proof.
  induction items as [|it rest IH]; intros documents s Hnone Hlen.
  - exists [], 0%nat. cbn. rewrite !app_nil_r.
    repeat split; auto.
  - rewrite kept_of_cons. cbn [process_items].
    destruct (Py.len (content (document_of it)) <? 100)%nat eqn:Hshort.
    + apply IH; assumption.
    + assert (Hnone' : Forall (fun doc => embedding doc = None)
                              (documents ++ [document_of it])).
      { apply Forall_app. split; [exact Hnone|]. constructor; [reflexivity|constructor]. }
      assert (Hlen' : List.length (documents ++ [document_of it])
                      = S (List.length documents))
        by (rewrite length_app; cbn; lia).
      destruct (100 <=? List.length (documents ++ [document_of it]))%nat eqn:Hfull.
      * apply Nat.leb_le in Hfull.
        assert (H100 : List.length (documents ++ [document_of it]) = 100%nat) by lia.
        unfold Py.bind.
        destruct (process_batch_spec (documents ++ [document_of it]) s Hnone')
          as [(new1 & Hrun & Htab & Hmap & Hemb & Hins)|(e & Hrun & Htab & Hins)].
        -- rewrite Hrun.
           set (s1 := snd (process_batch (documents ++ [document_of it]) s)) in *.
           destruct (IH [] s1 (Forall_nil _)) as (new2 & n2 & Ht2 & He2 & Hl2 & Hout);
             [cbn; lia|].
           assert (Hl1 : List.length new1 = 100%nat).
           { rewrite <- H100, <- Hmap, length_map. reflexivity. }
           exists (new1 ++ new2)%list, (S n2).
           split; [rewrite Ht2, Htab, app_assoc; reflexivity|].
           split; [apply Forall_app; split; assumption|].
           split; [rewrite length_app; lia|].
           destruct (fst (process_items rest [] s1)) as [left|e].
           ++ destruct Hout as (Hcat & Hrest & Hrn & Hi).
              split; [|split; [exact Hrest|split; [exact Hrn|lia]]].
              rewrite map_app, <- app_assoc, Hcat, Hmap.
              rewrite <- app_assoc. reflexivity.
           ++ destruct Hout as (Hpre & Hlt). cbn [app] in Hpre, Hlt.
              change (documents ++ document_of it :: kept_of rest)%list
                with (documents ++ [document_of it] ++ kept_of rest)%list.
              rewrite app_assoc.
              split.
              ** replace (100 * S n2)%nat with (100 + 100 * n2)%nat by lia.
                 rewrite (firstn_past _ _ 100 (100 * n2) H100).
                 rewrite map_app, Hmap, Hpre. reflexivity.
              ** rewrite length_app. lia.
        -- destruct (process_batch (documents ++ [document_of it]) s)
             as [[u|e'] s1]; cbn [fst snd] in Hrun, Htab, Hins |- *;
             [discriminate|].
           exists [], 0%nat. rewrite app_nil_r.
           split; [exact Htab|]. split; [constructor|]. split; [reflexivity|].
           cbn. split; [reflexivity|]. rewrite length_app. cbn. lia.
      * apply Nat.leb_gt in Hfull.
        destruct (IH (documents ++ [document_of it])%list s Hnone' Hfull)
          as (new & n & Ht & He & Hl & Hout).
        exists new, n. rewrite <- app_assoc in Hout. cbn [app] in Hout.
        repeat split; assumption.
Qed.

Lemma kept_of_bounds (items : list item) :
  Forall (fun doc => tenant_id doc = "wikipedia" /\
                     (100 <= Py.len (content doc) <= 1000)%nat)
         (kept_of items).
Proof.
  unfold kept_of. rewrite Forall_forall. intros doc Hin.
  apply filter_In in Hin. destruct Hin as [Hin Hlong].
  apply in_map_iff in Hin. destruct Hin as (it & <- & _).
  split; [reflexivity|].
  apply negb_true_iff, Nat.ltb_ge in Hlong.
  split; [exact Hlong|]. apply slice_to_len.
Qed.

Lemma rows_are_loaded (new originals : list document) :
  Forall (fun doc => embedding doc <> None) new ->
  Forall (fun doc => tenant_id doc = "wikipedia" /\
                     (100 <= Py.len (content doc) <= 1000)%nat)
         originals ->
  (exists later, (map without_embedding new ++ later)%list = originals) ->
  Forall loaded new.
Proof.
  intros Hemb Hall (later & <-).
  apply Forall_app in Hall. destruct Hall as [Hall _].
  rewrite Forall_forall in *. intros doc Hin.
  split; [apply Hemb, Hin|].
  apply (Hall (without_embedding doc)), in_map, Hin.
Qed.

End Loading.

(** X22. When the loading returns, the table has gained exactly the
    documents that the loop keeps of the first [num_documents] items, in
    the order of the dataset, none lost and none twice: every item whose
    text, cut at 1000 characters, has at least 100.  Each row has an
    embedding, the tenant [wikipedia] and a content of 100 to 1000
    characters, and the rows were sent in the least number of bulk
    inserts of at most 100 rows. *)
Theorem load_inserts_every_kept_document (num_documents : Z)
        (dataset : list LoadData.item) (s s' : LoadData.t) :
  LoadData.load_documents num_documents dataset s = (Py.Return tt, s') ->
  exists new n,
    LoadData.documents_table s' = (LoadData.documents_table s ++ new)%list /\
    map without_embedding new = kept num_documents dataset /\
    Forall loaded new /\
    LoadData.inserts s' = (LoadData.inserts s + n)%nat /\
    (List.length (kept num_documents dataset) <= 100 * n
     < List.length (kept num_documents dataset) + 100)%nat.
Proof.
  unfold LoadData.load_documents, kept, Py.bind.
  set (items := firstn (Z.to_nat num_documents) dataset).
  destruct (process_items_spec items [] s (Forall_nil _))
    as (new & n & Ht & He & Hl & Hout); [cbn; lia|].
  destruct (LoadData.process_items items [] s) as [[rest|e] s1];
    cbn [fst snd app] in Ht, Hout |- *; [|discriminate].
  destruct Hout as (Hcat & Hrest & Hnone & Hins).
  destruct rest as [|doc rest].
  - intros E. inversion E; subst s'. rewrite app_nil_r in Hcat.
    exists new, n.
    split; [exact Ht|]. split; [exact Hcat|].
    split; [apply (rows_are_loaded new (kept_of items) He (kept_of_bounds items));
            exists []; rewrite app_nil_r; exact Hcat|].
    split; [exact Hins|].
    rewrite <- Hcat, length_map, Hl. lia.
  - intros E.
    destruct (process_batch_spec (doc :: rest) s1 Hnone)
      as [(new1 & Hrun & Htab & Hmap & Hemb & Hins1)|(e & Hrun & _)];
      rewrite E in *; cbn [fst snd] in *; [|discriminate].
    exists (new ++ new1)%list, (S n).
    split; [rewrite Htab, Ht, app_assoc; reflexivity|].
    assert (Hall : map without_embedding (new ++ new1) = kept_of items)
      by (rewrite map_app, Hmap; exact Hcat).
    split; [exact Hall|].
    split; [apply (rows_are_loaded (new ++ new1) (kept_of items));
            [apply Forall_app; split; assumption|apply kept_of_bounds|
             exists []; rewrite app_nil_r; exact Hall]|].
    split; [lia|].
    rewrite <- Hcat, length_app, length_map, Hl. cbn [List.length] in Hrest |- *.
    lia.
Qed.

Lemma load_inserts_every_kept_document_witness :
  exists s' new,
    LoadData.load_documents 5 LoadScenario.dataset LoadScenario.fresh
    = (Py.Return tt, s') /\
    LoadData.documents_table s' = new /\
    map LoadData.metadata_title new = ["April"; "Art"; "Coffee"] /\
    Forall loaded new.
Proof.
  assert (E : exists s',
             LoadData.load_documents 5 LoadScenario.dataset LoadScenario.fresh
             = (Py.Return tt, s'))
    by (eexists; vm_compute; reflexivity).
  destruct E as (s' & E).
  destruct (load_inserts_every_kept_document 5 LoadScenario.dataset
              LoadScenario.fresh s' E) as (new & n & Ht & Hmap & Hl & _).
  exists s', new. cbn [app LoadData.documents_table LoadScenario.fresh] in Ht.
  split; [exact E|]. split; [exact Ht|]. split; [|exact Hl].
  assert (T : map LoadData.metadata_title (map without_embedding new)
              = ["April"; "Art"; "Coffee"]) by (rewrite Hmap; vm_compute; reflexivity).
  rewrite map_map in T. exact T.
Defined.

(** X23. When the loading raises, because the model or an insert fails,
    the batches inserted before the failure stay in the table: it has
    gained the first [100 * n] of the documents that the loop keeps, for
    some [n], and at least one kept document is missing; there is no
    rollback of the earlier batches and no partial batch. *)
Theorem load_failure_keeps_whole_batches (num_documents : Z)
        (dataset : list LoadData.item) (s s' : LoadData.t) (e : Py.exn) :
  LoadData.load_documents num_documents dataset s = (Py.Raise e, s') ->
  exists new n,
    LoadData.documents_table s' = (LoadData.documents_table s ++ new)%list /\
    map without_embedding new = firstn (100 * n) (kept num_documents dataset) /\
    (100 * n < List.length (kept num_documents dataset))%nat /\
    Forall loaded new.
Proof.
  unfold LoadData.load_documents, kept, Py.bind.
  set (items := firstn (Z.to_nat num_documents) dataset).
  destruct (process_items_spec items [] s (Forall_nil _))
    as (new & n & Ht & He & Hl & Hout); [cbn; lia|].
  destruct (LoadData.process_items items [] s) as [[rest|e0] s1];
    cbn [fst snd app] in Ht, Hout |- *.
  - destruct Hout as (Hcat & Hrest & Hnone & Hins).
    destruct rest as [|doc rest]; [discriminate|].
    intros E.
    destruct (process_batch_spec (doc :: rest) s1 Hnone)
      as [(new1 & Hrun & _)|(e1 & _ & Htab & _)];
      rewrite E in *; cbn [fst snd] in *; [discriminate|].
    exists new, n.
    split; [rewrite Htab; exact Ht|].
    split; [rewrite <- Hcat; symmetry; apply firstn_exact;
            rewrite length_map; exact Hl|].
    split; [rewrite <- Hcat, length_app, length_map, Hl; cbn; lia|].
    apply (rows_are_loaded new (kept_of items) He (kept_of_bounds items)).
    eexists. exact Hcat.
  - intros E. inversion E; subst e0 s1. destruct Hout as (Hpre & Hlt).
    exists new, n.
    split; [exact Ht|]. split; [exact Hpre|]. split; [exact Hlt|].
    apply (rows_are_loaded new (kept_of items) He (kept_of_bounds items)).
    exists (skipn (100 * n) (kept_of items)).
    rewrite Hpre. apply firstn_skipn.
Qed.

Lemma load_failure_keeps_whole_batches_witness :
  exists e s' new,
    LoadData.load_documents 250 LoadScenario.pages LoadScenario.second_insert_fails
    = (Py.Raise e, s') /\
    LoadData.documents_table s' = new /\
    List.length new = 100%nat /\
    Forall loaded new.
Proof.
  pose (r := LoadData.load_documents 250 LoadScenario.pages
               LoadScenario.second_insert_fails).
  assert (F : exists e, fst r = Py.Raise e) by (eexists; vm_compute; reflexivity).
  destruct F as (e & F).
  assert (E : LoadData.load_documents 250 LoadScenario.pages
                LoadScenario.second_insert_fails = (Py.Raise e, snd r)).
  { rewrite <- F. unfold r.
    destruct (LoadData.load_documents 250 LoadScenario.pages
                LoadScenario.second_insert_fails); reflexivity. }
  destruct (load_failure_keeps_whole_batches 250 LoadScenario.pages
              LoadScenario.second_insert_fails (snd r) e E)
    as (new & n & Ht & _ & _ & Hl).
  cbn [app LoadData.documents_table LoadScenario.second_insert_fails] in Ht.
  exists e, (snd r), new.
  split; [exact E|]. split; [exact Ht|]. split; [|exact Hl].
  rewrite <- Ht. vm_compute. reflexivity.
Defined.
